(** * The WebSocket framing core of octowebsocket ([octowebsocket/_abnf.py])

    A shallow embedding of the frame encoder ([ABNF.format]), the masking
    transform ([_mask]), the frame decoder ([frame_buffer]) and the message
    reassembler ([continuous_frame]), followed by the properties proved about
    them.

    Conventions of the embedding.
    - Python's non-negative integers (flags, opcodes, lengths, offsets) are
      [N]; bit operations are [N.lor], [N.land], [N.shiftl], [N.shiftr] and
      [N.lxor].  Negative integers are outside the model.
    - A byte is [Byte.byte]; [bytes] and [bytearray] objects are byte lists
      tagged with their kind ([pybuf]), because only a [bytearray] can be
      written in place.  The [str] alternative of [Union[str, bytes]] is
      outside the model: every payload here is a byte payload.
    - A method that mutates [self] is a function in the state-and-exception
      monad [M] over the object's fields; a raised exception is the outcome
      [Raise], and the object keeps the fields it had when the exception was
      raised.
    - The only loop that need not terminate, [frame_buffer.recv_strict], takes
      a fuel argument and answers [OutOfFuel] when the fuel is used up.
    - The interpreter is a 64-bit CPython: a size or an index has to be below
      [2^63].  Memory is not bounded: no allocation fails for want of it. *)

From Stdlib Require Import Arith NArith List Strings.Byte String Bool Lia.
Import ListNotations.
Open Scope N_scope.

(** ** Bytes and Python sequence operations *)

Definition bytes := list byte.

(** [len(x)] *)
Definition len {A : Type} (l : list A) : N := N.of_nat (List.length l).

(** [x[a:b]] for [0 <= a]: both ends are clamped to the length. *)
Definition slice {A : Type} (l : list A) (a b : N) : list A :=
  firstn (N.to_nat (b - a)) (skipn (N.to_nat a) l).

(** [x[a:]] *)
Definition slice_from {A : Type} (l : list A) (a : N) : list A :=
  skipn (N.to_nat a) l.

(** [x[:b]] *)
Definition slice_to {A : Type} (l : list A) (b : N) : list A :=
  firstn (N.to_nat b) l.

(** [x * n] on sequences. *)
Fixpoint seq_mul {A : Type} (l : list A) (n : nat) : list A :=
  match n with
  | O => []
  | S k => l ++ seq_mul l k
  end.

(** The byte whose value is [x mod 256]. *)
Definition byte_of_N (x : N) : byte :=
  match Byte.of_N (x mod 256) with
  | Some b => b
  | None => x00
  end.

(** XOR of two bytes. *)
Definition byte_xor (a b : byte) : byte :=
  byte_of_N (N.lxor (Byte.to_N a) (Byte.to_N b)).

(** A [bytes] object is immutable, a [bytearray] is mutable.  A [PyByteArray]
    that stays in a field across an update is the same Python object with new
    content; a [PyBytes] is always a value of its own. *)
Inductive pybuf : Type :=
| PyBytes (b : bytes)
| PyByteArray (b : bytes).

Definition contents (d : pybuf) : bytes :=
  match d with
  | PyBytes b => b
  | PyByteArray b => b
  end.

(** ** Exceptions and outcomes *)

Inductive exn : Type :=
| WebSocketProtocolException (msg : string) (arg : option N)
| WebSocketPayloadException (msg : string) (payload : bytes)
| WebSocketConnectionClosedException (msg : string)
| ValueError (msg : string)
| TypeError (msg : string)
| OverflowError (msg : string)
| UnicodeEncodeError (msg : string)
| StructError (msg : string)
| OSError (msg : string).

Inductive outcome (A : Type) : Type :=
| Ok (a : A)
| Raise (e : exn)
| OutOfFuel.

Arguments Ok {A} a.
Arguments Raise {A} e.
Arguments OutOfFuel {A}.

Definition obind {A B : Type} (o : outcome A) (k : A -> outcome B) : outcome B :=
  match o with
  | Ok a => k a
  | Raise e => Raise e
  | OutOfFuel => OutOfFuel
  end.

Notation "'let?' x ':=' o 'in' k" := (obind o (fun x => k))
  (at level 10, x name, o at level 100, k at level 200).

(** The state-and-exception monad of a method of an object with fields [St]. *)
Definition M (St A : Type) : Type := St -> outcome A * St.

Definition ret {St A : Type} (a : A) : M St A := fun s => (Ok a, s).

Definition raise {St A : Type} (e : exn) : M St A := fun s => (Raise e, s).

Definition out_of_fuel {St A : Type} : M St A := fun s => (OutOfFuel, s).

Definition lift {St A : Type} (o : outcome A) : M St A := fun s => (o, s).

Definition get {St : Type} : M St St := fun s => (Ok s, s).

Definition put {St : Type} (s : St) : M St unit := fun _ => (Ok tt, s).

Definition bind {St A B : Type} (m : M St A) (k : A -> M St B) : M St B :=
  fun s =>
    match m s with
    | (Ok a, s') => k a s'
    | (Raise e, s') => (Raise e, s')
    | (OutOfFuel, s') => (OutOfFuel, s')
    end.

Notation "x <- m ;; k" := (bind m (fun x => k))
  (at level 61, m at next level, right associativity).
Notation "m ;; k" := (bind m (fun _ => k))
  (at level 61, right associativity).

(** ** Integers as byte strings *)

Inductive byteorder : Type := little | big.

Fixpoint from_le (bs : bytes) : N :=
  match bs with
  | [] => 0
  | b :: r => Byte.to_N b + 256 * from_le r
  end.

Fixpoint to_le (n : nat) (x : N) : bytes :=
  match n with
  | O => []
  | S k => byte_of_N x :: to_le k (x / 256)
  end.

(** [int.from_bytes(bs, byteorder)] *)
Definition int_from_bytes (bs : bytes) (bo : byteorder) : N :=
  match bo with
  | little => from_le bs
  | big => from_le (rev bs)
  end.

(** [x.to_bytes(n, byteorder)]: [OverflowError] when [x] needs more than [n]
    bytes. *)
Definition int_to_bytes (x : N) (n : N) (bo : byteorder) : outcome bytes :=
  if x <? 256 ^ n then
    Ok (match bo with
        | little => to_le (N.to_nat n) x
        | big => rev (to_le (N.to_nat n) x)
        end)
  else Raise (OverflowError "int too big to convert").

(** [struct.pack("!H", x)] and [struct.pack("!Q", x)]: [width] bytes, big
    endian. *)
Definition struct_pack (width : N) (x : N) : outcome bytes :=
  if x <? 256 ^ width then Ok (rev (to_le (N.to_nat width) x))
  else Raise (StructError "argument out of range").

(** [struct.unpack("!H", v)[0]] and [struct.unpack("!Q", v)[0]] *)
Definition struct_unpack (width : N) (v : bytes) : outcome N :=
  if len v =? width then Ok (from_le (rev v))
  else Raise (StructError "unpack requires a buffer of the right size").

(** [bytearray(n)]: [n] zero bytes.  The size has to fit a [Py_ssize_t],
    which has 64 bits here ([sys.maxsize = 2^63 - 1]); a larger one is an
    [OverflowError].  Memory itself is not bounded in the model. *)
Definition bytearray (n : N) : outcome bytes :=
  if n <? 2 ^ 63 then Ok (repeat x00 (N.to_nat n))
  else Raise (OverflowError "cannot fit 'int' into an index-sized integer").

(** [chr(x).encode("latin-1")] *)
Definition chr_latin1 (x : N) : outcome bytes :=
  match Byte.of_N x with
  | Some b => Ok [b]
  | None =>
      if x <? 0x110000
      then Raise (UnicodeEncodeError "latin-1 codec cannot encode character")
      else Raise (ValueError "chr() arg not in range(0x110000)")
  end.

(** ** The masking transform *)

(** [_mask] (the pure-Python fallback used when wsaccel is absent). *)
Definition _mask (native_byteorder : byteorder) (mask_value data_value : bytes)
  : outcome bytes :=
  let datalen := len data_value in
  let int_data_value := int_from_bytes data_value native_byteorder in
  let int_mask_value :=
    int_from_bytes
      (seq_mul mask_value (N.to_nat (datalen / 4)) ++ slice_to mask_value (datalen mod 4))
      native_byteorder in
  int_to_bytes (N.lxor int_data_value int_mask_value) datalen native_byteorder.

(** ** Closing status codes *)

Definition STATUS_NORMAL : N := 1000.
Definition STATUS_GOING_AWAY : N := 1001.
Definition STATUS_PROTOCOL_ERROR : N := 1002.
Definition STATUS_UNSUPPORTED_DATA_TYPE : N := 1003.
Definition STATUS_STATUS_NOT_AVAILABLE : N := 1005.
Definition STATUS_ABNORMAL_CLOSED : N := 1006.
Definition STATUS_INVALID_PAYLOAD : N := 1007.
Definition STATUS_POLICY_VIOLATION : N := 1008.
Definition STATUS_MESSAGE_TOO_BIG : N := 1009.
Definition STATUS_INVALID_EXTENSION : N := 1010.
Definition STATUS_UNEXPECTED_CONDITION : N := 1011.
Definition STATUS_SERVICE_RESTART : N := 1012.
Definition STATUS_TRY_AGAIN_LATER : N := 1013.
Definition STATUS_BAD_GATEWAY : N := 1014.
Definition STATUS_TLS_HANDSHAKE_ERROR : N := 1015.

Definition VALID_CLOSE_STATUS : list N :=
  [ STATUS_NORMAL;
    STATUS_GOING_AWAY;
    STATUS_PROTOCOL_ERROR;
    STATUS_UNSUPPORTED_DATA_TYPE;
    STATUS_INVALID_PAYLOAD;
    STATUS_POLICY_VIOLATION;
    STATUS_MESSAGE_TOO_BIG;
    STATUS_INVALID_EXTENSION;
    STATUS_UNEXPECTED_CONDITION;
    STATUS_SERVICE_RESTART;
    STATUS_TRY_AGAIN_LATER;
    STATUS_BAD_GATEWAY ].

(** [x in xs] for integers. *)
Definition py_in (x : N) (xs : list N) : bool := existsb (N.eqb x) xs.

(** ** class ABNF *)

Module ABNF.

(** operation code values. *)
Definition OPCODE_CONT : N := 0x0.
Definition OPCODE_TEXT : N := 0x1.
Definition OPCODE_BINARY : N := 0x2.
Definition OPCODE_CLOSE : N := 0x8.
Definition OPCODE_PING : N := 0x9.
Definition OPCODE_PONG : N := 0xA.

(** available operation code value tuple *)
Definition OPCODES : list N :=
  [ OPCODE_CONT; OPCODE_TEXT; OPCODE_BINARY; OPCODE_CLOSE; OPCODE_PING; OPCODE_PONG ].

(** data length threshold. *)
Definition LENGTH_7 : N := 0x7E.
Definition LENGTH_16 : N := N.shiftl 1 16.
Definition LENGTH_63 : N := N.shiftl 1 63.

(** The fields of a frame object.  [get_mask_key] is not a field here: the
    bytes that [self.get_mask_key(4)] returns are an argument of [format]. *)
Record t : Type := mk {
  fin : N;
  rsv1 : N;
  rsv2 : N;
  rsv3 : N;
  opcode : N;
  mask_value : N;
  data : pybuf;
  data_start_offset_bytes : N;
  data_msg_length_bytes : N
}.

(** [ABNF(fin, rsv1, rsv2, rsv3, opcode, mask_value, data,
    data_start_offset_bytes, data_msg_length_bytes)] *)
Definition __init__ (fin rsv1 rsv2 rsv3 opcode mask_value : N) (data : pybuf)
    (data_start_offset_bytes data_msg_length_bytes : option N) : t :=
  mk fin rsv1 rsv2 rsv3 opcode mask_value data
     (match data_start_offset_bytes with None => 0 | Some o => o end)
     (match data_msg_length_bytes with None => len (contents data) | Some l => l end).

Definition _is_valid_close_status (code : N) : bool :=
  py_in code VALID_CLOSE_STATUS || ((3000 <=? code) && (code <? 5000)).

(** [int(self.data[i])] *)
Definition byte_at (d : bytes) (i : nat) : N := Byte.to_N (nth i d x00).

Section Validate.

(** [validate_utf8] of [_utils.py] is not part of these sources; [validate]
    is parametric in it. *)
Variable validate_utf8 : bytes -> bool.

Definition validate (self : t) (skip_utf8_validation : bool) : outcome unit :=
  if negb (rsv1 self =? 0) || negb (rsv2 self =? 0) || negb (rsv3 self =? 0) then
    Raise (WebSocketProtocolException "rsv is not implemented, yet" None)
  else if negb (py_in (opcode self) OPCODES) then
    Raise (WebSocketProtocolException "Invalid opcode %r" (Some (opcode self)))
  else if (opcode self =? OPCODE_PING) && (fin self =? 0) then
    Raise (WebSocketProtocolException "Invalid ping frame." None)
  else if opcode self =? OPCODE_CLOSE then
    let l := len (contents (data self)) in
    if l =? 0 then Ok tt
    else if (l =? 1) || (126 <=? l) then
      Raise (WebSocketProtocolException "Invalid close frame." None)
    else if (2 <? l) && negb skip_utf8_validation
            && negb (validate_utf8 (slice_from (contents (data self)) 2)) then
      Raise (WebSocketProtocolException "Invalid close frame." None)
    else
      let code := 256 * byte_at (contents (data self)) 0 + byte_at (contents (data self)) 1 in
      if negb (_is_valid_close_status code) then
        Raise (WebSocketProtocolException "Invalid close opcode %r" (Some code))
      else Ok tt
  else Ok tt.

End Validate.

(** [ABNF.create_frame(data, opcode, fin, use_frame_mask,
    data_start_offset_bytes, data_msg_length_bytes)] for a byte payload. *)
Definition create_frame (data : pybuf) (opcode : N) (fin : N) (use_frame_mask : bool)
    (data_start_offset_bytes data_msg_length_bytes : option N) : t :=
  let mask_value := if use_frame_mask then 1 else 0 in
  __init__ fin 0 0 0 opcode mask_value data data_start_offset_bytes data_msg_length_bytes.

(** A [memoryview] slice: the object it views and the bounds of the view. *)
Record memoryview : Type := mkview {
  obj : pybuf;
  start : N;
  stop : N
}.

(** The bytes a view shows. *)
Definition tobytes (v : memoryview) : bytes := slice (contents (obj v)) (start v) (stop v).

(** [buf[a:b] = v]: only a [bytearray] supports it. *)
Definition setslice (buf : pybuf) (a b : N) (v : bytes) : outcome pybuf :=
  match buf with
  | PyBytes _ => Raise (TypeError "'bytes' object does not support item assignment")
  | PyByteArray c => Ok (PyByteArray (slice_to c a ++ v ++ slice_from c b))
  end.

Section NativeByteOrder.

(** [sys.byteorder] *)
Variable native_byteorder : byteorder.

(** [ABNF.mask(mask_key, data)] *)
Definition mask (mask_key : bytes) (data : bytes) : outcome bytes :=
  _mask native_byteorder mask_key data.

Definition _get_masked (self : t) (mask_key : bytes) : outcome bytes :=
  let? s := mask mask_key (contents (data self)) in
  Ok (mask_key ++ s).

(** The value of the local [frame_header] of [format]: the first byte, the
    mask bit with the length field, and the extended length. *)
Definition frame_header (self : t) : outcome bytes :=
  let? b0 := chr_latin1 (N.lor (N.lor (N.lor (N.lor (N.shiftl (fin self) 7)
                                                    (N.shiftl (rsv1 self) 6))
                                             (N.shiftl (rsv2 self) 5))
                                      (N.shiftl (rsv3 self) 4))
                               (opcode self)) in
  if data_msg_length_bytes self <? LENGTH_7 then
    let? b1 := chr_latin1 (N.lor (N.shiftl (mask_value self) 7) (data_msg_length_bytes self)) in
    Ok (b0 ++ b1)
  else if data_msg_length_bytes self <? LENGTH_16 then
    let? b1 := chr_latin1 (N.lor (N.shiftl (mask_value self) 7) 0x7E) in
    let? ext := struct_pack 2 (data_msg_length_bytes self) in
    Ok (b0 ++ b1 ++ ext)
  else
    let? b1 := chr_latin1 (N.lor (N.shiftl (mask_value self) 7) 0x7F) in
    let? ext := struct_pack 8 (data_msg_length_bytes self) in
    Ok (b0 ++ b1 ++ ext).

(** [self.format()], where [mask_key] is what [self.get_mask_key(4)] returns
    when the method calls it. *)
Definition format (mask_key : bytes) : M t memoryview :=
  self <- get ;;
  if existsb (fun x => negb (py_in x [0; 1])) [fin self; rsv1 self; rsv2 self; rsv3 self] then
    raise (ValueError "not 0 or 1")
  else if negb (py_in (opcode self) OPCODES) then
    raise (ValueError "Invalid OPCODE")
  else if LENGTH_63 <=? data_msg_length_bytes self then
    raise (ValueError "data is too long")
  else
    frame_header <- lift (frame_header self) ;;
    (* If the data needs to be masked, mask it. *)
    (if negb (mask_value self =? 0) then
       masked <- lift (_get_masked self mask_key) ;;
       put (mk (fin self) (rsv1 self) (rsv2 self) (rsv3 self) (opcode self) (mask_value self)
               (PyBytes masked) 0 (len masked))
     else ret tt) ;;
    self <- get ;;
    (* If there is enough space in the data buffer, write the frame header
       there without copying. *)
    let frame_header_len := len frame_header in
    (if frame_header_len <? data_start_offset_bytes self then
       d <- lift (setslice (data self)
                           (data_start_offset_bytes self - frame_header_len)
                           (data_start_offset_bytes self) frame_header) ;;
       put (mk (fin self) (rsv1 self) (rsv2 self) (rsv3 self) (opcode self) (mask_value self)
               d
               (data_start_offset_bytes self - frame_header_len)
               (data_msg_length_bytes self + frame_header_len))
     else
       (* Otherwise, copy the data to a new buffer. *)
       let d := frame_header ++ contents (data self) in
       put (mk (fin self) (rsv1 self) (rsv2 self) (rsv3 self) (opcode self) (mask_value self)
               (PyBytes d) 0 (len d))) ;;
    (* Return a memoryview of the data buffer that contains the frame. *)
    self <- get ;;
    ret (mkview (data self)
                (data_start_offset_bytes self)
                (data_start_offset_bytes self + data_msg_length_bytes self)).

End NativeByteOrder.

End ABNF.

(** ** class frame_buffer *)

(** What one call of the [recv_into_fn] callable does with the view it is
    given: it raises, or it fills a prefix of the view with the bytes [bs] and
    returns their number.  A return value of 0 is the byte source's
    end-of-stream signal. *)
Inductive reply : Type :=
| Filled (bs : bytes)
| Raises (e : exn).

Module frame_buffer.

Definition _HEADER_MASK_INDEX : nat := 5.
Definition _HEADER_LENGTH_INDEX : nat := 6.

(** The 7-tuple [(fin, rsv1, rsv2, rsv3, opcode, has_mask, length_bits)]. *)
Definition header_t : Type := (N * N * N * N * N * N * N)%type.

Section ByteSource.

(** The byte source behind [self.recv_into]: its states, and what a call with
    a view of [k] bytes answers from a state. *)
Variable S : Type.
Variable recv_into_fn : S -> N -> reply * S.

(** [validate_utf8] of [_utils.py] (not part of these sources) and
    [sys.byteorder]. *)
Variable validate_utf8 : bytes -> bool.
Variable native_byteorder : byteorder.

(** The fields of a decoder; [source] is the state of the byte source.  The
    [lock] field is left out: the model is sequential. *)
Record t : Type := mk {
  source : S;
  skip_utf8_validation : bool;
  header : option header_t;
  length : option N;
  mask_value : option bytes
}.

Definition __init__ (s : S) (skip_utf8_validation : bool) : t :=
  mk s skip_utf8_validation None None None.

Definition clear : M t unit :=
  self <- get ;;
  put (mk (source self) (skip_utf8_validation self) None None None).

Definition has_received_header (self : t) : bool :=
  match header self with None => true | Some _ => false end.

Definition has_received_length (self : t) : bool :=
  match length self with None => true | Some _ => false end.

Definition has_received_mask (self : t) : bool :=
  match mask_value self with None => true | Some _ => false end.

(** [self.recv_into(view)] for a view of [k] bytes: the bytes written into the
    view (a view of [k] bytes takes at most [k]). *)
Definition recv_into (k : N) : M t bytes :=
  fun self =>
    let '(r, s') := recv_into_fn (source self) k in
    let self' := mk s' (skip_utf8_validation self) (header self) (length self)
                    (mask_value self) in
    match r with
    | Filled bs => (Ok (slice_to bs k), self')
    | Raises e => (Raise e, self')
    end.

(** The [while shortage > 0] loop of [recv_strict]. *)
Fixpoint recv_strict_loop (fuel : nat) (shortage recv_so_far_bytes : N) (buffer : bytes)
  : M t bytes :=
  if shortage =? 0 then ret buffer
  else
    match fuel with
    | O => out_of_fuel
    | Datatypes.S fuel' =>
        let this_read_size_bytes := N.min 131072 shortage in
        chunk <- recv_into this_read_size_bytes ;;
        let bytes_read := len chunk in
        let buffer := slice_to buffer recv_so_far_bytes ++ chunk
                      ++ slice_from buffer (recv_so_far_bytes + bytes_read) in
        recv_strict_loop fuel' (shortage - bytes_read) (recv_so_far_bytes + bytes_read) buffer
    end.

Definition recv_strict (fuel : nat) (bufsize : N) : M t bytes :=
  let shortage := bufsize in
  buffer <- lift (bytearray bufsize) ;;
  recv_strict_loop fuel shortage 0 buffer.

Definition recv_header (fuel : nat) : M t unit :=
  header_buffer <- recv_strict fuel 2 ;;
  let b1 := Byte.to_N (nth 0 header_buffer x00) in
  let fin := N.land (N.shiftr b1 7) 1 in
  let rsv1 := N.land (N.shiftr b1 6) 1 in
  let rsv2 := N.land (N.shiftr b1 5) 1 in
  let rsv3 := N.land (N.shiftr b1 4) 1 in
  let opcode := N.land b1 0xF in
  let b2 := Byte.to_N (nth 1 header_buffer x00) in
  let has_mask := N.land (N.shiftr b2 7) 1 in
  let length_bits := N.land b2 0x7F in
  self <- get ;;
  put (mk (source self) (skip_utf8_validation self)
          (Some (fin, rsv1, rsv2, rsv3, opcode, has_mask, length_bits))
          (length self) (mask_value self)).

Definition has_mask (self : t) : N :=
  match header self with
  | None => 0
  | Some (_, _, _, _, _, has_mask, _) => has_mask
  end.

Definition set_length (l : N) : M t unit :=
  self <- get ;;
  put (mk (source self) (skip_utf8_validation self) (header self) (Some l) (mask_value self)).

Definition recv_length (fuel : nat) : M t unit :=
  self <- get ;;
  match header self with
  | None => raise (TypeError "'NoneType' object is not subscriptable")
  | Some (_, _, _, _, _, _, bits) =>
      let length_bits := N.land bits 0x7F in
      if length_bits =? 0x7E then
        v <- recv_strict fuel 2 ;;
        l <- lift (struct_unpack 2 v) ;;
        set_length l
      else if length_bits =? 0x7F then
        v <- recv_strict fuel 8 ;;
        l <- lift (struct_unpack 8 v) ;;
        set_length l
      else set_length length_bits
  end.

Definition recv_mask (fuel : nat) : M t unit :=
  self <- get ;;
  m <- (if negb (has_mask self =? 0) then recv_strict fuel 4 else ret []) ;;
  self <- get ;;
  put (mk (source self) (skip_utf8_validation self) (header self) (length self) (Some m)).

Definition recv_frame (fuel : nat) : M t ABNF.t :=
  (* Header *)
  self <- get ;;
  (if has_received_header self then recv_header fuel else ret tt) ;;
  self <- get ;;
  match header self with
  | None => raise (TypeError "cannot unpack non-iterable NoneType object")
  | Some (fin, rsv1, rsv2, rsv3, opcode, has_mask, _) =>
      (* Frame length *)
      (if has_received_length self then recv_length fuel else ret tt) ;;
      self <- get ;;
      match length self with
      | None => raise (TypeError "'NoneType' object cannot be interpreted as an integer")
      | Some length =>
          (* Mask *)
          (if has_received_mask self then recv_mask fuel else ret tt) ;;
          self <- get ;;
          match mask_value self with
          | None => raise (TypeError "a bytes-like object is required, not 'NoneType'")
          | Some mask_value =>
              (* Payload *)
              payload <- recv_strict fuel length ;;
              payload <- (if negb (has_mask =? 0)
                          then m <- lift (ABNF.mask native_byteorder mask_value payload) ;;
                               ret (PyBytes m)
                          else ret (PyByteArray payload)) ;;
              (* Reset for next frame *)
              clear ;;
              let frame := ABNF.__init__ fin rsv1 rsv2 rsv3 opcode has_mask payload None None in
              self <- get ;;
              lift (ABNF.validate validate_utf8 frame (skip_utf8_validation self)) ;;
              ret frame
          end
      end
  end.

End ByteSource.

Arguments mk {S}.
Arguments source {S}.
Arguments skip_utf8_validation {S}.
Arguments header {S}.
Arguments length {S}.
Arguments mask_value {S}.
Arguments __init__ {S}.
Arguments clear {S}.
Arguments has_mask {S}.
Arguments set_length {S}.
Arguments recv_into {S}.
Arguments recv_strict_loop {S}.
Arguments recv_strict {S}.
Arguments recv_header {S}.
Arguments recv_length {S}.
Arguments recv_mask {S}.
Arguments recv_frame {S}.

End frame_buffer.

(** ** class continuous_frame *)

Module continuous_frame.

(** The fields of a reassembler; [cont_data] is the two-element list
    [[opcode, data]] or [None]. *)
Record t : Type := mk {
  fire_cont_frame : bool;
  skip_utf8_validation : bool;
  cont_data : option (N * pybuf);
  recving_frames : option N
}.

Definition __init__ (fire_cont_frame skip_utf8_validation : bool) : t :=
  mk fire_cont_frame skip_utf8_validation None None.

Definition is_building (self : t) : bool :=
  match cont_data self with None => false | Some _ => true end.

(** Truth value of [self.recving_frames] ([None] or an opcode). *)
Definition truthy (o : option N) : bool :=
  match o with
  | None => false
  | Some n => negb (n =? 0)
  end.

Definition validate (frame : ABNF.t) : M t unit :=
  self <- get ;;
  if negb (truthy (recving_frames self)) && (ABNF.opcode frame =? ABNF.OPCODE_CONT) then
    raise (WebSocketProtocolException "Illegal frame" None)
  else if truthy (recving_frames self)
          && py_in (ABNF.opcode frame) [ABNF.OPCODE_TEXT; ABNF.OPCODE_BINARY] then
    raise (WebSocketProtocolException "Illegal frame" None)
  else ret tt.

(** [x += y] on byte buffers: a [bytearray] is extended in place, a [bytes]
    is replaced by the concatenation. *)
Definition iadd (x : pybuf) (y : pybuf) : pybuf :=
  match x with
  | PyBytes b => PyBytes (b ++ contents y)
  | PyByteArray b => PyByteArray (b ++ contents y)
  end.

Definition add (frame : ABNF.t) : M t unit :=
  self <- get ;;
  (match cont_data self with
   | Some (op, d) =>
       put (mk (fire_cont_frame self) (skip_utf8_validation self)
               (Some (op, iadd d (ABNF.data frame))) (recving_frames self))
   | None =>
       let recving :=
         if py_in (ABNF.opcode frame) [ABNF.OPCODE_TEXT; ABNF.OPCODE_BINARY]
         then Some (ABNF.opcode frame) else recving_frames self in
       put (mk (fire_cont_frame self) (skip_utf8_validation self)
               (Some (ABNF.opcode frame, ABNF.data frame)) recving)
   end) ;;
  self <- get ;;
  if negb (ABNF.fin frame =? 0) then
    put (mk (fire_cont_frame self) (skip_utf8_validation self) (cont_data self) None)
  else ret tt.

Definition is_fire (self : t) (frame : ABNF.t) : bool :=
  negb (ABNF.fin frame =? 0) || fire_cont_frame self.

(** [frame.data = d] *)
Definition set_data (frame : ABNF.t) (d : pybuf) : ABNF.t :=
  ABNF.mk (ABNF.fin frame) (ABNF.rsv1 frame) (ABNF.rsv2 frame) (ABNF.rsv3 frame)
          (ABNF.opcode frame) (ABNF.mask_value frame) d
          (ABNF.data_start_offset_bytes frame) (ABNF.data_msg_length_bytes frame).

Section Extract.

(** [validate_utf8] of [_utils.py], not part of these sources. *)
Variable validate_utf8 : bytes -> bool.

Definition extract (frame : ABNF.t) : M t (N * ABNF.t) :=
  self <- get ;;
  match cont_data self with
  | None => raise (TypeError "'NoneType' object is not subscriptable")
  | Some (op, d) =>
      put (mk (fire_cont_frame self) (skip_utf8_validation self) None (recving_frames self)) ;;
      let frame := set_data frame d in
      if negb (fire_cont_frame self)
         && (op =? ABNF.OPCODE_TEXT)
         && negb (skip_utf8_validation self)
         && negb (validate_utf8 (contents (ABNF.data frame))) then
        raise (WebSocketPayloadException "cannot decode" (contents (ABNF.data frame)))
      else ret (op, frame)
  end.

(** Modelled from the spec: the per-frame driver [process(frame) ->
    Option<(opcode, payload)>] of section 4.4, which is not in these sources
    (the caller of [continuous_frame] lives in the connection layer).  A
    control frame (CLOSE, PING, PONG) is emitted immediately and the state is
    not touched; a data frame goes through [validate], [add] and, when
    [is_fire] says so, [extract]. *)
Definition process (frame : ABNF.t) : M t (option (N * ABNF.t)) :=
  if py_in (ABNF.opcode frame) [ABNF.OPCODE_CLOSE; ABNF.OPCODE_PING; ABNF.OPCODE_PONG] then
    ret (Some (ABNF.opcode frame, frame))
  else
    validate frame ;;
    add frame ;;
    self <- get ;;
    if is_fire self frame then
      m <- extract frame ;;
      ret (Some m)
    else ret None.

(** [process] over a sequence of frames, in order: what each frame emitted.
    The run stops at the first exception. *)
Fixpoint process_all (frames : list ABNF.t) : M t (list (option (N * ABNF.t))) :=
  match frames with
  | [] => ret []
  | f :: rest =>
      o <- process f ;;
      os <- process_all rest ;;
      ret (o :: os)
  end.

End Extract.

End continuous_frame.

(** ** The UTF-8 validator *)

(** [lo <= b <= hi] on a byte. *)
Definition in_range (b : byte) (lo hi : N) : bool :=
  (lo <=? Byte.to_N b) && (Byte.to_N b <=? hi).

(** Modelled from the spec: [validate_utf8] of [_utils.py], which is not in
    these sources.  Section 4.5: it accepts a byte slice and returns a boolean,
    implementing RFC 3629 precisely: overlong encodings, the surrogate range
    U+D800..U+DFFF and code points above U+10FFFF are rejected.  The
    definitions of the decoder and the reassembler above take the validator as
    a parameter; this one instantiates it in concrete runs. *)
Fixpoint utf8_valid (bs : bytes) : bool :=
  match bs with
  | [] => true
  | b0 :: r0 =>
      if in_range b0 0x00 0x7F then utf8_valid r0
      else if in_range b0 0xC2 0xDF then
        match r0 with
        | b1 :: r1 => in_range b1 0x80 0xBF && utf8_valid r1
        | _ => false
        end
      else if in_range b0 0xE0 0xEF then
        match r0 with
        | b1 :: b2 :: r2 =>
            (if in_range b0 0xE0 0xE0 then in_range b1 0xA0 0xBF
             else if in_range b0 0xED 0xED then in_range b1 0x80 0x9F
             else in_range b1 0x80 0xBF)
            && in_range b2 0x80 0xBF && utf8_valid r2
        | _ => false
        end
      else if in_range b0 0xF0 0xF4 then
        match r0 with
        | b1 :: b2 :: b3 :: r3 =>
            (if in_range b0 0xF0 0xF0 then in_range b1 0x90 0xBF
             else if in_range b0 0xF4 0xF4 then in_range b1 0x80 0x8F
             else in_range b1 0x80 0xBF)
            && in_range b2 0x80 0xBF && in_range b3 0x80 0xBF && utf8_valid r3
        | _ => false
        end
      else false
  end.

(** ** Concrete byte sources *)

(** A source that holds the bytes still to come and hands out at most [cap]
    of them per call; once they are used up every call returns 0 bytes. *)
Definition stream_source (cap : N) (pending : bytes) (k : N) : reply * bytes :=
  (Filled (slice_to pending (N.min cap k)), slice_from pending (N.min cap k)).

(** A source that answers its calls from a script, one reply per call; once
    the script is used up every call returns 0 bytes. *)
Definition script_source (script : list reply) (k : N) : reply * list reply :=
  match script with
  | [] => (Filled [], [])
  | r :: rest => (r, rest)
  end.

(** A source that records its calls: the size of each view it was given and
    what the call did, with the bytes it wrote into the view. *)
Definition logged {S : Type} (recv_into_fn : S -> N -> reply * S)
    (s : S * list (N * reply)) (k : N) : reply * (S * list (N * reply)) :=
  let '(r, s') := recv_into_fn (fst s) k in
  let seen := match r with Filled bs => Filled (slice_to bs k) | Raises e => Raises e end in
  (r, (s', snd s ++ [(k, seen)])).

(** The bytes a logged call wrote. *)
Definition chunk_of (entry : N * reply) : bytes :=
  match snd entry with
  | Filled bs => bs
  | Raises _ => []
  end.

(** All the bytes the calls of a log wrote, in order. *)
Definition delivered (log : list (N * reply)) : bytes := List.concat (map chunk_of log).

(** No call of the log raised. *)
Definition all_filled (log : list (N * reply)) : Prop :=
  Forall (fun entry => exists bs, snd entry = Filled bs) log.

(** Every call of a log asked for exactly [min(131072, remaining)] bytes,
    where [remaining] is what was still missing of [bufsize] when the call was
    made, and got no more than it asked for. *)
Fixpoint requests_ok (remaining : N) (log : list (N * reply)) : Prop :=
  match log with
  | [] => True
  | entry :: rest =>
      fst entry = N.min 131072 remaining
      /\ len (chunk_of entry) <= fst entry
      /\ requests_ok (remaining - len (chunk_of entry)) rest
  end.

(** ** Encoding and decoding one frame *)

(** The wire bytes of [ABNF.create_frame(payload, opcode, fin,
    use_frame_mask).format()]. *)
Definition encode (native_byteorder : byteorder) (opcode fin : N) (payload : bytes)
    (use_frame_mask : bool) (mask_key : bytes) : outcome bytes :=
  let frame := ABNF.create_frame (PyBytes payload) opcode fin use_frame_mask None None in
  let? v := fst (ABNF.format native_byteorder mask_key frame) in
  Ok (ABNF.tobytes v).

(** [recv_frame()] of a fresh decoder whose byte source holds [wire] and
    hands out at most [cap] bytes per call. *)
Definition decode (validate_utf8 : bytes -> bool) (native_byteorder : byteorder)
    (skip_utf8_validation : bool) (cap : N) (fuel : nat) (wire : bytes)
  : outcome ABNF.t * frame_buffer.t bytes :=
  frame_buffer.recv_frame (stream_source cap) validate_utf8 native_byteorder fuel
    (frame_buffer.__init__ wire skip_utf8_validation).

(** The byte string of [n] zero bytes and the ASCII bytes of a string. *)
Definition zeros (n : nat) : bytes := repeat x00 n.

Definition ascii_bytes (s : string) : bytes := list_byte_of_string s.

(** ** Reference definitions used in the statements *)

(** Byte-wise XOR of two byte strings, up to the shorter one. *)
Fixpoint xor_bytes (a b : bytes) : bytes :=
  match a, b with
  | x :: a', y :: b' => byte_xor x y :: xor_bytes a' b'
  | _, _ => []
  end.

(** The key stream [_mask] builds for [n] bytes of data. *)
Definition keystream (mask_value : bytes) (datalen : N) : bytes :=
  seq_mul mask_value (N.to_nat (datalen / 4)) ++ slice_to mask_value (datalen mod 4).

(** The byte-by-byte reference of section 4.1, following the spec's words:
    [data'[i] = data[i] XOR key4[i mod 4]], here from index [i] on. *)
Fixpoint mask_ref_from (i : nat) (key4 data : bytes) : bytes :=
  match data with
  | [] => []
  | b :: r => byte_xor b (nth (Nat.modulo i 4) key4 x00) :: mask_ref_from (Datatypes.S i) key4 r
  end.

Definition mask_ref (key4 data : bytes) : bytes := mask_ref_from 0 key4 data.

(** Byte [i] (counted from the least significant one) of the big-endian
    encoding of [L]. *)
Definition be_digit (L i : N) : byte := byte_of_N (L / 256 ^ i).

(** The header of section 4.2, following the spec's words: byte 0 is
    [fin<<7 | rsv1<<6 | rsv2<<5 | rsv3<<4 | opcode], byte 1 is
    [mask_bit<<7 | length_field], and the extended length is absent, 2 bytes
    or 8 bytes, big endian. *)
Definition header_spec (fin rsv1 rsv2 rsv3 opcode mask_bit L : N) : bytes :=
  byte_of_N (N.lor (N.lor (N.lor (N.lor (N.shiftl fin 7) (N.shiftl rsv1 6))
                                 (N.shiftl rsv2 5))
                          (N.shiftl rsv3 4))
                   opcode)
  :: (if L <? 126 then
        [byte_of_N (N.lor (N.shiftl mask_bit 7) L)]
      else if L <? 2 ^ 16 then
        [byte_of_N (N.lor (N.shiftl mask_bit 7) 126); be_digit L 1; be_digit L 0]
      else
        [byte_of_N (N.lor (N.shiftl mask_bit 7) 127);
         be_digit L 7; be_digit L 6; be_digit L 5; be_digit L 4;
         be_digit L 3; be_digit L 2; be_digit L 1; be_digit L 0]).

(** The frames [format] accepts: flags that are 0 or 1, a known opcode, a
    mask flag that is 0 or 1 and a message length below [2^63]. *)
Definition encodable (f : ABNF.t) : Prop :=
  ABNF.fin f < 2 /\ ABNF.rsv1 f < 2 /\ ABNF.rsv2 f < 2 /\ ABNF.rsv3 f < 2
  /\ In (ABNF.opcode f) ABNF.OPCODES
  /\ ABNF.mask_value f < 2
  /\ ABNF.data_msg_length_bytes f < 2 ^ 63.

(** The header [header_spec] gives for the fields of a frame. *)
Definition header_of (f : ABNF.t) : bytes :=
  header_spec (ABNF.fin f) (ABNF.rsv1 f) (ABNF.rsv2 f) (ABNF.rsv3 f) (ABNF.opcode f)
              (ABNF.mask_value f) (ABNF.data_msg_length_bytes f).

(** The close codes section 3 allows on the wire, following the spec's
    words. *)
Definition valid_close_code (c : N) : Prop :=
  In c [1000; 1001; 1002; 1003; 1007; 1008; 1009; 1010; 1011; 1012; 1013; 1014]
  \/ (3000 <= c /\ c < 5000).

(** The big-endian status code formed by the first two bytes of a close
    payload. *)
Definition close_code (payload : bytes) : N := int_from_bytes (slice_to payload 2) big.

(** A CLOSE frame with the given flag bits and payload, as the decoder builds
    it. *)
Definition close_frame (fin rsv1 rsv2 rsv3 : N) (payload : bytes) : ABNF.t :=
  ABNF.__init__ fin rsv1 rsv2 rsv3 ABNF.OPCODE_CLOSE 0 (PyByteArray payload) None None.

(** The two-byte big-endian encoding of a status code. *)
Definition code_bytes (c : N) : bytes := [be_digit c 1; be_digit c 0].

(** A control frame: CLOSE, PING or PONG. *)
Definition is_control (f : ABNF.t) : bool :=
  py_in (ABNF.opcode f) [ABNF.OPCODE_CLOSE; ABNF.OPCODE_PING; ABNF.OPCODE_PONG].

(** A frame that may come between the first and the last fragment of a
    message: a control frame, or a CONT frame with fin=0. *)
Definition middle_frame (f : ABNF.t) : Prop :=
  is_control f = true \/ (ABNF.opcode f = ABNF.OPCODE_CONT /\ ABNF.fin f = 0).

(** What the reassembler emits for a middle frame: a control frame is
    emitted as it is, a fragment emits nothing. *)
Definition emitted (f : ABNF.t) : option (N * ABNF.t) :=
  if is_control f then Some (ABNF.opcode f, f) else None.

(** The payloads of the fragments (the frames that are not control frames)
    among the middle frames, concatenated in order. *)
Fixpoint fragment_payloads (frames : list ABNF.t) : bytes :=
  match frames with
  | [] => []
  | f :: rest =>
      (if is_control f then [] else contents (ABNF.data f)) ++ fragment_payloads rest
  end.

(** The reassembler before any frame and between two messages. *)
Definition idle (fire_cont_frame skip_utf8_validation : bool) : continuous_frame.t :=
  continuous_frame.mk fire_cont_frame skip_utf8_validation None None.

(** The reassembler while a message of opcode [op] is being built, with the
    payload [acc] accumulated so far. *)
Definition building (fire_cont_frame skip_utf8_validation : bool) (op : N) (acc : pybuf)
  : continuous_frame.t :=
  continuous_frame.mk fire_cont_frame skip_utf8_validation (Some (op, acc)) (Some op).

(** The same buffer object with other content. *)
Definition with_contents (d : pybuf) (b : bytes) : pybuf :=
  match d with
  | PyBytes _ => PyBytes b
  | PyByteArray _ => PyByteArray b
  end.

(** A frame with the given opcode, fin bit and payload, as the decoder builds
    an unmasked one. *)
Definition data_frame (opcode fin : N) (payload : bytes) : ABNF.t :=
  ABNF.__init__ fin 0 0 0 opcode 0 (PyByteArray payload) None None.

(** A decoder with another state of its byte source. *)
Definition with_source {S S' : Type} (st : frame_buffer.t S) (s : S') : frame_buffer.t S' :=
  frame_buffer.mk s (frame_buffer.skip_utf8_validation st) (frame_buffer.header st)
                  (frame_buffer.length st) (frame_buffer.mask_value st).


(** ** Frames on the wire *)

(** The three forms of the length field: the 7-bit field alone, the field
    126 with a 2-byte extended length, the field 127 with an 8-byte extended
    length. *)
Inductive length_form : Type := len7 | len16 | len64.

(** The lengths a form can carry. *)
Definition fits (form : length_form) (L : N) : Prop :=
  match form with
  | len7 => L < 126
  | len16 => L < 2 ^ 16
  | len64 => L < 2 ^ 64
  end.

(** The 7-bit length field and the extended length that carry [L] in a
    form. *)
Definition length_field (form : length_form) (L : N) : N * bytes :=
  match form with
  | len7 => (L, [])
  | len16 => (126, [be_digit L 1; be_digit L 0])
  | len64 => (127, [be_digit L 7; be_digit L 6; be_digit L 5; be_digit L 4;
                    be_digit L 3; be_digit L 2; be_digit L 1; be_digit L 0])
  end.

(** The shortest form that carries [L], the one [format] uses. *)
Definition shortest_form (L : N) : length_form :=
  if L <? 126 then len7 else if L <? 2 ^ 16 then len16 else len64.

(** A frame as it travels: the flag bits, the opcode, the form of its length
    field, the mask key when it is masked, and the payload in the clear. *)
Record wire_frame : Type := mkwire {
  w_fin : N;
  w_rsv1 : N;
  w_rsv2 : N;
  w_rsv3 : N;
  w_opcode : N;
  w_form : length_form;
  w_key : option bytes;
  w_payload : bytes
}.

(** The same frame with its length in another form. *)
Definition with_form (w : wire_frame) (form : length_form) : wire_frame :=
  mkwire (w_fin w) (w_rsv1 w) (w_rsv2 w) (w_rsv3 w) (w_opcode w) form (w_key w) (w_payload w).

(** The mask bit of a frame on the wire. *)
Definition mask_bit (key : option bytes) : N :=
  match key with
  | Some _ => 1
  | None => 0
  end.

(** The bytes of a frame on the wire: the two header bytes, the extended
    length, the mask key and the payload, masked when there is a key. *)
Definition wire_bytes (w : wire_frame) : bytes :=
  byte_of_N (N.lor (N.lor (N.lor (N.lor (N.shiftl (w_fin w) 7) (N.shiftl (w_rsv1 w) 6))
                                 (N.shiftl (w_rsv2 w) 5))
                          (N.shiftl (w_rsv3 w) 4))
                   (w_opcode w))
  :: byte_of_N (N.lor (N.shiftl (mask_bit (w_key w)) 7)
                      (fst (length_field (w_form w) (len (w_payload w)))))
  :: snd (length_field (w_form w) (len (w_payload w)))
  ++ match w_key w with
     | Some k => k ++ mask_ref k (w_payload w)
     | None => w_payload w
     end.

(** What any two header bytes can express: flag bits that are 0 or 1, a
    4-bit opcode, a length that fits the form, and a 4-byte key. *)
Definition well_formed (w : wire_frame) : Prop :=
  w_fin w < 2 /\ w_rsv1 w < 2 /\ w_rsv2 w < 2 /\ w_rsv3 w < 2
  /\ w_opcode w < 16
  /\ fits (w_form w) (len (w_payload w))
  /\ match w_key w with
     | Some k => List.length k = 4%nat
     | None => True
     end.

(** The frame object the decoder builds for a frame on the wire: an unmasked
    payload stays in the [bytearray] it was read into, a masked one is the
    [bytes] object [ABNF.mask] returns. *)
Definition received (w : wire_frame) : ABNF.t :=
  ABNF.__init__ (w_fin w) (w_rsv1 w) (w_rsv2 w) (w_rsv3 w) (w_opcode w) (mask_bit (w_key w))
    (match w_key w with
     | Some _ => PyBytes (w_payload w)
     | None => PyByteArray (w_payload w)
     end)
    None None.

(** [frame.validate(skip_utf8_validation); return frame] *)
Definition verdict (validate_utf8 : bytes -> bool) (skip_utf8_validation : bool) (frame : ABNF.t)
  : outcome ABNF.t :=
  let? _ := ABNF.validate validate_utf8 frame skip_utf8_validation in
  Ok frame.

(** ** Reads of the decoder *)

(** What [recv_strict(n)] returns, and the state it leaves the byte source
    in, for a decoder whose byte source is in state [s]. *)
Definition read {S : Type} (recv_into_fn : S -> N -> reply * S) (fuel : nat) (s : S) (n : N)
  : outcome bytes * S :=
  let r := frame_buffer.recv_strict recv_into_fn fuel n (frame_buffer.__init__ s false) in
  (fst r, frame_buffer.source (snd r)).

(** A step of the decoder that depends on a read: it goes on with the bytes
    read, or ends as the read ended; either way the byte source is left where
    the read left it. *)
Definition after_read {S A : Type} (r : outcome bytes * S) (st : frame_buffer.t S)
    (k : bytes -> frame_buffer.t S -> outcome A * frame_buffer.t S)
  : outcome A * frame_buffer.t S :=
  match fst r with
  | Ok b => k b (with_source st (snd r))
  | Raise e => (Raise e, with_source st (snd r))
  | OutOfFuel => (OutOfFuel, with_source st (snd r))
  end.

(** The 7-tuple [recv_header] stores for the two header bytes. *)
Definition parse_header (header_buffer : bytes) : frame_buffer.header_t :=
  let b1 := Byte.to_N (nth 0 header_buffer x00) in
  let b2 := Byte.to_N (nth 1 header_buffer x00) in
  (N.land (N.shiftr b1 7) 1, N.land (N.shiftr b1 6) 1, N.land (N.shiftr b1 5) 1,
   N.land (N.shiftr b1 4) 1, N.land b1 0xF, N.land (N.shiftr b2 7) 1, N.land b2 0x7F).

(** The exception [e] is one the byte source raises on some call. *)
Definition source_raises {S : Type} (recv_into_fn : S -> N -> reply * S) (e : exn) : Prop :=
  exists (s : S) (k : N) (s' : S), recv_into_fn s k = (Raises e, s').

(** A source like [stream_source] that raises [e] once: on the first call
    made when exactly [at_] bytes have been handed out.  The state is the
    offset still armed, the number of bytes handed out and the bytes still to
    come. *)
Definition interrupted_source (cap : N) (e : exn) (s : option N * N * bytes) (k : N)
  : reply * (option N * N * bytes) :=
  let '(at_, pos, pending) := s in
  if match at_ with Some a => a =? pos | None => false end then
    (Raises e, (None, pos, pending))
  else
    (Filled (slice_to pending (N.min cap k)),
     (at_, pos + len (slice_to pending (N.min cap k)), slice_from pending (N.min cap k))).

(** The bytes of the mask key of a frame on the wire. *)
Definition key_bytes (key : option bytes) : bytes :=
  match key with
  | Some k => k
  | None => []
  end.

(** The offsets in the bytes of a frame on the wire at which its four parts
    start: the header, the extended length, the mask key and the payload.  A
    part that is absent starts where the next one does. *)
Definition part_starts (w : wire_frame) : list N :=
  let ext := snd (length_field (w_form w) (len (w_payload w))) in
  [0; 2; 2 + len ext; 2 + len ext + len (key_bytes (w_key w))].

(** ** The state of the decoder between two calls *)

(** The values [recv_header] can store: one-bit flags, a 4-bit opcode, a
    one-bit mask flag and a 7-bit length field. *)
Definition header_in_range (hd : frame_buffer.header_t) : Prop :=
  let '(fin, rsv1, rsv2, rsv3, opcode, has_mask, length_bits) := hd in
  fin < 2 /\ rsv1 < 2 /\ rsv2 < 2 /\ rsv3 < 2 /\ opcode < 16 /\ has_mask < 2
  /\ length_bits < 128.

(** The parts of a frame are held in order: a length only with a header, a
    mask key only with a length; the header is one [recv_header] stored, and a
    held mask key has 4 bytes when the header says the frame is masked and is
    empty when it says it is not. *)
Definition decoder_ok {S : Type} (st : frame_buffer.t S) : Prop :=
  match frame_buffer.header st, frame_buffer.length st, frame_buffer.mask_value st with
  | None, None, None => True
  | Some hd, None, None => header_in_range hd
  | Some hd, Some _, None => header_in_range hd
  | Some hd, Some _, Some k =>
      header_in_range hd
      /\ (if frame_buffer.has_mask st =? 0 then k = [] else List.length k = 4%nat)
  | _, _, _ => False
  end.

(** The decoder holds no part of a frame. *)
Definition cleared {S : Type} (st : frame_buffer.t S) : Prop :=
  frame_buffer.header st = None /\ frame_buffer.length st = None
  /\ frame_buffer.mask_value st = None.

(** The decoder holds the three parts of a frame whose length is [2^63] or
    more: the payload read will ask [bytearray] for a size it refuses. *)
Definition oversized {S : Type} (st : frame_buffer.t S) : Prop :=
  exists (hd : frame_buffer.header_t) (l : N) (k : bytes),
    frame_buffer.header st = Some hd
    /\ frame_buffer.length st = Some l
    /\ frame_buffer.mask_value st = Some k
    /\ 2 ^ 63 <= l.

(** What a call of [recv_frame] made with the flag [sk] ends with: the parts
    are held in order and the flag is unchanged; a frame that is returned has
    passed [validate] and no part is held any more; an exception is one the
    byte source raised, or it is a protocol error and no part is held any
    more, or it is the [OverflowError] of [bytearray] and the three parts of
    an oversized frame are held. *)
Definition sound_call {S : Type} (recv_into_fn : S -> N -> reply * S)
    (validate_utf8 : bytes -> bool) (sk : bool)
    (res : outcome ABNF.t * frame_buffer.t S) : Prop :=
  decoder_ok (snd res)
  /\ frame_buffer.skip_utf8_validation (snd res) = sk
  /\ match fst res with
     | Ok f => cleared (snd res) /\ ABNF.validate validate_utf8 f sk = Ok tt
     | Raise e =>
         source_raises recv_into_fn e
         \/ (cleared (snd res)
             /\ exists (msg : string) (arg : option N),
                  e = WebSocketProtocolException msg arg)
         \/ (oversized (snd res)
             /\ e = OverflowError "cannot fit 'int' into an index-sized integer")
     | OutOfFuel => True
     end.

(** The decoder after [n] calls of [recv_frame], whatever each of them ended
    with. *)
Fixpoint after_calls {S : Type} (recv_into_fn : S -> N -> reply * S)
    (validate_utf8 : bytes -> bool) (native_byteorder : byteorder) (fuel : nat)
    (n : nat) (st : frame_buffer.t S) : frame_buffer.t S :=
  match n with
  | O => st
  | Datatypes.S n' =>
      after_calls recv_into_fn validate_utf8 native_byteorder fuel n'
        (snd (frame_buffer.recv_frame recv_into_fn validate_utf8 native_byteorder fuel st))
  end.

(** ** The state of the reassembler between two frames *)

(** The two fields of the reassembler go together: either no message is
    being built and both are [None], or a TEXT or BINARY message is being
    built and both hold its opcode. *)
Definition in_step (st : continuous_frame.t) : Prop :=
  match continuous_frame.cont_data st, continuous_frame.recving_frames st with
  | None, None => True
  | Some (op, _), Some op' => op = op' /\ In op [ABNF.OPCODE_TEXT; ABNF.OPCODE_BINARY]
  | _, _ => False
  end.

(** ** Rotating a mask key *)

(** The key whose byte [j] is byte [(n + j) mod 4] of [key], for [n <= 4]. *)
Definition rotate (key : bytes) (n : nat) : bytes := skipn n key ++ firstn n key.


(** * Properties *)

(** ** The monad *)

Lemma bind_get {St A : Type} (k : St -> M St A) (s : St) :
  bind get k s = k s s.
Proof. reflexivity. Qed.

Lemma bind_put {St A : Type} (s' : St) (k : unit -> M St A) (s : St) :
  bind (put s') k s = k tt s'.
Proof. reflexivity. Qed.

Lemma bind_ret {St A B : Type} (a : A) (k : A -> M St B) (s : St) :
  bind (ret a) k s = k a s.
Proof. reflexivity. Qed.

Lemma bind_raise {St A B : Type} (e : exn) (k : A -> M St B) (s : St) :
  bind (raise e) k s = (Raise e, s).
Proof. reflexivity. Qed.

Lemma bind_lift_ok {St A B : Type} (a : A) (k : A -> M St B) (s : St) :
  bind (lift (Ok a)) k s = k a s.
Proof. reflexivity. Qed.

Lemma bind_lift_raise {St A B : Type} (e : exn) (k : A -> M St B) (s : St) :
  bind (lift (Raise e)) k s = (Raise e, s).
Proof. reflexivity. Qed.

Lemma bind_assoc {St A B C : Type} (m : M St A) (k : A -> M St B) (h : B -> M St C)
    (s : St) :
  bind (bind m k) h s = bind m (fun x => bind (k x) h) s.
Proof. unfold bind. destruct (m s) as [[a|e|] s']; reflexivity. Qed.

(** A step whose outcome is known. *)
Lemma bind_ok {St A B : Type} (m : M St A) (k : A -> M St B) (s s' : St) (a : A) :
  m s = (Ok a, s') -> bind m k s = k a s'.
Proof. unfold bind. now intros ->. Qed.

Lemma bind_fail {St A B : Type} (m : M St A) (k : A -> M St B) (s s' : St) (e : exn) :
  m s = (Raise e, s') -> bind m k s = (Raise e, s').
Proof. unfold bind. now intros ->. Qed.

(** Runs a monadic term as far as its steps are known. *)
Ltac monad_simp :=
  repeat first
    [ rewrite bind_assoc
    | rewrite bind_get
    | rewrite bind_put
    | rewrite bind_ret
    | rewrite bind_raise
    | rewrite bind_lift_ok
    | rewrite bind_lift_raise ].

(** ** Bytes and the masking transform *)

Lemma to_N_lt_256 (b : byte) : Byte.to_N b < 256.
Proof. pose proof (Byte.to_N_bounded b). lia. Qed.

Lemma byte_of_N_to_N (b : byte) : byte_of_N (Byte.to_N b) = b.
Proof.
  unfold byte_of_N. rewrite N.mod_small by apply to_N_lt_256.
  now rewrite Byte.of_to_N.
Qed.

Lemma to_N_byte_of_N (x : N) : Byte.to_N (byte_of_N x) = x mod 256.
Proof.
  unfold byte_of_N.
  destruct (Byte.of_N (x mod 256)) as [b|] eqn:E.
  - now apply Byte.to_of_N.
  - apply Byte.of_N_None_iff in E. pose proof (N.mod_upper_bound x 256). lia.
Qed.

Lemma byte_of_N_small (x : N) (b : byte) : Byte.to_N b = x -> byte_of_N x = b.
Proof. intros <-. apply byte_of_N_to_N. Qed.

(** Bits of [a + 256 * x] for a byte value [a]. *)
Lemma testbit_byte_cons (a x i : N) :
  a < 256 ->
  N.testbit (a + 256 * x) i = if i <? 8 then N.testbit a i else N.testbit x (i - 8).
Proof.
  intros Ha.
  assert (Hm : (a + 256 * x) mod 2 ^ 8 = a).
  { change (2 ^ 8) with 256. rewrite (N.mul_comm 256 x), N.Div0.mod_add.
    now apply N.mod_small. }
  assert (Hd : (a + 256 * x) / 2 ^ 8 = x).
  { change (2 ^ 8) with 256. rewrite (N.mul_comm 256 x), N.div_add by lia.
    rewrite (N.div_small a) by assumption. reflexivity. }
  destruct (N.ltb_spec i 8) as [Hi|Hi].
  - rewrite <- (N.mod_pow2_bits_low (a + 256 * x) 8 i Hi). now rewrite Hm.
  - rewrite <- Hd at 2. rewrite N.div_pow2_bits. f_equal. lia.
Qed.

Lemma lxor_lt_256 (a b : N) : a < 256 -> b < 256 -> N.lxor a b < 256.
Proof.
  intros Ha Hb.
  destruct (N.eq_dec (N.lxor a b) 0) as [->|Hn]; [lia|].
  change 256 with (2 ^ 8). apply N.log2_lt_pow2; [lia|].
  eapply N.le_lt_trans; [apply N.log2_lxor|].
  destruct (N.eq_dec a 0) as [->|Ha0], (N.eq_dec b 0) as [->|Hb0]; simpl;
    try (apply N.max_lub_lt); try (apply N.log2_lt_pow2; simpl; lia); simpl; lia.
Qed.

Lemma lxor_byte_cons (a b x y : N) :
  a < 256 -> b < 256 ->
  N.lxor (a + 256 * x) (b + 256 * y) = N.lxor a b + 256 * N.lxor x y.
Proof.
  intros Ha Hb. apply N.bits_inj. intro i.
  rewrite N.lxor_spec, !testbit_byte_cons by (try assumption; now apply lxor_lt_256).
  destruct (i <? 8); now rewrite N.lxor_spec.
Qed.

Lemma to_N_byte_xor (a b : byte) :
  Byte.to_N (byte_xor a b) = N.lxor (Byte.to_N a) (Byte.to_N b).
Proof.
  unfold byte_xor. rewrite to_N_byte_of_N.
  apply N.mod_small, lxor_lt_256; apply to_N_lt_256.
Qed.

Lemma byte_xor_involutive (a k : byte) : byte_xor (byte_xor a k) k = a.
Proof.
  apply byte_of_N_small.
  rewrite to_N_byte_xor, N.lxor_assoc, N.lxor_nilpotent, N.lxor_0_r. reflexivity.
Qed.

Lemma len_nat {A} (l : list A) : N.to_nat (len l) = List.length l.
Proof. unfold len. apply Nat2N.id. Qed.

Lemma length_slice_to {A} (l : list A) (k : N) : len (slice_to l k) <= k.
Proof.
  unfold len, slice_to. rewrite length_firstn. lia.
Qed.

Lemma len_app {A} (l1 l2 : list A) : len (l1 ++ l2) = len l1 + len l2.
Proof. unfold len. rewrite length_app. lia. Qed.

Lemma len_slice_to_le {A} (l : list A) (p : N) : p <= len l -> len (slice_to l p) = p.
Proof.
  unfold len, slice_to. intros H. rewrite length_firstn. lia.
Qed.

Lemma len_slice_from {A} (l : list A) (p : N) : len (slice_from l p) = len l - p.
Proof. unfold len, slice_from. rewrite length_skipn. lia. Qed.

Lemma slice_to_app_exact {A} (l1 l2 : list A) (p : N) :
  len l1 = p -> slice_to (l1 ++ l2) p = l1.
Proof.
  unfold len, slice_to. intros <-. rewrite Nat2N.id.
  rewrite firstn_app, Nat.sub_diag, firstn_all. cbn [firstn]. apply app_nil_r.
Qed.

Lemma slice_to_all {A} (l : list A) (p : N) : len l <= p -> slice_to l p = l.
Proof.
  unfold len, slice_to. intros H. apply firstn_all2. lia.
Qed.

Lemma from_le_lt (l : bytes) : from_le l < 256 ^ len l.
Proof.
  unfold len. induction l as [|b l IH]; [simpl; lia|].
  cbn [List.length from_le]. rewrite Nat2N.inj_succ, N.pow_succ_r'.
  pose proof (to_N_lt_256 b). lia.
Qed.

Lemma to_le_from_le (l : bytes) : to_le (List.length l) (from_le l) = l.
Proof.
  induction l as [|b l IH]; [reflexivity|].
  cbn [List.length to_le from_le].
  pose proof (to_N_lt_256 b) as Hb. f_equal.
  - unfold byte_of_N.
    rewrite (N.mul_comm 256), N.Div0.mod_add, N.mod_small by assumption.
    now rewrite Byte.of_to_N.
  - rewrite (N.mul_comm 256), N.div_add by lia. rewrite N.div_small by assumption.
    exact IH.
Qed.

Lemma length_xor_bytes (a b : bytes) :
  List.length (xor_bytes a b) = Nat.min (List.length a) (List.length b).
Proof.
  revert b. induction a as [|x a IH]; intros [|y b]; simpl; auto.
Qed.

Lemma from_le_xor (a b : bytes) :
  List.length a = List.length b ->
  N.lxor (from_le a) (from_le b) = from_le (xor_bytes a b).
Proof.
  revert b. induction a as [|x a IH]; intros [|y b] H;
    cbn [List.length from_le xor_bytes] in *; try discriminate.
  - reflexivity.
  - rewrite lxor_byte_cons by apply to_N_lt_256.
    rewrite IH by congruence. now rewrite to_N_byte_xor.
Qed.

Lemma xor_bytes_app (a1 a2 b1 b2 : bytes) :
  List.length a1 = List.length b1 ->
  xor_bytes (a1 ++ a2) (b1 ++ b2) = xor_bytes a1 b1 ++ xor_bytes a2 b2.
Proof.
  revert b1. induction a1 as [|x a1 IH]; intros [|y b1] H; simpl in *; try discriminate.
  - reflexivity.
  - f_equal. apply IH. congruence.
Qed.

Lemma xor_bytes_rev (a b : bytes) :
  List.length a = List.length b ->
  xor_bytes (rev a) (rev b) = rev (xor_bytes a b).
Proof.
  revert b. induction a as [|x a IH]; intros [|y b] H; simpl in *; try discriminate.
  - reflexivity.
  - rewrite xor_bytes_app by (rewrite !length_rev; congruence).
    rewrite IH by congruence. reflexivity.
Qed.

Lemma xor_bytes_involutive (a k : bytes) :
  List.length a = List.length k -> xor_bytes (xor_bytes a k) k = a.
Proof.
  revert k. induction a as [|x a IH]; intros [|y k] H; simpl in *; try discriminate.
  - reflexivity.
  - rewrite byte_xor_involutive, IH by congruence. reflexivity.
Qed.

Lemma length_seq_mul {A} (l : list A) (n : nat) :
  List.length (seq_mul l n) = (n * List.length l)%nat.
Proof. induction n; simpl; [reflexivity|]. rewrite length_app. lia. Qed.

Lemma keystream_nat (key : bytes) (n : N) :
  keystream key n
  = seq_mul key (N.to_nat n / 4)%nat ++ firstn (N.to_nat n mod 4)%nat key.
Proof.
  unfold keystream, slice_to.
  rewrite N2Nat.inj_div, N2Nat.inj_mod. reflexivity.
Qed.

Lemma length_keystream (key : bytes) (n : N) :
  List.length key = 4%nat -> List.length (keystream key n) = N.to_nat n.
Proof.
  intros H. rewrite keystream_nat.
  rewrite length_app, length_seq_mul, length_firstn, H.
  pose proof (Nat.div_mod_eq (N.to_nat n) 4).
  pose proof (Nat.mod_upper_bound (N.to_nat n) 4). lia.
Qed.

Lemma nth_seq_mul_firstn (key : bytes) (q r i : nat) :
  List.length key = 4%nat -> (r < 4)%nat -> (i < 4 * q + r)%nat ->
  nth i (seq_mul key q ++ firstn r key) x00 = nth (i mod 4)%nat key x00.
Proof.
  intros Hk Hr. revert i. induction q as [|q IH]; intros i Hi; cbn [seq_mul app].
  - rewrite Nat.mod_small by lia. rewrite nth_firstn.
    destruct (Nat.ltb_spec i r); [reflexivity|lia].
  - destruct (Nat.lt_ge_cases i 4) as [Hlt|Hge].
    + rewrite <- app_assoc, app_nth1 by lia. now rewrite Nat.mod_small.
    + rewrite <- app_assoc, app_nth2 by lia. rewrite Hk, IH by lia.
      f_equal. replace i with ((i - 4) + 1 * 4)%nat at 2 by lia.
      now rewrite Nat.Div0.mod_add.
Qed.

Lemma nth_keystream (key : bytes) (n : N) (i : nat) :
  List.length key = 4%nat -> (i < N.to_nat n)%nat ->
  nth i (keystream key n) x00 = nth (i mod 4)%nat key x00.
Proof.
  intros Hk Hi. rewrite keystream_nat.
  apply nth_seq_mul_firstn; try assumption.
  - apply Nat.mod_upper_bound. lia.
  - pose proof (Nat.div_mod_eq (N.to_nat n) 4). lia.
Qed.

(** [xor_bytes] against the key stream is the byte-by-byte reference. *)
Lemma xor_keystream_ref (key data : bytes) :
  List.length key = 4%nat ->
  xor_bytes data (keystream key (len data)) = mask_ref key data.
Proof.
  intros Hk.
  assert (G : forall (d ks : bytes) (i : nat),
             List.length ks = List.length d ->
             (forall j, (j < List.length d)%nat -> nth j ks x00 = nth ((i + j) mod 4)%nat key x00) ->
             xor_bytes d ks = mask_ref_from i key d).
  { induction d as [|b d IH]; intros [|k ks] i Hl Hn;
      cbn [List.length xor_bytes mask_ref_from] in *; try discriminate.
    - reflexivity.
    - f_equal.
      + f_equal. specialize (Hn 0%nat). rewrite Nat.add_0_r in Hn. apply Hn. lia.
      + apply IH; [congruence|]. intros j Hj.
        specialize (Hn (Datatypes.S j)). cbn [nth] in Hn. rewrite Hn by lia.
        f_equal. f_equal. lia. }
  unfold mask_ref. apply G.
  - rewrite length_keystream, len_nat by assumption. reflexivity.
  - intros j Hj. rewrite Nat.add_0_l. apply nth_keystream; [assumption|]. now rewrite len_nat.
Qed.

(** [_mask] computes the byte-wise XOR with the key stream. *)
Lemma _mask_xor (bo : byteorder) (key data : bytes) :
  List.length key = 4%nat ->
  _mask bo key data = Ok (xor_bytes data (keystream key (len data))).
Proof.
  intros Hk. unfold _mask. fold (keystream key (len data)).
  set (ks := keystream key (len data)).
  assert (Hl : List.length data = List.length ks).
  { unfold ks. rewrite length_keystream, len_nat by assumption. reflexivity. }
  assert (Hx : List.length (xor_bytes data ks) = List.length data).
  { rewrite length_xor_bytes. lia. }
  unfold int_to_bytes, int_from_bytes. destruct bo.
  - rewrite from_le_xor by assumption.
    pose proof (from_le_lt (xor_bytes data ks)) as Hlt.
    unfold len in Hlt at 1. rewrite Hx in Hlt. fold (len data) in Hlt.
    apply N.ltb_lt in Hlt. rewrite Hlt.
    rewrite len_nat, <- Hx, to_le_from_le. reflexivity.
  - rewrite from_le_xor by (rewrite !length_rev; assumption).
    rewrite xor_bytes_rev by assumption.
    pose proof (from_le_lt (rev (xor_bytes data ks))) as Hlt.
    unfold len in Hlt at 1. rewrite length_rev, Hx in Hlt. fold (len data) in Hlt.
    apply N.ltb_lt in Hlt. rewrite Hlt.
    rewrite len_nat, <- Hx, <- (length_rev (xor_bytes data ks)), to_le_from_le.
    now rewrite rev_involutive.
Qed.

Lemma mask_ok (bo : byteorder) (key data : bytes) :
  List.length key = 4%nat ->
  ABNF.mask bo key data = Ok (mask_ref key data).
Proof.
  intros Hk. unfold ABNF.mask. rewrite _mask_xor by assumption.
  now rewrite xor_keystream_ref.
Qed.

Lemma length_mask_ref_from (i : nat) (key data : bytes) :
  List.length (mask_ref_from i key data) = List.length data.
Proof. revert i. induction data; intros; simpl; auto. Qed.

Lemma length_mask_ref (key data : bytes) :
  List.length (mask_ref key data) = List.length data.
Proof. apply length_mask_ref_from. Qed.

Lemma mask_ref_involutive (key data : bytes) :
  mask_ref key (mask_ref key data) = data.
Proof.
  unfold mask_ref. generalize 0%nat.
  induction data as [|b d IH]; intros i; simpl; [reflexivity|].
  now rewrite byte_xor_involutive, IH.
Qed.

Lemma nth_error_mask_ref_from (key data : bytes) (i j : nat) (b : byte) :
  nth_error data j = Some b ->
  nth_error (mask_ref_from i key data) j
  = Some (byte_xor b (nth ((i + j) mod 4)%nat key x00)).
Proof.
  revert i j. induction data as [|a d IH]; intros i [|j] H;
    cbn [nth_error mask_ref_from] in *; try discriminate.
  - injection H as ->. now rewrite Nat.add_0_r.
  - rewrite (IH (Datatypes.S i) j H).
    now replace (Datatypes.S i + j)%nat with (i + Datatypes.S j)%nat by lia.
Qed.

(** C9: for every 4-byte mask key [k] and every byte sequence [P] (the empty
    one included), masking succeeds, masking the result again with the same
    key gives [P] back, and byte [i] of the masked sequence is [P[i]] XOR
    [k[i mod 4]].  This holds for both values of [sys.byteorder]. *)
Theorem mask_involution (native_byteorder : byteorder) (k P : bytes) :
  List.length k = 4%nat ->
  (let? Q := ABNF.mask native_byteorder k P in ABNF.mask native_byteorder k Q) = Ok P
  /\ exists Q,
       ABNF.mask native_byteorder k P = Ok Q
       /\ List.length Q = List.length P
       /\ forall (i : nat) (b : byte),
            nth_error P i = Some b ->
            nth_error Q i = Some (byte_xor b (nth (i mod 4)%nat k x00)).
Proof.
  intros Hk. rewrite mask_ok by assumption. cbn [obind].
  rewrite mask_ok by assumption. rewrite mask_ref_involutive.
  split; [reflexivity|].
  exists (mask_ref k P). split; [reflexivity|]. split; [apply length_mask_ref|].
  intros i b Hb. unfold mask_ref.
  now rewrite (nth_error_mask_ref_from k P 0 i b Hb).
Qed.

Lemma mask_involution_witness :
  (let? Q := ABNF.mask little [x01; x02; x03; x04] (ascii_bytes "Hello") in
   ABNF.mask little [x01; x02; x03; x04] Q) = Ok (ascii_bytes "Hello")
  /\ exists Q,
       ABNF.mask little [x01; x02; x03; x04] (ascii_bytes "Hello") = Ok Q
       /\ List.length Q = List.length (ascii_bytes "Hello")
       /\ forall (i : nat) (b : byte),
            nth_error (ascii_bytes "Hello") i = Some b ->
            nth_error Q i = Some (byte_xor b (nth (i mod 4)%nat [x01; x02; x03; x04] x00)).
Proof.
  apply (mask_involution little [x01; x02; x03; x04] (ascii_bytes "Hello")).
  reflexivity.
Defined.


(** ** The frame encoder *)

Lemma chr_latin1_small (x : N) : x < 256 -> chr_latin1 x = Ok [byte_of_N x].
Proof.
  intros H. unfold chr_latin1, byte_of_N. rewrite N.mod_small by assumption.
  destruct (Byte.of_N x) eqn:E; [reflexivity|].
  apply Byte.of_N_None_iff in E. lia.
Qed.

Lemma lor_lt_256 (a b : N) : a < 256 -> b < 256 -> N.lor a b < 256.
Proof.
  intros Ha Hb.
  destruct (N.eq_dec (N.lor a b) 0) as [->|Hn]; [lia|].
  change 256 with (2 ^ 8). apply N.log2_lt_pow2; [lia|].
  rewrite N.log2_lor.
  destruct (N.eq_dec a 0) as [->|Ha0], (N.eq_dec b 0) as [->|Hb0]; simpl;
    try (apply N.max_lub_lt); try (apply N.log2_lt_pow2; simpl; lia); simpl; lia.
Qed.

Lemma flag_cases (x : N) : x < 2 -> x = 0 \/ x = 1.
Proof. lia. Qed.

Lemma shiftl_flag_lt (x k : N) : x < 2 -> k <= 7 -> N.shiftl x k < 256.
Proof.
  intros Hx Hk. rewrite N.shiftl_mul_pow2.
  assert (2 ^ k <= 2 ^ 7) by (apply N.pow_le_mono_r; lia).
  change (2 ^ 7) with 128 in *. destruct (flag_cases x Hx); subst; lia.
Qed.

Lemma In_OPCODES_lt (op : N) : In op ABNF.OPCODES -> op < 16.
Proof. intros H. repeat (destruct H as [<-|H]; [reflexivity|]). destruct H. Qed.

Lemma py_in_In (x : N) (xs : list N) : py_in x xs = true <-> In x xs.
Proof.
  unfold py_in. rewrite existsb_exists. split.
  - intros (y & Hy & E). apply N.eqb_eq in E. now subst.
  - intros H. exists x. split; [assumption|apply N.eqb_refl].
Qed.

Lemma struct_pack_2 (L : N) :
  L < 2 ^ 16 -> struct_pack 2 L = Ok [be_digit L 1; be_digit L 0].
Proof.
  intros H. unfold struct_pack. change (256 ^ 2) with (2 ^ 16).
  apply N.ltb_lt in H. rewrite H. unfold be_digit. cbn [N.to_nat Pos.to_nat Pos.iter_op Nat.add to_le rev app].
  now rewrite N.pow_1_r, N.pow_0_r, N.div_1_r.
Qed.

Lemma struct_pack_8 (L : N) :
  L < 2 ^ 64 ->
  struct_pack 8 L = Ok [be_digit L 7; be_digit L 6; be_digit L 5; be_digit L 4;
                        be_digit L 3; be_digit L 2; be_digit L 1; be_digit L 0].
Proof.
  intros H. unfold struct_pack. change (256 ^ 8) with (2 ^ 64).
  apply N.ltb_lt in H. rewrite H. unfold be_digit.
  change (N.to_nat 8) with 8%nat. cbn [to_le rev app].
  rewrite !N.Div0.div_div.
  now rewrite N.pow_1_r, N.pow_0_r, N.div_1_r.
Qed.

(** The header [format] builds is the header of section 4.2. *)
Lemma frame_header_ok (f : ABNF.t) :
  encodable f -> ABNF.frame_header f = Ok (header_of f).
Proof.
  intros (Hfin & H1 & H2 & H3 & Hop & Hm & HL).
  unfold ABNF.frame_header, header_of, header_spec.
  apply In_OPCODES_lt in Hop.
  rewrite chr_latin1_small
    by (repeat apply lor_lt_256; try (apply shiftl_flag_lt; lia); lia).
  cbn [obind].
  change ABNF.LENGTH_7 with 126. change ABNF.LENGTH_16 with (2 ^ 16).
  destruct (N.ltb_spec (ABNF.data_msg_length_bytes f) 126) as [Hs|Hs].
  - rewrite chr_latin1_small
      by (apply lor_lt_256; [apply shiftl_flag_lt; lia | lia]).
    reflexivity.
  - destruct (N.ltb_spec (ABNF.data_msg_length_bytes f) (2 ^ 16)) as [Ht|Ht].
    + rewrite chr_latin1_small
        by (apply lor_lt_256; [apply shiftl_flag_lt; lia | lia]).
      cbn [obind]. rewrite struct_pack_2 by assumption. reflexivity.
    + rewrite chr_latin1_small
        by (apply lor_lt_256; [apply shiftl_flag_lt; lia | lia]).
      cbn [obind]. rewrite struct_pack_8 by (simpl in *; lia). reflexivity.
Qed.

Lemma encodable_checks (f : ABNF.t) :
  encodable f ->
  existsb (fun x => negb (py_in x [0; 1]))
          [ABNF.fin f; ABNF.rsv1 f; ABNF.rsv2 f; ABNF.rsv3 f] = false
  /\ negb (py_in (ABNF.opcode f) ABNF.OPCODES) = false
  /\ (ABNF.LENGTH_63 <=? ABNF.data_msg_length_bytes f) = false.
Proof.
  intros (Hfin & H1 & H2 & H3 & Hop & Hm & HL). repeat split.
  - destruct (flag_cases _ Hfin) as [-> | ->], (flag_cases _ H1) as [-> | ->],
      (flag_cases _ H2) as [-> | ->], (flag_cases _ H3) as [-> | ->]; reflexivity.
  - apply py_in_In in Hop. now rewrite Hop.
  - apply N.leb_gt. exact HL.
Qed.

Lemma slice_all {A} (l : list A) : slice l 0 (0 + len l) = l.
Proof.
  unfold slice. rewrite N.add_0_l, N.sub_0_r, len_nat. cbn [N.to_nat skipn].
  apply firstn_all.
Qed.

Lemma tobytes_whole (d : bytes) :
  ABNF.tobytes (ABNF.mkview (PyBytes d) 0 (0 + len d)) = d.
Proof. apply slice_all. Qed.

(** [format] on a frame that is to be masked: the data becomes
    [mask_key ++ masked], the header is put in front of a copy, and the view
    shows all of it. *)
Lemma format_masked (bo : byteorder) (key : bytes) (f : ABNF.t) (s : bytes) :
  encodable f ->
  ABNF.mask_value f <> 0 ->
  ABNF.mask bo key (contents (ABNF.data f)) = Ok s ->
  let d := header_of f ++ key ++ s in
  ABNF.format bo key f
  = (Ok (ABNF.mkview (PyBytes d) 0 (0 + len d)),
     ABNF.mk (ABNF.fin f) (ABNF.rsv1 f) (ABNF.rsv2 f) (ABNF.rsv3 f) (ABNF.opcode f)
             (ABNF.mask_value f) (PyBytes d) 0 (len d)).
Proof.
  intros He Hm Hs d. destruct (encodable_checks f He) as (C1 & C2 & C3).
  unfold ABNF.format. rewrite bind_get, C1, C2, C3.
  rewrite (frame_header_ok f He), bind_lift_ok.
  apply N.eqb_neq in Hm. rewrite Hm. cbn [negb].
  unfold ABNF._get_masked. rewrite Hs. cbn [obind].
  rewrite bind_assoc, bind_lift_ok, bind_put, bind_get.
  cbn [ABNF.data_start_offset_bytes].
  replace (len (header_of f) <? 0) with false by (symmetry; apply N.ltb_ge; lia).
  reflexivity.
Qed.

(** [format] on an unmasked frame whose head margin does not exceed the
    header: the header is put in front of a copy of the whole buffer. *)
Lemma format_unmasked_copy (bo : byteorder) (key : bytes) (f : ABNF.t) :
  encodable f ->
  ABNF.mask_value f = 0 ->
  ABNF.data_start_offset_bytes f <= len (header_of f) ->
  let d := header_of f ++ contents (ABNF.data f) in
  ABNF.format bo key f
  = (Ok (ABNF.mkview (PyBytes d) 0 (0 + len d)),
     ABNF.mk (ABNF.fin f) (ABNF.rsv1 f) (ABNF.rsv2 f) (ABNF.rsv3 f) (ABNF.opcode f)
             (ABNF.mask_value f) (PyBytes d) 0 (len d)).
Proof.
  intros He Hm Ho d. destruct (encodable_checks f He) as (C1 & C2 & C3).
  unfold ABNF.format. rewrite bind_get, C1, C2, C3.
  rewrite (frame_header_ok f He), bind_lift_ok.
  rewrite Hm. cbn [N.eqb negb].
  rewrite bind_ret, bind_get.
  replace (len (header_of f) <? ABNF.data_start_offset_bytes f) with false
    by (symmetry; apply N.ltb_ge; lia).
  rewrite Hm. reflexivity.
Qed.

(** [format] on an unmasked frame over a [bytearray] whose head margin
    exceeds the header: the header is written into the margin of the same
    buffer and the view runs from the header to the end of the message. *)
Lemma format_unmasked_in_place (bo : byteorder) (key : bytes) (f : ABNF.t) (c : bytes) :
  encodable f ->
  ABNF.mask_value f = 0 ->
  ABNF.data f = PyByteArray c ->
  len (header_of f) < ABNF.data_start_offset_bytes f ->
  let o := ABNF.data_start_offset_bytes f - len (header_of f) in
  let d := PyByteArray (slice_to c o ++ header_of f
                        ++ slice_from c (ABNF.data_start_offset_bytes f)) in
  ABNF.format bo key f
  = (Ok (ABNF.mkview d o (o + (ABNF.data_msg_length_bytes f + len (header_of f)))),
     ABNF.mk (ABNF.fin f) (ABNF.rsv1 f) (ABNF.rsv2 f) (ABNF.rsv3 f) (ABNF.opcode f)
             (ABNF.mask_value f) d o (ABNF.data_msg_length_bytes f + len (header_of f))).
Proof.
  intros He Hm Hd Ho o d. destruct (encodable_checks f He) as (C1 & C2 & C3).
  unfold ABNF.format. rewrite bind_get, C1, C2, C3.
  rewrite (frame_header_ok f He), bind_lift_ok.
  rewrite Hm. cbn [N.eqb negb].
  rewrite bind_ret, bind_get.
  apply N.ltb_lt in Ho. rewrite Ho, Hd. cbn [ABNF.setslice].
  rewrite bind_assoc, bind_lift_ok, bind_put, bind_get, Hm. reflexivity.
Qed.

(** [format] rejects a message length of [2^63] or more. *)
Lemma format_too_long (bo : byteorder) (key : bytes) (f : ABNF.t) :
  2 ^ 63 <= ABNF.data_msg_length_bytes f ->
  exists e, ABNF.format bo key f = (Raise e, f).
Proof.
  intros HL. unfold ABNF.format. rewrite bind_get.
  destruct (existsb _ _); [eexists; reflexivity|].
  destruct (negb _); [eexists; reflexivity|].
  change ABNF.LENGTH_63 with (2 ^ 63).
  apply N.leb_le in HL. rewrite HL. eexists; reflexivity.
Qed.

Lemma length_header_spec_ge (fin rsv1 rsv2 rsv3 opcode m L : N) :
  (2 <= List.length (header_spec fin rsv1 rsv2 rsv3 opcode m L))%nat.
Proof.
  unfold header_spec. destruct (L <? 126); [simpl; lia|].
  destruct (L <? 2 ^ 16); simpl; lia.
Qed.

Lemma length_header_spec_le (fin rsv1 rsv2 rsv3 opcode m L : N) :
  (List.length (header_spec fin rsv1 rsv2 rsv3 opcode m L) <= 10)%nat.
Proof.
  unfold header_spec. destruct (L <? 126); [simpl; lia|].
  destruct (L <? 2 ^ 16); simpl; lia.
Qed.

(** [format] on a frame that is to be masked, when masking fails. *)
Lemma format_masked_fail (bo : byteorder) (key : bytes) (f : ABNF.t) :
  encodable f ->
  ABNF.mask_value f <> 0 ->
  (forall s, ABNF.mask bo key (contents (ABNF.data f)) <> Ok s) ->
  forall v f', ABNF.format bo key f <> (Ok v, f').
Proof.
  intros He Hm Hs v f'. destruct (encodable_checks f He) as (C1 & C2 & C3).
  unfold ABNF.format. rewrite bind_get, C1, C2, C3.
  rewrite (frame_header_ok f He), bind_lift_ok.
  apply N.eqb_neq in Hm. rewrite Hm. cbn [negb].
  unfold ABNF._get_masked.
  destruct (ABNF.mask bo key (contents (ABNF.data f))) as [s|e|] eqn:E.
  - now destruct (Hs s).
  - cbn [obind]. rewrite bind_assoc, bind_lift_raise. discriminate.
  - cbn [obind]. rewrite bind_assoc. unfold bind, lift. discriminate.
Qed.

(** [format] on an unmasked frame over an immutable [bytes] object whose
    declared head margin exceeds the header: the in-place write raises. *)
Lemma format_unmasked_immutable (bo : byteorder) (key : bytes) (f : ABNF.t) (c : bytes) :
  encodable f ->
  ABNF.mask_value f = 0 ->
  ABNF.data f = PyBytes c ->
  len (header_of f) < ABNF.data_start_offset_bytes f ->
  ABNF.format bo key f
  = (Raise (TypeError "'bytes' object does not support item assignment"), f).
Proof.
  intros He Hm Hd Ho. destruct (encodable_checks f He) as (C1 & C2 & C3).
  unfold ABNF.format. rewrite bind_get, C1, C2, C3.
  rewrite (frame_header_ok f He), bind_lift_ok.
  rewrite Hm. cbn [N.eqb negb].
  rewrite bind_ret, bind_get.
  apply N.ltb_lt in Ho. rewrite Ho, Hd. cbn [ABNF.setslice].
  rewrite bind_assoc, bind_lift_raise. reflexivity.
Qed.

Lemma chr_latin1_ok (x : N) (b : bytes) : chr_latin1 x = Ok b -> x < 256.
Proof.
  unfold chr_latin1. destruct (Byte.of_N x) as [y|] eqn:E.
  - intros _. apply Byte.to_of_N in E. subst x. apply to_N_lt_256.
  - destruct (x <? 1114112); discriminate.
Qed.

Lemma lor_lt_256_l (a b : N) : N.lor a b < 256 -> a < 256.
Proof.
  intros H. destruct (N.eq_dec a 0) as [->|Ha]; [reflexivity|].
  change 256 with (2 ^ 8) in *. apply N.log2_lt_pow2; [lia|].
  assert (Hl : N.lor a b <> 0) by (intros E; apply N.lor_eq_0_iff in E; tauto).
  apply N.log2_lt_pow2 in H; [|lia].
  rewrite N.log2_lor in H. lia.
Qed.

Lemma frame_header_mask_flag (f : ABNF.t) (hdr : bytes) :
  ABNF.frame_header f = Ok hdr -> ABNF.mask_value f < 2.
Proof.
  unfold ABNF.frame_header.
  destruct (chr_latin1 _) as [b0|e|]; cbn [obind]; try discriminate.
  assert (G : forall x b, chr_latin1 (N.lor (N.shiftl (ABNF.mask_value f) 7) x) = Ok b ->
                          ABNF.mask_value f < 2).
  { intros x b Hb. apply chr_latin1_ok, lor_lt_256_l in Hb.
    rewrite N.shiftl_mul_pow2 in Hb. change (2 ^ 7) with 128 in Hb. lia. }
  destruct (ABNF.data_msg_length_bytes f <? ABNF.LENGTH_7).
  - destruct (chr_latin1 _) as [b1|e|] eqn:E; cbn [obind]; try discriminate.
    intros _. exact (G _ _ E).
  - destruct (ABNF.data_msg_length_bytes f <? ABNF.LENGTH_16);
      (destruct (chr_latin1 _) as [b1|e|] eqn:E; cbn [obind]; try discriminate;
       intros _; exact (G _ _ E)).
Qed.

(** When [format] returns, the frame was one of those it accepts. *)
Lemma format_ok_encodable (bo : byteorder) (key : bytes) (f f' : ABNF.t)
    (v : ABNF.memoryview) :
  ABNF.format bo key f = (Ok v, f') -> encodable f.
Proof.
  unfold ABNF.format. rewrite bind_get.
  destruct (existsb _ _) eqn:C1; [discriminate|].
  destruct (negb (py_in _ _)) eqn:C2; [discriminate|].
  destruct (ABNF.LENGTH_63 <=? _) eqn:C3; [discriminate|].
  destruct (ABNF.frame_header f) as [hdr|e|] eqn:Hh;
    [|rewrite bind_lift_raise; discriminate|unfold bind, lift; discriminate].
  intros _.
  cbn [existsb] in C1. rewrite !orb_false_iff, !negb_false_iff in C1.
  destruct C1 as (F0 & F1 & F2 & F3 & _).
  apply negb_false_iff, py_in_In in C2.
  apply N.leb_gt in C3.
  assert (G : forall x, py_in x [0; 1] = true -> x < 2).
  { intros x Hx. apply py_in_In in Hx. cbn [In] in Hx. lia. }
  unfold encodable. repeat split; auto.
  now apply (frame_header_mask_flag f hdr).
Qed.

(** Whenever [format] returns, and the declared head margin lies within the
    buffer, the bytes it returns start with the header of section 4.2. *)
Lemma format_ok_header (bo : byteorder) (key : bytes) (f f' : ABNF.t)
    (v : ABNF.memoryview) :
  ABNF.format bo key f = (Ok v, f') ->
  ABNF.data_start_offset_bytes f <= len (contents (ABNF.data f)) ->
  exists rest : bytes, ABNF.tobytes v = header_of f ++ rest.
Proof.
  intros Hf Ho. pose proof (format_ok_encodable bo key f f' v Hf) as He.
  destruct (N.eq_dec (ABNF.mask_value f) 0) as [Hm|Hm].
  - destruct (N.lt_ge_cases (len (header_of f)) (ABNF.data_start_offset_bytes f))
      as [Hlt|Hge].
    + destruct (ABNF.data f) as [c|c] eqn:Hd.
      * rewrite (format_unmasked_immutable bo key f c He Hm Hd Hlt) in Hf. discriminate.
      * rewrite (format_unmasked_in_place bo key f c He Hm Hd Hlt) in Hf.
        cbn [contents] in Ho.
        assert (Ev : v = ABNF.mkview
                       (PyByteArray
                          (slice_to c (ABNF.data_start_offset_bytes f - len (header_of f))
                           ++ header_of f ++ slice_from c (ABNF.data_start_offset_bytes f)))
                       (ABNF.data_start_offset_bytes f - len (header_of f))
                       (ABNF.data_start_offset_bytes f - len (header_of f)
                        + (ABNF.data_msg_length_bytes f + len (header_of f))))
          by congruence.
        rewrite Ev. unfold ABNF.tobytes, slice.
        cbn [ABNF.obj ABNF.start ABNF.stop contents].
        set (o := ABNF.data_start_offset_bytes f - len (header_of f)).
        assert (Hlo : List.length (slice_to c o) = N.to_nat o).
        { pose proof (len_slice_to_le c o) as P. unfold len in P.
          unfold len in Ho. unfold o in *. lia. }
        rewrite skipn_app, <- Hlo, skipn_all, Nat.sub_diag. cbn [skipn app].
        replace (N.to_nat (o + (ABNF.data_msg_length_bytes f + len (header_of f)) - o))
          with (List.length (header_of f) + N.to_nat (ABNF.data_msg_length_bytes f))%nat
          by (unfold len; lia).
        rewrite firstn_app_2. eexists. reflexivity.
    + rewrite (format_unmasked_copy bo key f He Hm Hge) in Hf.
      assert (Ev : v = ABNF.mkview (PyBytes (header_of f ++ contents (ABNF.data f))) 0
                                   (0 + len (header_of f ++ contents (ABNF.data f))))
        by congruence.
      rewrite Ev, tobytes_whole. eexists. reflexivity.
  - destruct (ABNF.mask bo key (contents (ABNF.data f))) as [s|e|] eqn:Hs.
    + rewrite (format_masked bo key f s He Hm Hs) in Hf.
      assert (Ev : v = ABNF.mkview (PyBytes (header_of f ++ key ++ s)) 0
                                   (0 + len (header_of f ++ key ++ s)))
        by congruence.
      rewrite Ev, tobytes_whole. eexists. reflexivity.
    + exfalso. apply (format_masked_fail bo key f He Hm) with (v := v) (f' := f');
        [intros s; rewrite Hs; discriminate | exact Hf].
    + exfalso. apply (format_masked_fail bo key f He Hm) with (v := v) (f' := f');
        [intros s; rewrite Hs; discriminate | exact Hf].
Qed.

(** C2: the encoder emits the header of section 4.2 bit for bit.  Whenever
    [format] returns, for a frame whose head margin lies within its buffer,
    the returned bytes start with [header_spec] of the frame's fields, that
    is: byte 0 is [fin<<7 | rsv1<<6 | rsv2<<5 | rsv3<<4 | opcode], and for the
    payload length [L] the length field is [L] with no extended length when
    [L < 126], is 126 followed by the 2-byte big-endian [L] when
    [126 <= L < 2^16], and is 127 followed by the 8-byte big-endian [L] from
    [2^16] on.  For every frame [format] accepts that has no head margin it
    does return, and the header is followed by the payload (unmasked) or by
    the mask key and the masked payload.  In particular the unmasked TEXT
    frame of "Hello" is 81 05 48 65 6C 6C 6F and the unmasked BINARY frame of
    256 zero bytes starts with 82 7E 01 00. *)
Theorem encoder_header_layout :
  (forall (native_byteorder : byteorder) (mask_key : bytes) (f f' : ABNF.t)
          (v : ABNF.memoryview),
      ABNF.format native_byteorder mask_key f = (Ok v, f') ->
      ABNF.data_start_offset_bytes f <= len (contents (ABNF.data f)) ->
      exists rest : bytes,
        ABNF.tobytes v
        = header_spec (ABNF.fin f) (ABNF.rsv1 f) (ABNF.rsv2 f) (ABNF.rsv3 f)
                      (ABNF.opcode f) (ABNF.mask_value f) (ABNF.data_msg_length_bytes f)
          ++ rest)
  /\ (forall (native_byteorder : byteorder) (mask_key : bytes) (f : ABNF.t),
         encodable f ->
         ABNF.data_start_offset_bytes f = 0 ->
         (ABNF.mask_value f <> 0 -> List.length mask_key = 4%nat) ->
         exists (v : ABNF.memoryview) (f' : ABNF.t),
           ABNF.format native_byteorder mask_key f = (Ok v, f')
           /\ ABNF.tobytes v
              = header_spec (ABNF.fin f) (ABNF.rsv1 f) (ABNF.rsv2 f) (ABNF.rsv3 f)
                            (ABNF.opcode f) (ABNF.mask_value f)
                            (ABNF.data_msg_length_bytes f)
                ++ (if ABNF.mask_value f =? 0 then contents (ABNF.data f)
                    else mask_key ++ mask_ref mask_key (contents (ABNF.data f))))
  /\ (forall native_byteorder : byteorder,
         encode native_byteorder ABNF.OPCODE_TEXT 1 (ascii_bytes "Hello") false []
         = Ok [x81; x05; x48; x65; x6c; x6c; x6f])
  /\ (forall native_byteorder : byteorder,
         encode native_byteorder ABNF.OPCODE_BINARY 1 (zeros 256) false []
         = Ok ([x82; x7e; x01; x00] ++ zeros 256)).
Proof.
  split; [|split; [|split]].
  - intros bo key f f' v Hf Ho. exact (format_ok_header bo key f f' v Hf Ho).
  - intros bo key f He Ho Hk.
    destruct (N.eqb_spec (ABNF.mask_value f) 0) as [Hm|Hm].
    + rewrite (format_unmasked_copy bo key f He Hm) by (rewrite Ho; lia).
      eexists _, _. split; [reflexivity|]. apply tobytes_whole.
    + rewrite (format_masked bo key f _ He Hm (mask_ok bo key _ (Hk Hm))).
      eexists _, _. split; [reflexivity|]. apply tobytes_whole.
  - intros []; reflexivity.
  - intros []; reflexivity.
Qed.

Lemma encoder_header_layout_witness :
  exists (v : ABNF.memoryview) (f' : ABNF.t),
    ABNF.format big [x01; x02; x03; x04]
      (ABNF.create_frame (PyBytes (ascii_bytes "Hello")) ABNF.OPCODE_TEXT 1 true None None)
    = (Ok v, f')
    /\ ABNF.tobytes v = [x81; x85; x01; x02; x03; x04; x49; x67; x6f; x68; x6e].
Proof.
  destruct (proj1 (proj2 encoder_header_layout) big [x01; x02; x03; x04]
              (ABNF.create_frame (PyBytes (ascii_bytes "Hello")) ABNF.OPCODE_TEXT 1 true
                                 None None))
    as (v & f' & Hf & Hv).
  - unfold encodable. cbn. repeat split; try reflexivity. right; left; reflexivity.
  - reflexivity.
  - reflexivity.
  - exists v, f'. split; [exact Hf|]. rewrite Hv. reflexivity.
Defined.

Lemma encodable_after_masked (f : ABNF.t) (d : bytes) :
  encodable f -> len d < 2 ^ 63 ->
  encodable (ABNF.mk (ABNF.fin f) (ABNF.rsv1 f) (ABNF.rsv2 f) (ABNF.rsv3 f) (ABNF.opcode f)
                     (ABNF.mask_value f) (PyBytes d) 0 (len d)).
Proof.
  intros (Hfin & H1 & H2 & H3 & Hop & Hm & HL) Hd. repeat split; assumption.
Qed.

Lemma length_neq {A} (l1 l2 : list A) : List.length l1 <> List.length l2 -> l1 <> l2.
Proof. intros H ->. now apply H. Qed.

(** C10: [format] mutates the frame it is called on.  With masking enabled,
    one call leaves in the frame's data field the header followed by
    [mask_key ++ masked_payload], which is also what the returned view shows,
    so the frame no longer holds the plaintext payload; a second call on the
    same frame, whatever key it draws, never returns the same wire bytes
    (it frames the first call's output as a payload of its own, or raises
    when that is too long). *)
Theorem format_not_idempotent (native_byteorder : byteorder) (k1 k2 : bytes) (f : ABNF.t) :
  encodable f ->
  ABNF.mask_value f <> 0 ->
  List.length k1 = 4%nat ->
  List.length k2 = 4%nat ->
  exists (v1 : ABNF.memoryview) (f1 : ABNF.t),
    ABNF.format native_byteorder k1 f = (Ok v1, f1)
    /\ contents (ABNF.data f1)
       = header_of f ++ k1 ++ mask_ref k1 (contents (ABNF.data f))
    /\ ABNF.tobytes v1 = contents (ABNF.data f1)
    /\ contents (ABNF.data f1) <> contents (ABNF.data f)
    /\ (forall (v2 : ABNF.memoryview) (f2 : ABNF.t),
           ABNF.format native_byteorder k2 f1 = (Ok v2, f2) ->
           ABNF.tobytes v2 <> ABNF.tobytes v1)
    /\ (len (contents (ABNF.data f1)) < 2 ^ 63 ->
        exists (v2 : ABNF.memoryview) (f2 : ABNF.t),
          ABNF.format native_byteorder k2 f1 = (Ok v2, f2)
          /\ ABNF.tobytes v2
             = header_of f1 ++ k2 ++ mask_ref k2 (contents (ABNF.data f1))).
Proof.
  intros He Hm Hk1 Hk2.
  rewrite (format_masked native_byteorder k1 f _ He Hm (mask_ok native_byteorder k1 _ Hk1)).
  set (d := header_of f ++ k1 ++ mask_ref k1 (contents (ABNF.data f))).
  set (f1 := ABNF.mk _ _ _ _ _ _ (PyBytes d) 0 (len d)).
  assert (Hv1 : ABNF.tobytes (ABNF.mkview (PyBytes d) 0 (0 + len d)) = d)
    by apply slice_all.
  assert (Hsecond : len d < 2 ^ 63 ->
            ABNF.format native_byteorder k2 f1
            = (Ok (ABNF.mkview (PyBytes (header_of f1 ++ k2 ++ mask_ref k2 d)) 0
                               (0 + len (header_of f1 ++ k2 ++ mask_ref k2 d))),
               ABNF.mk (ABNF.fin f1) (ABNF.rsv1 f1) (ABNF.rsv2 f1) (ABNF.rsv3 f1)
                       (ABNF.opcode f1) (ABNF.mask_value f1)
                       (PyBytes (header_of f1 ++ k2 ++ mask_ref k2 d)) 0
                       (len (header_of f1 ++ k2 ++ mask_ref k2 d)))).
  { intros Hd.
    apply (format_masked native_byteorder k2 f1 (mask_ref k2 d)).
    - now apply encodable_after_masked.
    - exact Hm.
    - apply mask_ok. exact Hk2. }
  exists (ABNF.mkview (PyBytes d) 0 (0 + len d)), f1.
  split; [reflexivity|]. split; [reflexivity|]. split; [exact Hv1|].
  split; [|split].
  - apply length_neq. cbn [ABNF.data contents f1]. unfold d.
    rewrite !length_app, length_mask_ref.
    pose proof (length_header_spec_ge (ABNF.fin f) (ABNF.rsv1 f) (ABNF.rsv2 f) (ABNF.rsv3 f)
                  (ABNF.opcode f) (ABNF.mask_value f) (ABNF.data_msg_length_bytes f)).
    unfold header_of. lia.
  - intros v2 f2 H2.
    destruct (N.lt_ge_cases (len d) (2 ^ 63)) as [Hd|Hd].
    + rewrite (Hsecond Hd) in H2.
      match type of H2 with
      | (Ok ?x, _) = _ => assert (E : v2 = x) by congruence; rewrite E
      end.
      rewrite Hv1, tobytes_whole. apply length_neq.
      rewrite !length_app, length_mask_ref.
      pose proof (length_header_spec_ge (ABNF.fin f1) (ABNF.rsv1 f1) (ABNF.rsv2 f1)
                    (ABNF.rsv3 f1) (ABNF.opcode f1) (ABNF.mask_value f1)
                    (ABNF.data_msg_length_bytes f1)).
      unfold header_of. lia.
    + destruct (format_too_long native_byteorder k2 f1 Hd) as (e & He2).
      rewrite He2 in H2. discriminate.
  - intros Hd. eexists _, _. split; [apply (Hsecond Hd)|]. apply tobytes_whole.
Qed.

Lemma format_not_idempotent_witness :
  exists (v1 : ABNF.memoryview) (f1 : ABNF.t),
    ABNF.format little [x01; x02; x03; x04]
      (ABNF.create_frame (PyBytes (ascii_bytes "Hello")) ABNF.OPCODE_TEXT 1 true None None)
    = (Ok v1, f1)
    /\ ABNF.tobytes v1 = [x81; x85; x01; x02; x03; x04; x49; x67; x6f; x68; x6e]
    /\ contents (ABNF.data f1) = [x81; x85; x01; x02; x03; x04; x49; x67; x6f; x68; x6e]
    /\ exists (v2 : ABNF.memoryview) (f2 : ABNF.t),
         ABNF.format little [x01; x02; x03; x04] f1 = (Ok v2, f2)
         /\ ABNF.tobytes v2
            = [x81; x8b; x01; x02; x03; x04;
               x80; x87; x02; x06; x02; x06; x4a; x63; x6e; x6a; x6d].
Proof.
  destruct (format_not_idempotent little [x01; x02; x03; x04] [x01; x02; x03; x04]
              (ABNF.create_frame (PyBytes (ascii_bytes "Hello")) ABNF.OPCODE_TEXT 1 true
                                 None None))
    as (v1 & f1 & Hf & Hd & Hv & _ & _ & H2).
  - unfold encodable. cbn. repeat split; try reflexivity. right; left; reflexivity.
  - discriminate.
  - reflexivity.
  - reflexivity.
  - exists v1, f1. split; [exact Hf|]. rewrite Hv, Hd.
    split; [reflexivity|]. split; [reflexivity|].
    destruct H2 as (v2 & f2 & Hf2 & Hv2).
    + rewrite Hd. reflexivity.
    + exists v2, f2. split; [exact Hf2|]. rewrite Hv2.
      injection Hf as <- <-. reflexivity.
Defined.

(** C8 (the code at the failing input): an unmasked TEXT frame of "Hello" in
    a [bytearray] with a 2-byte head margin, which is exactly the size of its
    header.  [format] does not write the header into the margin: it returns a
    view of a new [bytes] object that holds the header followed by the whole
    buffer, margin included, so two stray bytes sit between the header and the
    payload.  With a 3-byte margin the header is written in place. *)
Theorem format_margin_equal_to_header (native_byteorder : byteorder) :
  (let r := ABNF.format native_byteorder []
              (ABNF.create_frame (PyByteArray ([x00; x00] ++ ascii_bytes "Hello"))
                                 ABNF.OPCODE_TEXT 1 false (Some 2) (Some 5)) in
   (let? v := fst r in Ok (ABNF.tobytes v)) = Ok ([x81; x05; x00; x00] ++ ascii_bytes "Hello")
   /\ ABNF.data (snd r) = PyBytes ([x81; x05; x00; x00] ++ ascii_bytes "Hello"))
  /\ (let r := ABNF.format native_byteorder []
                 (ABNF.create_frame (PyByteArray ([x00; x00; x00] ++ ascii_bytes "Hello"))
                                    ABNF.OPCODE_TEXT 1 false (Some 3) (Some 5)) in
      (let? v := fst r in Ok (ABNF.tobytes v)) = Ok ([x81; x05] ++ ascii_bytes "Hello")
      /\ ABNF.data (snd r) = PyByteArray ([x00; x81; x05] ++ ascii_bytes "Hello")).
Proof.
  destruct native_byteorder; repeat split; reflexivity.
Qed.


(** ** Frame validation *)

Lemma _is_valid_close_status_spec (c : N) :
  ABNF._is_valid_close_status c = true <-> valid_close_code c.
Proof.
  unfold ABNF._is_valid_close_status, valid_close_code.
  rewrite orb_true_iff, andb_true_iff, py_in_In, N.leb_le, N.ltb_lt.
  reflexivity.
Qed.

Lemma close_code_cons (b0 b1 : byte) (r : bytes) :
  close_code (b0 :: b1 :: r) = 256 * Byte.to_N b0 + Byte.to_N b1.
Proof.
  unfold close_code, slice_to, int_from_bytes.
  change (N.to_nat 2) with 2%nat. cbn [firstn rev app from_le]. lia.
Qed.

Section Validate.

Variable validate_utf8 : bytes -> bool.

(** [validate] on a CLOSE frame whose reserved bits are zero, by the length
    of the payload. *)
Lemma validate_close (f : ABNF.t) (skip : bool) :
  ABNF.opcode f = ABNF.OPCODE_CLOSE ->
  ABNF.rsv1 f = 0 -> ABNF.rsv2 f = 0 -> ABNF.rsv3 f = 0 ->
  let p := contents (ABNF.data f) in
  ABNF.validate validate_utf8 f skip
  = if len p =? 0 then Ok tt
    else if (len p =? 1) || (126 <=? len p) then
      Raise (WebSocketProtocolException "Invalid close frame." None)
    else if (2 <? len p) && negb skip && negb (validate_utf8 (slice_from p 2)) then
      Raise (WebSocketProtocolException "Invalid close frame." None)
    else if ABNF._is_valid_close_status (close_code p) then Ok tt
    else Raise (WebSocketProtocolException "Invalid close opcode %r" (Some (close_code p))).
Proof.
  intros Hop H1 H2 H3 p. unfold ABNF.validate. rewrite Hop, H1, H2, H3. fold p.
  change (negb (0 =? 0) || negb (0 =? 0) || negb (0 =? 0)) with false.
  change (negb (py_in ABNF.OPCODE_CLOSE ABNF.OPCODES)) with false.
  change (ABNF.OPCODE_CLOSE =? ABNF.OPCODE_PING) with false.
  change (ABNF.OPCODE_CLOSE =? ABNF.OPCODE_CLOSE) with true.
  cbn [andb].
  destruct (len p =? 0) eqn:E0; [reflexivity|].
  destruct ((len p =? 1) || (126 <=? len p)) eqn:E1; [reflexivity|].
  destruct ((2 <? len p) && negb skip && negb (validate_utf8 (slice_from p 2)));
    [reflexivity|].
  destruct p as [|b0 [|b1 r]].
  - discriminate.
  - discriminate.
  - rewrite close_code_cons. unfold ABNF.byte_at. cbn [nth].
    destruct (ABNF._is_valid_close_status _); reflexivity.
Qed.

(** A frame with a reserved bit set is rejected whatever else it holds. *)
Lemma validate_rsv (f : ABNF.t) (skip : bool) :
  ABNF.rsv1 f <> 0 \/ ABNF.rsv2 f <> 0 \/ ABNF.rsv3 f <> 0 ->
  ABNF.validate validate_utf8 f skip
  = Raise (WebSocketProtocolException "rsv is not implemented, yet" None).
Proof.
  intros H. unfold ABNF.validate.
  replace (negb (ABNF.rsv1 f =? 0) || negb (ABNF.rsv2 f =? 0) || negb (ABNF.rsv3 f =? 0))
    with true; [reflexivity|].
  symmetry. rewrite !orb_true_iff, !negb_true_iff, !N.eqb_neq. tauto.
Qed.

(** C4 (as amended): for a CLOSE frame whose reserved bits are zero,
    validation succeeds on an empty payload; a payload of exactly 1 byte is a
    protocol error; and for a payload of 2 to 125 bytes whose reason (the
    bytes after the first two) is valid UTF-8, validation succeeds if and only
    if the big-endian status code formed by the first two bytes is one of
    1000, 1001, 1002, 1003, 1007 to 1014 or lies in [3000, 5000), and is a
    protocol error otherwise; in particular the codes 1004, 1005, 1006 and
    1015 are protocol errors.  A payload of 126 bytes or more is a protocol
    error whatever its status code and its reason are. *)
Theorem close_frame_validation (f : ABNF.t) (skip : bool) :
  ABNF.opcode f = ABNF.OPCODE_CLOSE ->
  ABNF.rsv1 f = 0 -> ABNF.rsv2 f = 0 -> ABNF.rsv3 f = 0 ->
  let p := contents (ABNF.data f) in
  (len p = 0 -> ABNF.validate validate_utf8 f skip = Ok tt)
  /\ (len p = 1 ->
      ABNF.validate validate_utf8 f skip
      = Raise (WebSocketProtocolException "Invalid close frame." None))
  /\ (2 <= len p -> len p <= 125 -> validate_utf8 (slice_from p 2) = true ->
      (ABNF.validate validate_utf8 f skip = Ok tt <-> valid_close_code (close_code p))
      /\ (~ valid_close_code (close_code p) ->
          ABNF.validate validate_utf8 f skip
          = Raise (WebSocketProtocolException "Invalid close opcode %r"
                                              (Some (close_code p))))
      /\ (In (close_code p) [1004; 1005; 1006; 1015] ->
          ABNF.validate validate_utf8 f skip
          = Raise (WebSocketProtocolException "Invalid close opcode %r"
                                              (Some (close_code p)))))
  /\ (126 <= len p ->
      ABNF.validate validate_utf8 f skip
      = Raise (WebSocketProtocolException "Invalid close frame." None)).
Proof.
  intros Hop H1 H2 H3 p.
  rewrite (validate_close f skip Hop H1 H2 H3). fold p.
  split; [|split; [|split]].
  - intros ->. reflexivity.
  - intros ->. reflexivity.
  - intros Hlo Hhi Hu.
    replace (len p =? 0) with false by (symmetry; apply N.eqb_neq; lia).
    replace ((len p =? 1) || (126 <=? len p)) with false
      by (symmetry; apply orb_false_iff; split; [apply N.eqb_neq|apply N.leb_gt]; lia).
    rewrite Hu. cbn [negb]. rewrite andb_false_r.
    pose proof (_is_valid_close_status_spec (close_code p)) as Hs.
    destruct (ABNF._is_valid_close_status (close_code p)).
    + split; [|split].
      * split; [intros _; now apply Hs | reflexivity].
      * intros Hn. exfalso. apply Hn. now apply Hs.
      * intros Hin. exfalso.
        assert (Hv : valid_close_code (close_code p)) by now apply Hs.
        unfold valid_close_code in Hv. cbn [In] in Hin, Hv. lia.
    + split; [|split].
      * split; [discriminate|]. intros Hv. apply Hs in Hv. discriminate.
      * reflexivity.
      * reflexivity.
  - intros Hlen.
    replace (len p =? 0) with false by (symmetry; apply N.eqb_neq; lia).
    replace (126 <=? len p) with true by (symmetry; apply N.leb_le; lia).
    now rewrite orb_true_r.
Qed.

End Validate.

Lemma close_frame_validation_witness :
  ABNF.validate utf8_valid (close_frame 1 0 0 0 (code_bytes 1000 ++ ascii_bytes "bye")) false
  = Ok tt
  <-> valid_close_code (close_code (code_bytes 1000 ++ ascii_bytes "bye")).
Proof.
  apply (close_frame_validation utf8_valid
           (close_frame 1 0 0 0 (code_bytes 1000 ++ ascii_bytes "bye")) false);
    try reflexivity; vm_compute; discriminate.
Defined.

(** C4 (the claim as stated fails): a CLOSE frame of 126 bytes whose status
    code is 1000 and whose reason is 124 ASCII letters has a payload of at
    least 2 bytes, a valid UTF-8 reason and a status code of the set, and is
    rejected all the same; and a CLOSE frame with an empty payload and the
    rsv1 bit set is rejected too. *)
Lemma close_frame_of_126_bytes_rejected :
  (2 <= len (code_bytes 1000 ++ repeat x61 124)
   /\ utf8_valid (slice_from (code_bytes 1000 ++ repeat x61 124) 2) = true
   /\ valid_close_code (close_code (code_bytes 1000 ++ repeat x61 124))
   /\ ABNF.validate utf8_valid
        (close_frame 1 0 0 0 (code_bytes 1000 ++ repeat x61 124)) false
      = Raise (WebSocketProtocolException "Invalid close frame." None))
  /\ ABNF.validate utf8_valid (close_frame 1 1 0 0 []) false
     = Raise (WebSocketProtocolException "rsv is not implemented, yet" None).
Proof.
  split; [split; [|split; [|split]]|].
  - vm_compute. discriminate.
  - vm_compute. reflexivity.
  - left. vm_compute. left. reflexivity.
  - vm_compute. reflexivity.
  - vm_compute. reflexivity.
Qed.

(** C5 (the code at the failing inputs): frame validation checks [fin] only
    for PING and the payload length only for CLOSE.  The decoder accepts a
    PONG and a CLOSE frame with fin=0 and a PING and a PONG frame with a
    126-byte payload; it rejects a PING frame with fin=0 and a CLOSE frame
    with a 126-byte payload. *)
Theorem control_frame_checks (validate_utf8 : bytes -> bool) (native_byteorder : byteorder)
    (skip_utf8_validation : bool) :
  let recv wire := fst (decode validate_utf8 native_byteorder skip_utf8_validation
                               131072 4 wire) in
  recv [x0a; x00]
  = Ok (ABNF.__init__ 0 0 0 0 ABNF.OPCODE_PONG 0 (PyByteArray []) None None)
  /\ recv [x08; x00]
     = Ok (ABNF.__init__ 0 0 0 0 ABNF.OPCODE_CLOSE 0 (PyByteArray []) None None)
  /\ recv ([x89; x7e; x00; x7e] ++ zeros 126)
     = Ok (ABNF.__init__ 1 0 0 0 ABNF.OPCODE_PING 0 (PyByteArray (zeros 126)) None None)
  /\ recv ([x8a; x7e; x00; x7e] ++ zeros 126)
     = Ok (ABNF.__init__ 1 0 0 0 ABNF.OPCODE_PONG 0 (PyByteArray (zeros 126)) None None)
  /\ recv [x09; x00]
     = Raise (WebSocketProtocolException "Invalid ping frame." None)
  /\ recv ([x88; x7e; x00; x7e] ++ code_bytes 1000 ++ zeros 124)
     = Raise (WebSocketProtocolException "Invalid close frame." None).
Proof.
  cbv zeta. repeat split; reflexivity.
Qed.


(** ** The message reassembler *)

Lemma contents_with_contents (d : pybuf) (b : bytes) : contents (with_contents d b) = b.
Proof. destruct d; reflexivity. Qed.

Lemma iadd_with_contents (d : pybuf) (b : bytes) (y : pybuf) :
  continuous_frame.iadd (with_contents d b) y = with_contents d (b ++ contents y).
Proof. destruct d; reflexivity. Qed.

Lemma with_contents_self (d : pybuf) : with_contents d (contents d) = d.
Proof. destruct d; reflexivity. Qed.

Section Reassembler.

Variable validate_utf8 : bytes -> bool.
Variable skip : bool.

Local Abbreviation process := (continuous_frame.process validate_utf8).
Local Abbreviation process_all := (continuous_frame.process_all validate_utf8).

(** A control frame is emitted at once and leaves the state as it is. *)
Lemma process_control (f : ABNF.t) (st : continuous_frame.t) :
  is_control f = true -> process f st = (Ok (Some (ABNF.opcode f, f)), st).
Proof.
  intros H. unfold continuous_frame.process. fold (is_control f). rewrite H. reflexivity.
Qed.

Lemma is_control_false (f : ABNF.t) :
  In (ABNF.opcode f) [ABNF.OPCODE_CONT; ABNF.OPCODE_TEXT; ABNF.OPCODE_BINARY] ->
  is_control f = false.
Proof.
  unfold is_control. intros H. cbn [In] in H.
  destruct H as [<-|[<-|[<-|[]]]]; reflexivity.
Qed.

(** A CONT frame while no message is being built is a protocol error. *)
Lemma process_cont_idle (f : ABNF.t) :
  ABNF.opcode f = ABNF.OPCODE_CONT ->
  process f (idle false skip)
  = (Raise (WebSocketProtocolException "Illegal frame" None), idle false skip).
Proof.
  intros H. unfold continuous_frame.process.
  fold (is_control f). rewrite is_control_false by (rewrite H; left; reflexivity).
  unfold continuous_frame.validate. monad_simp.
  cbn [idle continuous_frame.recving_frames continuous_frame.truthy negb andb].
  rewrite H. reflexivity.
Qed.

Lemma truthy_data_opcode (op : N) :
  In op [ABNF.OPCODE_TEXT; ABNF.OPCODE_BINARY] -> continuous_frame.truthy (Some op) = true.
Proof. intros H. cbn [In] in H. destruct H as [<-|[<-|[]]]; reflexivity. Qed.

(** A TEXT or BINARY frame while a message is being built is a protocol
    error. *)
Lemma process_data_building (f : ABNF.t) (op : N) (acc : pybuf) :
  In op [ABNF.OPCODE_TEXT; ABNF.OPCODE_BINARY] ->
  In (ABNF.opcode f) [ABNF.OPCODE_TEXT; ABNF.OPCODE_BINARY] ->
  process f (building false skip op acc)
  = (Raise (WebSocketProtocolException "Illegal frame" None), building false skip op acc).
Proof.
  intros Hop H. unfold continuous_frame.process.
  fold (is_control f). rewrite is_control_false by (cbn [In] in *; tauto).
  unfold continuous_frame.validate. monad_simp.
  cbn [building continuous_frame.recving_frames].
  rewrite (truthy_data_opcode op Hop). cbn [negb andb].
  apply py_in_In in H. rewrite H. reflexivity.
Qed.

(** The first fragment starts the accumulation. *)
Lemma process_first_fragment (f : ABNF.t) :
  In (ABNF.opcode f) [ABNF.OPCODE_TEXT; ABNF.OPCODE_BINARY] ->
  ABNF.fin f = 0 ->
  process f (idle false skip)
  = (Ok None, building false skip (ABNF.opcode f) (ABNF.data f)).
Proof.
  intros H Hfin. unfold continuous_frame.process.
  fold (is_control f). rewrite is_control_false by (cbn [In] in *; tauto).
  unfold continuous_frame.validate. monad_simp.
  cbn [idle continuous_frame.recving_frames continuous_frame.truthy negb andb].
  replace (ABNF.opcode f =? ABNF.OPCODE_CONT) with false
    by (cbn [In] in H; destruct H as [<-|[<-|[]]]; reflexivity).
  monad_simp.
  unfold continuous_frame.add. monad_simp.
  cbn [continuous_frame.cont_data]. monad_simp.
  rewrite Hfin. cbn [N.eqb negb]. monad_simp.
  unfold continuous_frame.is_fire. rewrite Hfin.
  apply py_in_In in H. rewrite H.
  reflexivity.
Qed.

(** A CONT frame with fin=0 appends its payload to the accumulated one. *)
Lemma process_middle_fragment (f : ABNF.t) (op : N) (acc : pybuf) :
  In op [ABNF.OPCODE_TEXT; ABNF.OPCODE_BINARY] ->
  ABNF.opcode f = ABNF.OPCODE_CONT ->
  ABNF.fin f = 0 ->
  process f (building false skip op acc)
  = (Ok None, building false skip op (continuous_frame.iadd acc (ABNF.data f))).
Proof.
  intros Hop H Hfin. unfold continuous_frame.process.
  fold (is_control f). rewrite is_control_false by (rewrite H; left; reflexivity).
  unfold continuous_frame.validate. monad_simp.
  cbn [building continuous_frame.recving_frames].
  rewrite (truthy_data_opcode op Hop), H. cbn [negb andb].
  change (py_in ABNF.OPCODE_CONT _) with false.
  cbn [andb]. monad_simp.
  unfold continuous_frame.add. monad_simp.
  cbn [continuous_frame.cont_data]. monad_simp.
  rewrite Hfin. cbn [N.eqb negb]. monad_simp.
  unfold continuous_frame.is_fire. rewrite Hfin. reflexivity.
Qed.

(** The last fragment: the payload is appended, and the whole message is
    emitted under the opcode of the first fragment, or, for a TEXT message
    that is not valid UTF-8 while validation is on, a payload error is
    raised; the reassembler is idle again either way. *)
Lemma process_last_fragment (f : ABNF.t) (op : N) (acc : pybuf) :
  In op [ABNF.OPCODE_TEXT; ABNF.OPCODE_BINARY] ->
  ABNF.opcode f = ABNF.OPCODE_CONT ->
  ABNF.fin f <> 0 ->
  let d := continuous_frame.iadd acc (ABNF.data f) in
  process f (building false skip op acc)
  = (if (op =? ABNF.OPCODE_TEXT) && negb skip && negb (validate_utf8 (contents d))
     then Raise (WebSocketPayloadException "cannot decode" (contents d))
     else Ok (Some (op, continuous_frame.set_data f d)),
     idle false skip).
Proof.
  intros Hop H Hfin d. unfold continuous_frame.process.
  fold (is_control f). rewrite is_control_false by (rewrite H; left; reflexivity).
  unfold continuous_frame.validate. monad_simp.
  cbn [building continuous_frame.recving_frames].
  rewrite (truthy_data_opcode op Hop), H. cbn [negb andb].
  change (py_in ABNF.OPCODE_CONT _) with false.
  cbn [andb]. monad_simp.
  unfold continuous_frame.add. monad_simp.
  cbn [building continuous_frame.cont_data continuous_frame.fire_cont_frame continuous_frame.skip_utf8_validation continuous_frame.recving_frames]. monad_simp.
  apply N.eqb_neq in Hfin.
  rewrite Hfin. cbn [negb]. monad_simp.
  unfold continuous_frame.is_fire. rewrite Hfin. cbn [negb orb].
  unfold continuous_frame.extract. monad_simp.
  cbn [continuous_frame.cont_data continuous_frame.fire_cont_frame
       continuous_frame.skip_utf8_validation continuous_frame.recving_frames].
  monad_simp. cbn [negb andb]. fold d.
  cbn [continuous_frame.set_data ABNF.data].
  destruct ((op =? ABNF.OPCODE_TEXT) && negb skip && negb (validate_utf8 (contents d)));
    reflexivity.
Qed.

(** An unfragmented TEXT or BINARY frame is emitted at once, or, for a TEXT
    frame that is not valid UTF-8 while validation is on, raises a payload
    error. *)
Lemma process_single_frame (f : ABNF.t) :
  In (ABNF.opcode f) [ABNF.OPCODE_TEXT; ABNF.OPCODE_BINARY] ->
  ABNF.fin f <> 0 ->
  process f (idle false skip)
  = (if (ABNF.opcode f =? ABNF.OPCODE_TEXT) && negb skip
        && negb (validate_utf8 (contents (ABNF.data f)))
     then Raise (WebSocketPayloadException "cannot decode" (contents (ABNF.data f)))
     else Ok (Some (ABNF.opcode f, continuous_frame.set_data f (ABNF.data f))),
     idle false skip).
Proof.
  intros H Hfin. unfold continuous_frame.process.
  fold (is_control f). rewrite is_control_false by (cbn [In] in *; tauto).
  unfold continuous_frame.validate. monad_simp.
  cbn [idle continuous_frame.recving_frames continuous_frame.truthy negb andb].
  replace (ABNF.opcode f =? ABNF.OPCODE_CONT) with false
    by (cbn [In] in H; destruct H as [<-|[<-|[]]]; reflexivity).
  monad_simp.
  unfold continuous_frame.add. monad_simp.
  cbn [idle continuous_frame.cont_data continuous_frame.fire_cont_frame continuous_frame.skip_utf8_validation continuous_frame.recving_frames]. monad_simp.
  apply N.eqb_neq in Hfin.
  rewrite Hfin. cbn [negb]. monad_simp.
  unfold continuous_frame.is_fire. rewrite Hfin. cbn [negb orb].
  unfold continuous_frame.extract. monad_simp.
  cbn [continuous_frame.cont_data continuous_frame.fire_cont_frame
       continuous_frame.skip_utf8_validation continuous_frame.recving_frames].
  monad_simp. cbn [negb andb].
  cbn [continuous_frame.set_data ABNF.data].
  destruct ((ABNF.opcode f =? ABNF.OPCODE_TEXT) && negb skip
            && negb (validate_utf8 (contents (ABNF.data f))));
    reflexivity.
Qed.

Lemma process_all_cons (f : ABNF.t) (rest : list ABNF.t) (st st' : continuous_frame.t)
    (o : option (N * ABNF.t)) :
  process f st = (Ok o, st') ->
  process_all (f :: rest) st
  = match process_all rest st' with
    | (Ok os, s) => (Ok (o :: os), s)
    | (Raise e, s) => (Raise e, s)
    | (OutOfFuel, s) => (OutOfFuel, s)
    end.
Proof.
  intros H. cbn [continuous_frame.process_all].
  rewrite (bind_ok _ _ _ _ _ H). unfold bind.
  destruct (continuous_frame.process_all validate_utf8 rest st') as [[os|e|] s]; reflexivity.
Qed.

Lemma iadd_contents (acc y : pybuf) :
  continuous_frame.iadd acc y = with_contents acc (contents acc ++ contents y).
Proof. destruct acc; reflexivity. Qed.

Lemma with_contents_twice (d : pybuf) (b c : bytes) :
  with_contents (with_contents d b) c = with_contents d c.
Proof. destruct d; reflexivity. Qed.

(** The middle frames of a message: control frames are emitted as they come,
    fragments are appended to the accumulated payload. *)
Lemma process_all_middle (op : N) (mids rest : list ABNF.t) :
  In op [ABNF.OPCODE_TEXT; ABNF.OPCODE_BINARY] ->
  Forall middle_frame mids ->
  forall acc : pybuf,
    process_all (mids ++ rest) (building false skip op acc)
    = match process_all rest
              (building false skip op
                 (with_contents acc (contents acc ++ fragment_payloads mids))) with
      | (Ok os, s) => (Ok (map emitted mids ++ os), s)
      | (Raise e, s) => (Raise e, s)
      | (OutOfFuel, s) => (OutOfFuel, s)
      end.
Proof.
  intros Hop Hm. induction Hm as [|m mids Hmid _ IH]; intros acc.
  - cbn [app fragment_payloads map]. rewrite app_nil_r, with_contents_self.
    destruct (continuous_frame.process_all validate_utf8 rest _) as [[os|e|] s]; reflexivity.
  - cbn [app fragment_payloads map]. unfold emitted at 1.
    destruct Hmid as [Hc|[Hcont Hfin]].
    + rewrite (process_all_cons _ _ _ _ _ (process_control m _ Hc)).
      rewrite IH, Hc. cbn [app].
      destruct (continuous_frame.process_all validate_utf8 rest _) as [[os|e|] s]; reflexivity.
    + rewrite (process_all_cons _ _ _ _ _ (process_middle_fragment m op acc Hop Hcont Hfin)).
      rewrite IH.
      rewrite is_control_false by (rewrite Hcont; left; reflexivity).
      rewrite iadd_contents, with_contents_twice, contents_with_contents, <- app_assoc.
      cbn [app].
      destruct (continuous_frame.process_all validate_utf8 rest _) as [[os|e|] s]; reflexivity.
Qed.

(** A fragmented message from its first frame to the frame before the last:
    nothing but the control frames is emitted, and the reassembler is
    building. *)
Lemma process_all_open (F0 : ABNF.t) (mids : list ABNF.t) :
  In (ABNF.opcode F0) [ABNF.OPCODE_TEXT; ABNF.OPCODE_BINARY] ->
  ABNF.fin F0 = 0 ->
  Forall middle_frame mids ->
  process_all (F0 :: mids) (idle false skip)
  = (Ok (None :: map emitted mids),
     building false skip (ABNF.opcode F0)
       (with_contents (ABNF.data F0)
          (contents (ABNF.data F0) ++ fragment_payloads mids))).
Proof.
  intros Hop Hfin Hm.
  rewrite (process_all_cons _ _ _ _ _ (process_first_fragment F0 Hop Hfin)).
  rewrite <- (app_nil_r mids) at 1.
  rewrite (process_all_middle _ mids [] Hop Hm). cbn [continuous_frame.process_all].
  unfold ret. now rewrite app_nil_r.
Qed.

(** A whole fragmented message. *)
Lemma process_all_message (F0 Fl : ABNF.t) (mids : list ABNF.t) :
  In (ABNF.opcode F0) [ABNF.OPCODE_TEXT; ABNF.OPCODE_BINARY] ->
  ABNF.fin F0 = 0 ->
  Forall middle_frame mids ->
  ABNF.opcode Fl = ABNF.OPCODE_CONT ->
  ABNF.fin Fl <> 0 ->
  let whole := contents (ABNF.data F0) ++ fragment_payloads mids ++ contents (ABNF.data Fl) in
  process_all (F0 :: mids ++ [Fl]) (idle false skip)
  = (if (ABNF.opcode F0 =? ABNF.OPCODE_TEXT) && negb skip && negb (validate_utf8 whole)
     then Raise (WebSocketPayloadException "cannot decode" whole)
     else Ok (None :: map emitted mids
              ++ [Some (ABNF.opcode F0,
                        continuous_frame.set_data Fl (with_contents (ABNF.data F0) whole))]),
     idle false skip).
Proof.
  intros Hop Hfin Hm Hl Hlfin whole.
  rewrite (process_all_cons _ _ _ _ _ (process_first_fragment F0 Hop Hfin)).
  rewrite (process_all_middle _ mids [Fl] Hop Hm).
  cbn [continuous_frame.process_all].
  unfold bind at 1.
  rewrite (process_last_fragment Fl _ _ Hop Hl Hlfin). cbv zeta.
  rewrite iadd_contents, with_contents_twice, !contents_with_contents, <- !app_assoc.
  fold whole.
  destruct ((ABNF.opcode F0 =? ABNF.OPCODE_TEXT) && negb skip && negb (validate_utf8 whole));
    reflexivity.
Qed.

(** C3 (as amended): with fire_cont_frame=false, a CONT frame while no
    message is being built is a protocol error ("Illegal frame"); a TEXT or
    BINARY frame while a message is being built is a protocol error; a
    control frame is emitted at once and leaves the reassembly state as it
    is; and for every fragment sequence F0=(TEXT, fin=0), then CONT frames
    with fin=0 interleaved with control frames, then a last frame
    (CONT, fin=1), whose concatenated fragment payloads are valid UTF-8 (or
    with UTF-8 validation skipped), nothing but the control frames is emitted
    before the last frame, the reassembler is building until then, and the
    last frame emits one message whose opcode is TEXT and whose payload is
    the concatenation of all fragment payloads, leaving the reassembler
    idle.  When the concatenation is not valid UTF-8 and validation is on,
    the frames before the last one do the same, and the last frame raises a
    payload error that carries the concatenation: no message is emitted, and
    the reassembler is idle. *)
Theorem fragmented_message_reassembly :
  (forall f : ABNF.t,
      ABNF.opcode f = ABNF.OPCODE_CONT ->
      process f (idle false skip)
      = (Raise (WebSocketProtocolException "Illegal frame" None), idle false skip))
  /\ (forall (f : ABNF.t) (op : N) (acc : pybuf),
         In op [ABNF.OPCODE_TEXT; ABNF.OPCODE_BINARY] ->
         In (ABNF.opcode f) [ABNF.OPCODE_TEXT; ABNF.OPCODE_BINARY] ->
         process f (building false skip op acc)
         = (Raise (WebSocketProtocolException "Illegal frame" None),
            building false skip op acc))
  /\ (forall (f : ABNF.t) (st : continuous_frame.t),
         is_control f = true ->
         process f st = (Ok (Some (ABNF.opcode f, f)), st))
  /\ (forall (F0 Fl : ABNF.t) (mids : list ABNF.t),
         ABNF.opcode F0 = ABNF.OPCODE_TEXT ->
         ABNF.fin F0 = 0 ->
         Forall middle_frame mids ->
         ABNF.opcode Fl = ABNF.OPCODE_CONT ->
         ABNF.fin Fl = 1 ->
         let whole := contents (ABNF.data F0) ++ fragment_payloads mids
                      ++ contents (ABNF.data Fl) in
         skip = true \/ validate_utf8 whole = true ->
         process_all (F0 :: mids) (idle false skip)
         = (Ok (None :: map emitted mids),
            building false skip ABNF.OPCODE_TEXT
              (with_contents (ABNF.data F0)
                 (contents (ABNF.data F0) ++ fragment_payloads mids)))
         /\ exists message : ABNF.t,
              process_all (F0 :: mids ++ [Fl]) (idle false skip)
              = (Ok (None :: map emitted mids ++ [Some (ABNF.OPCODE_TEXT, message)]),
                 idle false skip)
              /\ contents (ABNF.data message) = whole)
  /\ (forall (F0 Fl : ABNF.t) (mids : list ABNF.t),
         ABNF.opcode F0 = ABNF.OPCODE_TEXT ->
         ABNF.fin F0 = 0 ->
         Forall middle_frame mids ->
         ABNF.opcode Fl = ABNF.OPCODE_CONT ->
         ABNF.fin Fl = 1 ->
         let whole := contents (ABNF.data F0) ++ fragment_payloads mids
                      ++ contents (ABNF.data Fl) in
         let before := building false skip ABNF.OPCODE_TEXT
                         (with_contents (ABNF.data F0)
                            (contents (ABNF.data F0) ++ fragment_payloads mids)) in
         skip = false ->
         validate_utf8 whole = false ->
         process_all (F0 :: mids) (idle false skip) = (Ok (None :: map emitted mids), before)
         /\ process Fl before
            = (Raise (WebSocketPayloadException "cannot decode" whole), idle false skip)
         /\ process_all (F0 :: mids ++ [Fl]) (idle false skip)
            = (Raise (WebSocketPayloadException "cannot decode" whole), idle false skip)).
Proof.
  split; [exact process_cont_idle|].
  split; [exact process_data_building|].
  split; [exact process_control|].
  split.
  - intros F0 Fl mids H0 Hfin Hm Hl Hlfin whole Hu.
    assert (Hop : In (ABNF.opcode F0) [ABNF.OPCODE_TEXT; ABNF.OPCODE_BINARY])
      by (rewrite H0; left; reflexivity).
    split.
    + rewrite (process_all_open F0 mids Hop Hfin Hm), H0. reflexivity.
    + exists (continuous_frame.set_data Fl (with_contents (ABNF.data F0) whole)).
      split.
      * rewrite (process_all_message F0 Fl mids Hop Hfin Hm Hl)
          by (rewrite Hlfin; discriminate).
        fold whole. rewrite H0.
        change (ABNF.OPCODE_TEXT =? ABNF.OPCODE_TEXT) with true. cbn [andb].
        replace (negb skip && negb (validate_utf8 whole)) with false
          by (destruct Hu as [-> | ->]; [reflexivity|now rewrite andb_false_r]).
        reflexivity.
      * cbn [continuous_frame.set_data ABNF.data]. apply contents_with_contents.
  - intros F0 Fl mids H0 Hfin Hm Hl Hlfin whole before Hskip Hu.
    assert (Hop : In (ABNF.opcode F0) [ABNF.OPCODE_TEXT; ABNF.OPCODE_BINARY])
      by (rewrite H0; left; reflexivity).
    split; [|split].
    + rewrite (process_all_open F0 mids Hop Hfin Hm), H0. reflexivity.
    + unfold before.
      rewrite (process_last_fragment Fl ABNF.OPCODE_TEXT _ (or_introl eq_refl) Hl)
        by (rewrite Hlfin; discriminate).
      cbv zeta.
      rewrite iadd_contents, with_contents_twice, !contents_with_contents, <- !app_assoc.
      fold whole. rewrite Hskip, Hu. reflexivity.
    + rewrite (process_all_message F0 Fl mids Hop Hfin Hm Hl)
        by (rewrite Hlfin; discriminate).
      fold whole. rewrite H0, Hskip, Hu. reflexivity.
Qed.

End Reassembler.

Lemma fragmented_message_reassembly_witness :
  exists message : ABNF.t,
    continuous_frame.process_all utf8_valid
      ([data_frame ABNF.OPCODE_TEXT 0 (ascii_bytes "Hel")]
       ++ [data_frame ABNF.OPCODE_PING 1 (ascii_bytes "hi");
           data_frame ABNF.OPCODE_CONT 0 (ascii_bytes "l")]
       ++ [data_frame ABNF.OPCODE_CONT 1 (ascii_bytes "o")])
      (idle false false)
    = (Ok ([None]
           ++ [Some (ABNF.OPCODE_PING, data_frame ABNF.OPCODE_PING 1 (ascii_bytes "hi")); None]
           ++ [Some (ABNF.OPCODE_TEXT, message)]),
       idle false false)
    /\ contents (ABNF.data message) = ascii_bytes "Hello".
Proof.
  assert (Hm : Forall middle_frame
                 [data_frame ABNF.OPCODE_PING 1 (ascii_bytes "hi");
                  data_frame ABNF.OPCODE_CONT 0 (ascii_bytes "l")]).
  { constructor; [left; reflexivity|].
    constructor; [right; split; reflexivity|]. constructor. }
  destruct (proj1 (proj2 (proj2 (proj2 (fragmented_message_reassembly utf8_valid false))))
              (data_frame ABNF.OPCODE_TEXT 0 (ascii_bytes "Hel"))
              (data_frame ABNF.OPCODE_CONT 1 (ascii_bytes "o"))
              [data_frame ABNF.OPCODE_PING 1 (ascii_bytes "hi");
               data_frame ABNF.OPCODE_CONT 0 (ascii_bytes "l")]
              eq_refl eq_refl Hm eq_refl eq_refl (or_intror eq_refl))
    as (_ & message & Hrun & Hdata).
  exists message. split; [exact Hrun | exact Hdata].
Defined.

(** C3 (the claim as stated fails): the fragments (TEXT, fin=0, C0) and
    (CONT, fin=1, AF) form a fragment sequence of the stated shape, and with
    UTF-8 validation on the reassembler emits no message for it: the last
    frame raises a payload error, because C0 AF is not valid UTF-8. *)
Lemma fragmented_invalid_utf8_not_emitted :
  continuous_frame.process_all utf8_valid
    [data_frame ABNF.OPCODE_TEXT 0 [xc0]; data_frame ABNF.OPCODE_CONT 1 [xaf]]
    (idle false false)
  = (Raise (WebSocketPayloadException "cannot decode" [xc0; xaf]), idle false false).
Proof. reflexivity. Qed.

Section Utf8Errors.

Variable validate_utf8 : bytes -> bool.

(** C6 (as amended): with skip_utf8_validation=false and
    fire_cont_frame=false, a TEXT message whose reassembled payload is not
    valid UTF-8, fragmented or in a single frame, raises a payload error
    ([WebSocketPayloadException]) when its last frame arrives; a CLOSE frame
    of 3 to 125 bytes whose reason bytes after the 2-byte status code are not
    valid UTF-8 raises a protocol error ([WebSocketProtocolException],
    "Invalid close frame."), not a payload error. *)
Theorem malformed_utf8_errors :
  (forall (F0 Fl : ABNF.t) (mids : list ABNF.t),
      ABNF.opcode F0 = ABNF.OPCODE_TEXT ->
      ABNF.fin F0 = 0 ->
      Forall middle_frame mids ->
      ABNF.opcode Fl = ABNF.OPCODE_CONT ->
      ABNF.fin Fl = 1 ->
      let whole := contents (ABNF.data F0) ++ fragment_payloads mids
                   ++ contents (ABNF.data Fl) in
      validate_utf8 whole = false ->
      continuous_frame.process_all validate_utf8 (F0 :: mids ++ [Fl]) (idle false false)
      = (Raise (WebSocketPayloadException "cannot decode" whole), idle false false))
  /\ (forall f : ABNF.t,
         ABNF.opcode f = ABNF.OPCODE_TEXT ->
         ABNF.fin f = 1 ->
         validate_utf8 (contents (ABNF.data f)) = false ->
         continuous_frame.process validate_utf8 f (idle false false)
         = (Raise (WebSocketPayloadException "cannot decode" (contents (ABNF.data f))),
            idle false false))
  /\ (forall f : ABNF.t,
         ABNF.opcode f = ABNF.OPCODE_CLOSE ->
         ABNF.rsv1 f = 0 -> ABNF.rsv2 f = 0 -> ABNF.rsv3 f = 0 ->
         3 <= len (contents (ABNF.data f)) ->
         len (contents (ABNF.data f)) <= 125 ->
         validate_utf8 (slice_from (contents (ABNF.data f)) 2) = false ->
         ABNF.validate validate_utf8 f false
         = Raise (WebSocketProtocolException "Invalid close frame." None)).
Proof.
  split; [|split].
  - intros F0 Fl mids H0 Hfin Hm Hl Hlfin whole Hu.
    assert (Hop : In (ABNF.opcode F0) [ABNF.OPCODE_TEXT; ABNF.OPCODE_BINARY])
      by (rewrite H0; left; reflexivity).
    rewrite (process_all_message validate_utf8 false F0 Fl mids Hop Hfin Hm Hl)
      by (rewrite Hlfin; discriminate).
    fold whole. rewrite H0, Hu. reflexivity.
  - intros f H0 Hfin Hu.
    rewrite (process_single_frame validate_utf8 false f)
      by (rewrite ?H0, ?Hfin; try (left; reflexivity); discriminate).
    rewrite H0, Hu. reflexivity.
  - intros f Hop H1 H2 H3 Hlo Hhi Hu.
    rewrite (validate_close validate_utf8 f false Hop H1 H2 H3).
    replace (len (contents (ABNF.data f)) =? 0) with false
      by (symmetry; apply N.eqb_neq; lia).
    replace ((len (contents (ABNF.data f)) =? 1) || (126 <=? len (contents (ABNF.data f))))
      with false
      by (symmetry; apply orb_false_iff; split; [apply N.eqb_neq|apply N.leb_gt]; lia).
    replace (2 <? len (contents (ABNF.data f))) with true
      by (symmetry; apply N.ltb_lt; lia).
    rewrite Hu. reflexivity.
Qed.

End Utf8Errors.

Lemma malformed_utf8_errors_witness :
  continuous_frame.process utf8_valid (data_frame ABNF.OPCODE_TEXT 1 [xc0; xaf])
    (idle false false)
  = (Raise (WebSocketPayloadException "cannot decode" [xc0; xaf]), idle false false)
  /\ ABNF.validate utf8_valid (close_frame 1 0 0 0 (code_bytes 1000 ++ [xc0; xaf])) false
     = Raise (WebSocketProtocolException "Invalid close frame." None).
Proof.
  split.
  - apply (proj1 (proj2 (malformed_utf8_errors utf8_valid))
             (data_frame ABNF.OPCODE_TEXT 1 [xc0; xaf])); reflexivity.
  - apply (proj2 (proj2 (malformed_utf8_errors utf8_valid))
             (close_frame 1 0 0 0 (code_bytes 1000 ++ [xc0; xaf])));
      try reflexivity; vm_compute; discriminate.
Defined.

(** C6 (the claim as stated fails): the CLOSE frame 88 04 03 E8 C0 AF carries
    the status code 1000 and the reason C0 AF, which is not valid UTF-8; with
    UTF-8 validation on, validating it, and decoding it from the wire, raises
    a protocol error and not a payload error. *)
Lemma close_reason_invalid_utf8_is_protocol_error :
  utf8_valid [xc0; xaf] = false
  /\ ABNF.validate utf8_valid (close_frame 1 0 0 0 (code_bytes 1000 ++ [xc0; xaf])) false
     = Raise (WebSocketProtocolException "Invalid close frame." None)
  /\ fst (decode utf8_valid big false 131072 4 [x88; x04; x03; xe8; xc0; xaf])
     = Raise (WebSocketProtocolException "Invalid close frame." None).
Proof. repeat split; reflexivity. Qed.


(** ** Reading an exact number of bytes *)

Section RecvStrict.

Variable S : Type.
Variable recv_into_fn : S -> N -> reply * S.

Local Abbreviation t := (frame_buffer.t S).

Lemma recv_strict_loop_done (fuel : nat) (pos : N) (buf : bytes) (st : t) :
  frame_buffer.recv_strict_loop recv_into_fn fuel 0 pos buf st = (Ok buf, st).
Proof. destruct fuel; reflexivity. Qed.

Lemma recv_strict_loop_out (sh pos : N) (buf : bytes) (st : t) :
  sh <> 0 ->
  frame_buffer.recv_strict_loop recv_into_fn 0 sh pos buf st = (OutOfFuel, st).
Proof.
  intros H. cbn [frame_buffer.recv_strict_loop].
  apply N.eqb_neq in H. now rewrite H.
Qed.

Lemma recv_strict_loop_step (fuel : nat) (sh pos : N) (buf : bytes) (st : t) :
  sh <> 0 ->
  frame_buffer.recv_strict_loop recv_into_fn (Datatypes.S fuel) sh pos buf st
  = match recv_into_fn (frame_buffer.source st) (N.min 131072 sh) with
    | (Filled bs, s') =>
        let chunk := slice_to bs (N.min 131072 sh) in
        frame_buffer.recv_strict_loop recv_into_fn fuel (sh - len chunk) (pos + len chunk)
          (slice_to buf pos ++ chunk ++ slice_from buf (pos + len chunk))
          (with_source st s')
    | (Raises e, s') => (Raise e, with_source st s')
    end.
Proof.
  intros H. cbn [frame_buffer.recv_strict_loop].
  apply N.eqb_neq in H. rewrite H.
  unfold bind, frame_buffer.recv_into.
  destruct (recv_into_fn (frame_buffer.source st) (N.min 131072 sh)) as [[bs|e] s'];
    reflexivity.
Qed.

(** [recv_strict] for a size [bytearray] accepts: the loop on a buffer of
    zero bytes. *)
Lemma recv_strict_fits (fuel : nat) (n : N) (st : t) :
  n < 2 ^ 63 ->
  frame_buffer.recv_strict recv_into_fn fuel n st
  = frame_buffer.recv_strict_loop recv_into_fn fuel n 0 (repeat x00 (N.to_nat n)) st.
Proof.
  intros H. unfold frame_buffer.recv_strict, bytearray.
  apply N.ltb_lt in H. rewrite H. reflexivity.
Qed.

(** [recv_strict] for a size [bytearray] refuses: the [OverflowError] comes
    before any read, and no field of the decoder has changed. *)
Lemma recv_strict_overflow (fuel : nat) (n : N) (st : t) :
  2 ^ 63 <= n ->
  frame_buffer.recv_strict recv_into_fn fuel n st
  = (Raise (OverflowError "cannot fit 'int' into an index-sized integer"), st).
Proof.
  intros H. unfold frame_buffer.recv_strict, bytearray.
  apply N.ltb_ge in H. rewrite H. reflexivity.
Qed.

(** On a source that returns 0 bytes on every read from the states of a set
    it does not leave, the loop is still running after any number of
    reads. *)
Lemma recv_strict_loop_zero_reads (P : S -> Prop) (fuel : nat) :
  (forall (s : S) (k : N), P s -> exists s' : S, recv_into_fn s k = (Filled [], s') /\ P s') ->
  forall (sh pos : N) (buf : bytes) (st : t),
    sh <> 0 ->
    P (frame_buffer.source st) ->
    fst (frame_buffer.recv_strict_loop recv_into_fn fuel sh pos buf st) = OutOfFuel.
Proof.
  intros HP. induction fuel as [|fuel IH]; intros sh pos buf st Hsh Hst.
  - now rewrite recv_strict_loop_out.
  - rewrite recv_strict_loop_step by assumption.
    destruct (HP (frame_buffer.source st) (N.min 131072 sh) Hst) as (s' & -> & Hs').
    cbv zeta.
    replace (slice_to (@nil byte) (N.min 131072 sh)) with (@nil byte)
      by (unfold slice_to; now rewrite firstn_nil).
    change (len (@nil byte)) with 0. rewrite N.sub_0_r.
    apply IH; assumption.
Qed.

End RecvStrict.

Arguments recv_strict_loop_done {S}.
Arguments recv_strict_loop_out {S}.
Arguments recv_strict_loop_step {S}.
Arguments recv_strict_fits {S}.
Arguments recv_strict_overflow {S}.
Arguments recv_strict_loop_zero_reads {S}.

Section RecvStrictLogged.

Variable S : Type.
Variable recv_into_fn : S -> N -> reply * S.

(** The calls [recv_strict] makes, read off a source that records them.  One
    run of the loop adds the entries [new] to the log: every call asked for
    [min(131072, remaining)] bytes; a run that returns has written exactly the
    missing bytes, in order, behind the ones already there; a run that raises
    raises what the last call raised; a run that uses up its fuel made one
    call per unit of fuel and is still short of bytes. *)
Lemma recv_strict_loop_logged (fuel : nat) :
  forall (sh pos : N) (buf : bytes) (st : frame_buffer.t (S * list (N * reply))),
    len buf = pos + sh ->
    exists new : list (N * reply),
      snd (frame_buffer.source
             (snd (frame_buffer.recv_strict_loop (logged recv_into_fn) fuel sh pos buf st)))
      = snd (frame_buffer.source st) ++ new
      /\ requests_ok sh new
      /\ match fst (frame_buffer.recv_strict_loop (logged recv_into_fn) fuel sh pos buf st)
         with
         | Ok buf' =>
             buf' = slice_to buf pos ++ delivered new
             /\ len (delivered new) = sh /\ all_filled new
         | Raise e =>
             exists (pre : list (N * reply)) (k : N),
               new = pre ++ [(k, Raises e)] /\ all_filled pre
         | OutOfFuel =>
             List.length new = fuel /\ len (delivered new) < sh /\ all_filled new
         end.
Proof.
  induction fuel as [|fuel IH]; intros sh pos buf st Hlen.
  - destruct (N.eq_dec sh 0) as [->|Hsh].
    + rewrite recv_strict_loop_done. exists []. cbn [fst snd].
      rewrite app_nil_r. repeat split; try constructor.
      unfold delivered. cbn [map List.concat]. rewrite app_nil_r.
      symmetry. apply slice_to_all. lia.
    + rewrite recv_strict_loop_out by assumption. exists []. cbn [fst snd].
      rewrite app_nil_r. repeat split; try constructor.
      unfold delivered. cbn. lia.
  - destruct (N.eq_dec sh 0) as [->|Hsh].
    + rewrite recv_strict_loop_done. exists []. cbn [fst snd].
      rewrite app_nil_r. repeat split; try constructor.
      unfold delivered. cbn [map List.concat]. rewrite app_nil_r.
      symmetry. apply slice_to_all. lia.
    + rewrite recv_strict_loop_step by assumption.
      unfold logged at 1 3.
      destruct (recv_into_fn (fst (frame_buffer.source st)) (N.min 131072 sh))
        as [[bs|e] s'].
      * cbv zeta.
        set (k := N.min 131072 sh).
        set (chunk := slice_to bs k).
        assert (Hc : len chunk <= k) by apply length_slice_to.
        assert (Hk : k <= sh) by (unfold k; lia).
        set (buf1 := slice_to buf pos ++ chunk ++ slice_from buf (pos + len chunk)).
        assert (Hp : len (slice_to buf pos) = pos) by (apply len_slice_to_le; lia).
        assert (Hlen1 : len buf1 = (pos + len chunk) + (sh - len chunk)).
        { unfold buf1. rewrite !len_app, Hp, len_slice_from. lia. }
        destruct (IH (sh - len chunk) (pos + len chunk) buf1
                     (with_source st (s', snd (frame_buffer.source st) ++ [(k, Filled chunk)]))
                     Hlen1)
          as (new & Hlog & Hreq & Hres).
        exists ((k, Filled chunk) :: new).
        split; [|split].
        -- rewrite Hlog. cbn [with_source frame_buffer.source snd].
           now rewrite <- app_assoc.
        -- cbn [requests_ok fst]. unfold chunk_of at 1 2. cbn [snd].
           repeat split; try assumption; reflexivity.
        -- destruct (fst (frame_buffer.recv_strict_loop _ _ _ _ _ _)) as [buf'|e|].
           ++ destruct Hres as (Hb & Hd & Ha). split; [|split].
              ** rewrite Hb. unfold buf1.
                 rewrite app_assoc, slice_to_app_exact by (rewrite len_app, Hp; reflexivity).
                 unfold delivered. cbn [map List.concat]. unfold chunk_of at 2. cbn [snd].
                 now rewrite <- app_assoc.
              ** unfold delivered in *. cbn [map List.concat]. unfold chunk_of at 1.
                 cbn [snd]. rewrite len_app. lia.
              ** constructor; [now exists chunk | exact Ha].
           ++ destruct Hres as (pre & k' & Hn & Ha).
              exists ((k, Filled chunk) :: pre), k'. split.
              ** now rewrite Hn.
              ** constructor; [now exists chunk | exact Ha].
           ++ destruct Hres as (Hl & Hd & Ha). split; [|split].
              ** cbn [List.length]. now rewrite Hl.
              ** unfold delivered in *. cbn [map List.concat]. unfold chunk_of at 1.
                 cbn [snd]. rewrite len_app. lia.
              ** constructor; [now exists chunk | exact Ha].
      * exists [(N.min 131072 sh, Raises e)]. cbn [fst snd with_source frame_buffer.source].
        split; [reflexivity|]. split.
        -- cbn [requests_ok fst]. unfold chunk_of. cbn [snd].
           repeat split. unfold len. cbn. lia.
        -- exists [], (N.min 131072 sh). split; [reflexivity|constructor].
Qed.

End RecvStrictLogged.

Section RecvStrictClaims.

Variable S : Type.
Variable recv_into_fn : S -> N -> reply * S.

(** Recording the calls changes neither the outcome nor the state the byte
    source is left in. *)
Lemma recv_strict_loop_logged_same (fuel : nat) :
  forall (sh pos : N) (buf : bytes) (st : frame_buffer.t S) (log : list (N * reply)),
    fst (frame_buffer.recv_strict_loop (logged recv_into_fn) fuel sh pos buf
           (with_source st (frame_buffer.source st, log)))
    = fst (frame_buffer.recv_strict_loop recv_into_fn fuel sh pos buf st)
    /\ fst (frame_buffer.source
              (snd (frame_buffer.recv_strict_loop (logged recv_into_fn) fuel sh pos buf
                      (with_source st (frame_buffer.source st, log)))))
       = frame_buffer.source (snd (frame_buffer.recv_strict_loop recv_into_fn fuel sh pos buf st)).
Proof.
  induction fuel as [|fuel IH]; intros sh pos buf st log.
  - destruct (N.eq_dec sh 0) as [->|Hsh].
    + rewrite !recv_strict_loop_done. split; reflexivity.
    + rewrite !recv_strict_loop_out by assumption. split; reflexivity.
  - destruct (N.eq_dec sh 0) as [->|Hsh].
    + rewrite !recv_strict_loop_done. split; reflexivity.
    + rewrite !recv_strict_loop_step by assumption.
      unfold logged at 1 3. cbn [with_source frame_buffer.source fst snd].
      destruct (recv_into_fn (frame_buffer.source st) (N.min 131072 sh)) as [[bs|e] s'].
      * cbv zeta.
        apply (IH _ _ _ (with_source st s')).
      * split; reflexivity.
Qed.

Lemma zero_read_or_progress (log : list (N * reply)) :
  all_filled log ->
  (exists k : N, In (k, Filled []) log)
  \/ (List.length log <= N.to_nat (len (delivered log)))%nat.
Proof.
  induction 1 as [|[k r] log (bs & Hbs) _ IH].
  - right. cbn. lia.
  - cbn [snd] in Hbs. subst r. destruct bs as [|b bs].
    + left. exists k. now left.
    + destruct IH as [(k' & Hin)|Hle].
      * left. exists k'. now right.
      * right. unfold delivered in *. cbn [map List.concat]. unfold chunk_of at 1.
        cbn [snd]. rewrite len_app. unfold len at 1. cbn [List.length]. lia.
Qed.

(** C7 (as amended): for every requested size [n] below [2^63], every byte
    source and every number of loop iterations granted, [recv_strict(n)] asks
    each read for exactly [min(131072, remaining)] bytes (so at most that
    many) and takes no more than it asked for; when it returns, it returns
    exactly [n] bytes, the ones the reads delivered, in order; when it raises,
    it raises what a read of the source raised (no error is made by
    [recv_strict] itself, a connection-closed error included); and when it is
    still running after [n] or more reads, one of them returned 0 bytes: a
    read that returns 0 bytes is not an error, [recv_strict] reads again.  So
    on a source that keeps returning 0 bytes, [recv_strict(n)] for
    [0 < n < 2^63] neither returns nor raises, however many reads it is
    granted.  For a size of [2^63] or more, [bytearray(bufsize)] raises an
    [OverflowError] before any read is made.  The calls are read off a
    recording of the source, which changes neither the outcome nor the
    source. *)
Theorem recv_strict_reads (fuel : nat) (n : N) (st : frame_buffer.t S) :
  let run := frame_buffer.recv_strict (logged recv_into_fn) fuel n
               (with_source st (frame_buffer.source st, [])) in
  let log := snd (frame_buffer.source (snd run)) in
  fst run = fst (frame_buffer.recv_strict recv_into_fn fuel n st)
  /\ fst (frame_buffer.source (snd run))
     = frame_buffer.source (snd (frame_buffer.recv_strict recv_into_fn fuel n st))
  /\ requests_ok n log
  /\ (n < 2 ^ 63 ->
      match fst run with
      | Ok buffer => len buffer = n /\ buffer = delivered log /\ all_filled log
      | Raise e =>
          exists (pre : list (N * reply)) (k : N),
            log = pre ++ [(k, Raises e)] /\ all_filled pre
      | OutOfFuel =>
          List.length log = fuel
          /\ len (delivered log) < n
          /\ all_filled log
          /\ ((N.to_nat n <= fuel)%nat -> exists k : N, In (k, Filled []) log)
      end)
  /\ (2 ^ 63 <= n ->
      log = []
      /\ fst run = Raise (OverflowError "cannot fit 'int' into an index-sized integer")
      /\ snd (frame_buffer.recv_strict recv_into_fn fuel n st) = st)
  /\ (forall P : S -> Prop,
         (forall (s : S) (k : N),
             P s -> exists s' : S, recv_into_fn s k = (Filled [], s') /\ P s') ->
         P (frame_buffer.source st) ->
         0 < n -> n < 2 ^ 63 ->
         fst (frame_buffer.recv_strict recv_into_fn fuel n st) = OutOfFuel).
Proof.
  cbv zeta.
  destruct (N.lt_ge_cases n (2 ^ 63)) as [Hn|Hn].
  - rewrite !recv_strict_fits by assumption.
    destruct (recv_strict_loop_logged_same fuel n 0 (repeat x00 (N.to_nat n)) st [])
      as (Hsame & Hsrc).
    split; [exact Hsame|]. split; [exact Hsrc|].
    destruct (recv_strict_loop_logged S recv_into_fn fuel n 0 (repeat x00 (N.to_nat n))
                (with_source st (frame_buffer.source st, [])))
      as (new & Hlog & Hreq & Hres).
    { unfold len. rewrite repeat_length. lia. }
    cbn [with_source frame_buffer.source snd app] in Hlog. rewrite Hlog.
    split; [exact Hreq|].
    split; [|split].
    + intros _.
      destruct (fst (frame_buffer.recv_strict_loop _ _ _ _ _ _)) as [buf|e|].
      * destruct Hres as (Hb & Hd & Ha). cbn [slice_to N.to_nat firstn app] in Hb.
        subst buf. repeat split; assumption.
      * exact Hres.
      * destruct Hres as (Hl & Hd & Ha). repeat split; try assumption.
        intros Hfuel. destruct (zero_read_or_progress new Ha) as [Hz|Hp]; [exact Hz|].
        exfalso. lia.
    + intros Hge. exfalso. lia.
    + intros P HP Hst Hpos _.
      apply (recv_strict_loop_zero_reads recv_into_fn P fuel HP); [lia|exact Hst].
  - rewrite !recv_strict_overflow by assumption.
    cbn [fst snd with_source frame_buffer.source].
    split; [reflexivity|]. split; [reflexivity|]. split; [exact I|].
    split; [intros Hlt; exfalso; lia|].
    split; [intros _; repeat split|].
    intros P _ _ _ Hlt. exfalso. lia.
Qed.

End RecvStrictClaims.

Lemma stream_source_nil (cap k : N) : stream_source cap [] k = (Filled [], []).
Proof.
  unfold stream_source, slice_to, slice_from.
  now rewrite firstn_nil, skipn_nil.
Qed.

(** On a source at end of stream, which returns 0 bytes on every read,
    [recv_strict] keeps reading as long as it is let to. *)
Lemma recv_strict_end_of_stream (cap : N) (skip : bool) (fuel : nat) (n : N) :
  n <> 0 ->
  n < 2 ^ 63 ->
  frame_buffer.recv_strict (stream_source cap) fuel n (frame_buffer.__init__ [] skip)
  = (OutOfFuel, frame_buffer.__init__ [] skip).
Proof.
  intros Hn Hfit. rewrite recv_strict_fits by assumption.
  generalize (repeat x00 (N.to_nat n)).
  induction fuel as [|fuel IH]; intros buf.
  - now apply recv_strict_loop_out.
  - rewrite recv_strict_loop_step by assumption.
    cbn [frame_buffer.__init__ frame_buffer.source]. rewrite stream_source_nil.
    cbv zeta. replace (slice_to [] (N.min 131072 n)) with (@nil byte)
      by (unfold slice_to; now rewrite firstn_nil).
    change (len (@nil byte)) with 0. rewrite N.sub_0_r, N.add_0_r.
    cbn [app slice_to slice_from N.to_nat firstn skipn]. apply IH.
Qed.

Lemma recv_strict_reads_witness :
  let run := frame_buffer.recv_strict (logged (stream_source 3)) 5 5
               (with_source (frame_buffer.__init__ (ascii_bytes "Hello") false)
                            (ascii_bytes "Hello", [])) in
  fst run = Ok (ascii_bytes "Hello")
  /\ snd (frame_buffer.source (snd run))
     = [(5, Filled (ascii_bytes "Hel")); (2, Filled (ascii_bytes "lo"))]
  /\ requests_ok 5 (snd (frame_buffer.source (snd run))).
Proof.
  cbv zeta. split; [reflexivity|]. split; [reflexivity|].
  apply (recv_strict_reads bytes (stream_source 3) 5 5
           (frame_buffer.__init__ (ascii_bytes "Hello") false)).
Defined.

(** C7 (the claim as stated fails): a read that returns 0 bytes before [n]
    bytes have been delivered surfaces no error.  On a source whose first
    read returns 0 bytes and whose second read returns one byte,
    [recv_strict(1)] returns that byte; on a source at end of stream, where
    every read returns 0 bytes, [recv_strict(1)] neither raises nor returns,
    however many reads it is granted. *)
Lemma recv_strict_zero_byte_read_is_retried :
  fst (frame_buffer.recv_strict script_source 2 1
         (frame_buffer.__init__ [Filled []; Filled [x41]] false))
  = Ok [x41]
  /\ ~ (exists (fuel : nat) (e : exn),
          fst (frame_buffer.recv_strict (stream_source 131072) fuel 1
                 (frame_buffer.__init__ [] false))
          = Raise e)
  /\ ~ (exists (fuel : nat) (buffer : bytes),
          fst (frame_buffer.recv_strict (stream_source 131072) fuel 1
                 (frame_buffer.__init__ [] false))
          = Ok buffer).
Proof.
  split; [reflexivity|].
  split; intros (fuel & x & H);
    rewrite recv_strict_end_of_stream in H by (try discriminate; reflexivity); discriminate.
Qed.

(** ** Decoding what the encoder produced *)

Lemma slice_to_slice_from {A} (l : list A) (m n : N) :
  m <= n -> slice_to l m ++ slice_to (slice_from l m) (n - m) = slice_to l n.
Proof.
  intros H. unfold slice_to, slice_from.
  replace (N.to_nat n) with (N.to_nat m + N.to_nat (n - m))%nat by lia.
  generalize (N.to_nat (n - m)). generalize (N.to_nat m). clear.
  intros a. revert l. induction a as [|a IH]; intros l b.
  - reflexivity.
  - destruct l as [|x l]; cbn [Nat.add firstn skipn app].
    + now rewrite firstn_nil.
    + now rewrite IH.
Qed.

Lemma slice_from_slice_from {A} (l : list A) (m n : N) :
  m <= n -> slice_from (slice_from l m) (n - m) = slice_from l n.
Proof.
  intros H. unfold slice_from. rewrite skipn_skipn. f_equal. lia.
Qed.

Lemma with_source_same {S} (st : frame_buffer.t S) :
  with_source st (frame_buffer.source st) = st.
Proof. now destruct st. Qed.

Lemma with_source_twice {S} (st : frame_buffer.t S) (s1 s2 : S) :
  with_source (with_source st s1) s2 = with_source st s2.
Proof. reflexivity. Qed.

(** On a source that holds enough bytes and hands out at least one per read,
    [recv_strict(n)] returns the next [n] bytes and leaves the rest. *)
Lemma recv_strict_loop_stream (cap : N) (fuel : nat) :
  1 <= cap ->
  forall (sh pos : N) (buf : bytes) (st : frame_buffer.t bytes),
    len buf = pos + sh ->
    sh <= len (frame_buffer.source st) ->
    (N.to_nat sh <= fuel)%nat ->
    frame_buffer.recv_strict_loop (stream_source cap) fuel sh pos buf st
    = (Ok (slice_to buf pos ++ slice_to (frame_buffer.source st) sh),
       with_source st (slice_from (frame_buffer.source st) sh)).
Proof.
  intros Hcap. induction fuel as [|fuel IH]; intros sh pos buf st Hlen Hsh Hfuel.
  - assert (sh = 0) as -> by lia. rewrite recv_strict_loop_done.
    cbn [slice_to slice_from N.to_nat firstn skipn]. rewrite app_nil_r.
    rewrite (slice_to_all buf pos) by lia.
    unfold slice_to. cbn. now rewrite with_source_same.
  - destruct (N.eq_dec sh 0) as [->|Hne].
    + rewrite recv_strict_loop_done.
      cbn [slice_to slice_from N.to_nat firstn skipn]. rewrite app_nil_r.
      rewrite (slice_to_all buf pos) by lia.
      unfold slice_to. cbn. now rewrite with_source_same.
    + rewrite recv_strict_loop_step by assumption.
      unfold stream_source. cbv zeta.
      set (k := N.min 131072 sh). set (m := N.min cap k).
      set (pending := frame_buffer.source st) in *.
      assert (Hm1 : 1 <= m) by (unfold m, k; lia).
      assert (Hmk : m <= k) by (unfold m; lia).
      assert (Hks : k <= sh) by (unfold k; lia).
      assert (Hcm : len (slice_to pending m) = m) by (apply len_slice_to_le; lia).
      rewrite (slice_to_all (slice_to pending m) k) by lia.
      rewrite Hcm.
      rewrite IH.
      * cbn [with_source frame_buffer.source].
        rewrite slice_from_slice_from by lia.
        rewrite app_assoc.
        rewrite slice_to_app_exact
          by (rewrite len_app, Hcm, len_slice_to_le by lia; reflexivity).
        rewrite <- app_assoc, slice_to_slice_from by lia.
        reflexivity.
      * rewrite !len_app, Hcm, len_slice_from, len_slice_to_le by lia. lia.
      * cbn [with_source frame_buffer.source]. rewrite len_slice_from. lia.
      * lia.
Qed.

Lemma recv_strict_stream (cap : N) (fuel : nat) (n : N) (st : frame_buffer.t bytes) :
  1 <= cap ->
  n < 2 ^ 63 ->
  n <= len (frame_buffer.source st) ->
  (N.to_nat n <= fuel)%nat ->
  frame_buffer.recv_strict (stream_source cap) fuel n st
  = (Ok (slice_to (frame_buffer.source st) n),
     with_source st (slice_from (frame_buffer.source st) n)).
Proof.
  intros Hcap Hfit Hn Hfuel. rewrite recv_strict_fits by assumption.
  rewrite (recv_strict_loop_stream cap fuel Hcap) by
    (try assumption; unfold len; rewrite repeat_length; lia).
  reflexivity.
Qed.


Section DecodeMasked.

Variable validate_utf8 : bytes -> bool.
Variable native_byteorder : byteorder.
Variable skip : bool.
Variable cap : N.
Variable fuel : nat.
Hypothesis cap_pos : 1 <= cap.
Hypothesis fuel_header : (8 <= fuel)%nat.

Local Abbreviation recv_frame :=
  (frame_buffer.recv_frame (stream_source cap) validate_utf8 native_byteorder fuel).

(** One read of the decoder from a byte stream that holds enough bytes. *)
Lemma bind_recv_strict {B : Type} (n : N) (k : bytes -> M (frame_buffer.t bytes) B)
    (st : frame_buffer.t bytes) :
  n < 2 ^ 63 ->
  n <= len (frame_buffer.source st) ->
  (N.to_nat n <= fuel)%nat ->
  bind (frame_buffer.recv_strict (stream_source cap) fuel n) k st
  = k (slice_to (frame_buffer.source st) n)
      (with_source st (slice_from (frame_buffer.source st) n)).
Proof.
  intros Hfit Hn Hf. apply bind_ok. now apply recv_strict_stream.
Qed.

Lemma len_cons2 (b0 b1 : byte) (rest : bytes) : 2 <= len (b0 :: b1 :: rest).
Proof. unfold len. cbn [List.length]. lia. Qed.

(** The header phase. *)
Lemma recv_header_stream (b0 b1 : byte) (rest : bytes) (h : option frame_buffer.header_t)
    (l : option N) (m : option bytes) :
  frame_buffer.recv_header (stream_source cap) fuel
    (frame_buffer.mk (b0 :: b1 :: rest) skip h l m)
  = (Ok tt,
     frame_buffer.mk rest skip
       (Some (N.land (N.shiftr (Byte.to_N b0) 7) 1,
              N.land (N.shiftr (Byte.to_N b0) 6) 1,
              N.land (N.shiftr (Byte.to_N b0) 5) 1,
              N.land (N.shiftr (Byte.to_N b0) 4) 1,
              N.land (Byte.to_N b0) 0xF,
              N.land (N.shiftr (Byte.to_N b1) 7) 1,
              N.land (Byte.to_N b1) 0x7F))
       l m).
Proof.
  unfold frame_buffer.recv_header.
  rewrite bind_recv_strict by (try reflexivity; try apply len_cons2; cbn; lia).
  reflexivity.
Qed.

Lemma land_7F_twice (x : N) : N.land (N.land x 0x7F) 0x7F = N.land x 0x7F.
Proof. now rewrite <- N.land_assoc, N.land_diag. Qed.

(** The length phase, by the three forms of the length field. *)
Lemma recv_length_stream (pending ext rest : bytes) (hd : frame_buffer.header_t) (lb L : N)
    (l : option N) (m : option bytes) :
  snd hd = lb ->
  N.land lb 0x7F = lb ->
  pending = ext ++ rest ->
  (lb < 126 /\ ext = [] /\ L = lb)
  \/ (lb = 126 /\ len ext = 2 /\ from_le (rev ext) = L)
  \/ (lb = 127 /\ len ext = 8 /\ from_le (rev ext) = L) ->
  frame_buffer.recv_length (stream_source cap) fuel
    (frame_buffer.mk pending skip (Some hd) l m)
  = (Ok tt, frame_buffer.mk rest skip (Some hd) (Some L) m).
Proof.
  intros Hhd Hland -> Hext.
  destruct hd as [[[[[[f r1] r2] r3] o] hm] bits]. cbn [snd] in Hhd. subst bits.
  unfold frame_buffer.recv_length. rewrite bind_get. cbn [frame_buffer.header].
  rewrite Hland.
  destruct Hext as [(Hlb & -> & ->)|[(-> & He & <-)|(-> & He & <-)]].
  - replace (lb =? 126) with false by (symmetry; apply N.eqb_neq; lia).
    replace (lb =? 127) with false by (symmetry; apply N.eqb_neq; lia).
    reflexivity.
  - change (126 =? 126) with true. cbv iota.
    rewrite bind_recv_strict
      by (try reflexivity; cbn [frame_buffer.source]; rewrite ?len_app; cbn; lia).
    cbn [frame_buffer.source with_source frame_buffer.skip_utf8_validation
         frame_buffer.header frame_buffer.length frame_buffer.mask_value].
    rewrite slice_to_app_exact by assumption.
    unfold struct_unpack. rewrite He. change (2 =? 2) with true. cbv iota.
    rewrite bind_lift_ok. unfold frame_buffer.set_length. rewrite bind_get.
    unfold put. cbn [frame_buffer.source frame_buffer.skip_utf8_validation
         frame_buffer.header frame_buffer.length frame_buffer.mask_value].
    unfold slice_from. replace (N.to_nat 2) with (List.length ext)
      by (unfold len in He; lia).
    now rewrite skipn_app, skipn_all, Nat.sub_diag.
  - change (127 =? 126) with false. change (127 =? 127) with true. cbv iota.
    rewrite bind_recv_strict
      by (try reflexivity; cbn [frame_buffer.source]; rewrite ?len_app; cbn; lia).
    cbn [frame_buffer.source with_source frame_buffer.skip_utf8_validation
         frame_buffer.header frame_buffer.length frame_buffer.mask_value].
    rewrite slice_to_app_exact by assumption.
    unfold struct_unpack. rewrite He. change (8 =? 8) with true. cbv iota.
    rewrite bind_lift_ok. unfold frame_buffer.set_length. rewrite bind_get.
    unfold put. cbn [frame_buffer.source frame_buffer.skip_utf8_validation
         frame_buffer.header frame_buffer.length frame_buffer.mask_value].
    unfold slice_from. replace (N.to_nat 8) with (List.length ext)
      by (unfold len in He; lia).
    now rewrite skipn_app, skipn_all, Nat.sub_diag.
Qed.

(** The mask phase of a masked frame. *)
Lemma recv_mask_stream (key rest : bytes) (f r1 r2 r3 o lb : N) (l : option N)
    (m : option bytes) :
  len key = 4 ->
  frame_buffer.recv_mask (stream_source cap) fuel
    (frame_buffer.mk (key ++ rest) skip (Some (f, r1, r2, r3, o, 1, lb)) l m)
  = (Ok tt,
     frame_buffer.mk rest skip (Some (f, r1, r2, r3, o, 1, lb)) l (Some key)).
Proof.
  intros Hk. unfold frame_buffer.recv_mask. rewrite bind_get.
  cbn [frame_buffer.has_mask frame_buffer.header]. change (negb (1 =? 0)) with true.
  cbv iota. rewrite bind_recv_strict
    by (try reflexivity; cbn [frame_buffer.source]; rewrite ?len_app; cbn; lia).
  rewrite bind_get.
  unfold put. cbn [frame_buffer.source with_source frame_buffer.skip_utf8_validation
       frame_buffer.header frame_buffer.length frame_buffer.mask_value].
  rewrite slice_to_app_exact by assumption.
  unfold slice_from. replace (N.to_nat 4) with (List.length key)
    by (unfold len in Hk; lia).
  now rewrite skipn_app, skipn_all, Nat.sub_diag.
Qed.

Lemma validate_data_frame (op : N) (d : pybuf) :
  In op [ABNF.OPCODE_TEXT; ABNF.OPCODE_BINARY] ->
  ABNF.validate validate_utf8 (ABNF.__init__ 1 0 0 0 op 1 d None None) skip = Ok tt.
Proof.
  intros H. cbn [In] in H. destruct H as [<-|[<-|[]]]; reflexivity.
Qed.

(** The decoder on the wire bytes of a masked TEXT or BINARY frame: the two
    header bytes, the extended length, the mask key and the masked payload. *)
Lemma recv_frame_masked_data (op lb : N) (b0 b1 : byte) (ext key masked payload : bytes) :
  In op [ABNF.OPCODE_TEXT; ABNF.OPCODE_BINARY] ->
  N.land (N.shiftr (Byte.to_N b0) 7) 1 = 1 ->
  N.land (N.shiftr (Byte.to_N b0) 6) 1 = 0 ->
  N.land (N.shiftr (Byte.to_N b0) 5) 1 = 0 ->
  N.land (N.shiftr (Byte.to_N b0) 4) 1 = 0 ->
  N.land (Byte.to_N b0) 0xF = op ->
  N.land (N.shiftr (Byte.to_N b1) 7) 1 = 1 ->
  N.land (Byte.to_N b1) 0x7F = lb ->
  (lb < 126 /\ ext = [] /\ len masked = lb)
  \/ (lb = 126 /\ len ext = 2 /\ from_le (rev ext) = len masked)
  \/ (lb = 127 /\ len ext = 8 /\ from_le (rev ext) = len masked) ->
  len key = 4 ->
  ABNF.mask native_byteorder key masked = Ok payload ->
  len masked < 2 ^ 63 ->
  (N.to_nat (len masked) <= fuel)%nat ->
  recv_frame (frame_buffer.__init__ (b0 :: b1 :: ext ++ key ++ masked) skip)
  = (Ok (ABNF.__init__ 1 0 0 0 op 1 (PyBytes payload) None None),
     frame_buffer.__init__ [] skip).
Proof.
  intros Hop Hfin H1 H2 H3 Hopc Hmask Hlb Hext Hkey Hpay Hfit Hfuel.
  unfold frame_buffer.recv_frame, frame_buffer.__init__.
  rewrite bind_get. cbn [frame_buffer.has_received_header frame_buffer.header].
  rewrite (bind_ok _ _ _ _ _ (recv_header_stream _ _ _ _ _ _)). cbv beta.
  rewrite Hfin, H1, H2, H3, Hopc, Hmask, Hlb.
  rewrite bind_get. cbn [frame_buffer.header].
  cbn [frame_buffer.has_received_length frame_buffer.length].
  erewrite bind_ok;
    [|apply (recv_length_stream _ ext (key ++ masked) _ lb (len masked));
      [reflexivity | rewrite <- Hlb; apply land_7F_twice | reflexivity
      | destruct Hext as [(A & B & C)|[(A & B & C)|(A & B & C)]]; auto]].
  cbv beta. rewrite bind_get. cbn [frame_buffer.length].
  cbn [frame_buffer.has_received_mask frame_buffer.mask_value].
  rewrite (bind_ok _ _ _ _ _ (recv_mask_stream key masked _ _ _ _ _ _ _ _ Hkey)).
  cbv beta. rewrite bind_get. cbn [frame_buffer.mask_value].
  rewrite bind_recv_strict by (try assumption; cbn [frame_buffer.source]; lia).
  cbn [frame_buffer.source with_source frame_buffer.skip_utf8_validation
       frame_buffer.header frame_buffer.length frame_buffer.mask_value].
  rewrite (slice_to_all masked) by lia.
  change (negb (1 =? 0)) with true. cbv iota.
  rewrite Hpay. monad_simp.
  unfold frame_buffer.clear. monad_simp.
  cbn [with_source frame_buffer.source frame_buffer.skip_utf8_validation].
  rewrite (validate_data_frame op (PyBytes payload) Hop). monad_simp.
  unfold ret, slice_from. now rewrite len_nat, skipn_all.
Qed.

End DecodeMasked.

Lemma from_le_to_le (n : nat) (x : N) : from_le (to_le n x) = x mod 256 ^ N.of_nat n.
Proof.
  revert x. induction n as [|n IH]; intros x.
  - cbn [to_le from_le]. change (N.of_nat 0) with 0. rewrite N.pow_0_r, N.mod_1_r.
    reflexivity.
  - cbn [to_le from_le]. rewrite IH, to_N_byte_of_N.
    rewrite Nat2N.inj_succ, N.pow_succ_r'.
    now rewrite N.Div0.mod_mul_r.
Qed.

Lemma rev_to_le_2 (L : N) : rev (to_le 2 L) = [be_digit L 1; be_digit L 0].
Proof.
  unfold be_digit. cbn [to_le rev app].
  now rewrite N.pow_1_r, N.pow_0_r, N.div_1_r.
Qed.

Lemma rev_to_le_8 (L : N) :
  rev (to_le 8 L) = [be_digit L 7; be_digit L 6; be_digit L 5; be_digit L 4;
                     be_digit L 3; be_digit L 2; be_digit L 1; be_digit L 0].
Proof.
  unfold be_digit. cbn [to_le rev app].
  rewrite !N.Div0.div_div.
  now rewrite N.pow_1_r, N.pow_0_r, N.div_1_r.
Qed.

Lemma pow_256_2 : 256 ^ N.of_nat 2 = 2 ^ 16.
Proof. vm_compute. reflexivity. Qed.

Lemma pow_256_8 : 256 ^ N.of_nat 8 = 2 ^ 64.
Proof. vm_compute. reflexivity. Qed.

Lemma be_digits_2 (L : N) : L < 2 ^ 16 -> from_le (rev [be_digit L 1; be_digit L 0]) = L.
Proof.
  intros H. rewrite <- rev_to_le_2, rev_involutive, from_le_to_le, pow_256_2.
  now apply N.mod_small.
Qed.

Lemma be_digits_8 (L : N) :
  L < 2 ^ 64 ->
  from_le (rev [be_digit L 7; be_digit L 6; be_digit L 5; be_digit L 4;
                be_digit L 3; be_digit L 2; be_digit L 1; be_digit L 0]) = L.
Proof.
  intros H. rewrite <- rev_to_le_8, rev_involutive, from_le_to_le, pow_256_8.
  now apply N.mod_small.
Qed.

(** The second header byte of a masked frame: the mask bit is set and the low
    seven bits are the length field. *)
Lemma mask_bit_and_length_field (x : N) :
  x < 128 ->
  let b := Byte.to_N (byte_of_N (N.lor (N.shiftl 1 7) x)) in
  N.land (N.shiftr b 7) 1 = 1 /\ N.land b 0x7F = x.
Proof.
  intros Hx. cbv zeta. rewrite to_N_byte_of_N.
  rewrite N.mod_small by (apply lor_lt_256; [reflexivity|lia]).
  change (N.shiftl 1 7) with 128. split.
  - rewrite N.shiftr_lor. change (N.shiftr 128 7) with 1.
    rewrite N.shiftr_div_pow2. change (2 ^ 7) with 128.
    rewrite N.div_small by assumption. reflexivity.
  - rewrite N.land_lor_distr_l. change (N.land 128 127) with 0. rewrite N.lor_0_l.
    change 127 with (N.ones 7). rewrite N.land_ones. change (2 ^ 7) with 128.
    now apply N.mod_small.
Qed.

Lemma length_len {A} (l : list A) (n : nat) : List.length l = n -> len l = N.of_nat n.
Proof. unfold len. now intros ->. Qed.

(** C1: for every data opcode (TEXT or BINARY), every byte payload (shorter
    than [2^63] bytes, as every Python byte string is) and every 4-byte mask
    key, the bytes produced by encoding the frame with fin=1 and masking
    enabled, fed to the frame decoder, yield a frame whose fin, rsv1, rsv2,
    rsv3, opcode and unmasked payload are those of the encoded frame.  The
    byte source may hand the bytes out in pieces of any size from 1 up. *)
Theorem decode_encode_roundtrip (validate_utf8 : bytes -> bool)
    (native_byteorder : byteorder) (skip_utf8_validation : bool) (cap : N) (fuel : nat)
    (opcode : N) (payload mask_key : bytes) :
  In opcode [ABNF.OPCODE_TEXT; ABNF.OPCODE_BINARY] ->
  len payload < 2 ^ 63 ->
  List.length mask_key = 4%nat ->
  1 <= cap ->
  (8 <= fuel)%nat ->
  (List.length payload <= fuel)%nat ->
  let sent := ABNF.create_frame (PyBytes payload) opcode 1 true None None in
  exists (wire : bytes) (received : ABNF.t),
    encode native_byteorder opcode 1 payload true mask_key = Ok wire
    /\ fst (decode validate_utf8 native_byteorder skip_utf8_validation cap fuel wire)
       = Ok received
    /\ ABNF.fin received = ABNF.fin sent
    /\ ABNF.rsv1 received = ABNF.rsv1 sent
    /\ ABNF.rsv2 received = ABNF.rsv2 sent
    /\ ABNF.rsv3 received = ABNF.rsv3 sent
    /\ ABNF.opcode received = ABNF.opcode sent
    /\ contents (ABNF.data received) = contents (ABNF.data sent).
Proof.
  intros Hop HL Hkey Hcap Hfuel Hpay sent.
  set (masked := mask_ref mask_key payload).
  assert (Hml : len masked = len payload)
    by (unfold len, masked; now rewrite length_mask_ref).
  assert (Hunmask : ABNF.mask native_byteorder mask_key masked = Ok payload).
  { unfold masked. rewrite mask_ok by assumption. now rewrite mask_ref_involutive. }
  assert (He : encodable sent).
  { unfold sent, encodable. cbn. repeat split; try reflexivity; try assumption.
    cbn [In] in Hop. destruct Hop as [<-|[<-|[]]]; cbn; tauto. }
  assert (Henc : encode native_byteorder opcode 1 payload true mask_key
                 = Ok (header_of sent ++ mask_key ++ masked)).
  { unfold encode. fold sent.
    rewrite (format_masked native_byteorder mask_key sent masked He)
      by (try discriminate; apply mask_ok; assumption).
    cbn [fst obind]. now rewrite tobytes_whole. }
  exists (header_of sent ++ mask_key ++ masked),
         (ABNF.__init__ 1 0 0 0 opcode 1 (PyBytes payload) None None).
  split; [exact Henc|].
  split; [|repeat split].
  unfold decode, header_of, header_spec, sent.
  cbn [ABNF.create_frame ABNF.__init__ ABNF.fin ABNF.rsv1 ABNF.rsv2 ABNF.rsv3 ABNF.opcode
       ABNF.mask_value ABNF.data ABNF.data_msg_length_bytes contents].
  assert (Hb0 : let b0 := Byte.to_N
                    (byte_of_N (N.lor (N.lor (N.lor (N.lor (N.shiftl 1 7) (N.shiftl 0 6))
                                                    (N.shiftl 0 5))
                                             (N.shiftl 0 4)) opcode)) in
                N.land (N.shiftr b0 7) 1 = 1 /\ N.land (N.shiftr b0 6) 1 = 0
                /\ N.land (N.shiftr b0 5) 1 = 0 /\ N.land (N.shiftr b0 4) 1 = 0
                /\ N.land b0 0xF = opcode).
  { cbn [In] in Hop. destruct Hop as [<-|[<-|[]]]; vm_compute; repeat split. }
  cbv zeta in Hb0. destruct Hb0 as (B7 & B6 & B5 & B4 & Bop).
  assert (Hk : len mask_key = 4) by (now apply (length_len mask_key 4)).
  assert (Hmf : (N.to_nat (len masked) <= fuel)%nat) by (rewrite Hml, len_nat; exact Hpay).
  assert (Hmfit : len masked < 2 ^ 63) by (now rewrite Hml).
  pose proof (recv_frame_masked_data validate_utf8 native_byteorder skip_utf8_validation
                cap fuel Hcap Hfuel opcode) as R.
  destruct (N.ltb_spec (len payload) 126) as [Hs|Hs].
  - destruct (mask_bit_and_length_field (len payload)) as (M1 & M2); [lia|].
    exact (f_equal fst
             (R (len payload) _ _ [] mask_key masked payload Hop B7 B6 B5 B4 Bop M1 M2
                (or_introl (conj Hs (conj eq_refl Hml))) Hk Hunmask Hmfit Hmf)).
  - destruct (N.ltb_spec (len payload) (2 ^ 16)) as [Ht|Ht].
    + destruct (mask_bit_and_length_field 126) as (M1 & M2); [lia|].
      assert (Hd : from_le (rev [be_digit (len payload) 1; be_digit (len payload) 0])
                   = len masked) by (rewrite Hml; now apply be_digits_2).
      exact (f_equal fst
               (R 126 _ _ [be_digit (len payload) 1; be_digit (len payload) 0]
                  mask_key masked payload Hop B7 B6 B5 B4 Bop M1 M2
                  (or_intror (or_introl (conj eq_refl (conj eq_refl Hd)))) Hk Hunmask Hmfit Hmf)).
    + destruct (mask_bit_and_length_field 127) as (M1 & M2); [lia|].
      assert (Hd : from_le (rev [be_digit (len payload) 7; be_digit (len payload) 6;
                                 be_digit (len payload) 5; be_digit (len payload) 4;
                                 be_digit (len payload) 3; be_digit (len payload) 2;
                                 be_digit (len payload) 1; be_digit (len payload) 0])
                   = len masked).
      { rewrite Hml. apply be_digits_8.
        eapply N.lt_trans; [exact HL|vm_compute; reflexivity]. }
      exact (f_equal fst
               (R 127 _ _ [be_digit (len payload) 7; be_digit (len payload) 6;
                           be_digit (len payload) 5; be_digit (len payload) 4;
                           be_digit (len payload) 3; be_digit (len payload) 2;
                           be_digit (len payload) 1; be_digit (len payload) 0]
                  mask_key masked payload Hop B7 B6 B5 B4 Bop M1 M2
                  (or_intror (or_intror (conj eq_refl (conj eq_refl Hd)))) Hk Hunmask Hmfit Hmf)).
Qed.

Lemma decode_encode_roundtrip_witness :
  exists (wire : bytes) (received : ABNF.t),
    encode little ABNF.OPCODE_TEXT 1 (ascii_bytes "Hello") true [x37; xfa; x21; x3d] = Ok wire
    /\ fst (decode utf8_valid little false 3 8 wire) = Ok received
    /\ ABNF.fin received = 1
    /\ ABNF.opcode received = ABNF.OPCODE_TEXT
    /\ contents (ABNF.data received) = ascii_bytes "Hello".
Proof.
  destruct (decode_encode_roundtrip utf8_valid little false 3 8 ABNF.OPCODE_TEXT
              (ascii_bytes "Hello") [x37; xfa; x21; x3d])
    as (wire & received & Henc & Hdec & Hfin & _ & _ & _ & Hop & Hdata).
  - left. reflexivity.
  - reflexivity.
  - reflexivity.
  - vm_compute. discriminate.
  - repeat constructor.
  - cbn. repeat constructor.
  - exists wire, received. repeat split; assumption.
Defined.


(** * Further properties *)

(** ** Frame validation as a whole *)

Section ValidateAll.

Variable validate_utf8 : bytes -> bool.

(** The only exception [validate] raises is [WebSocketProtocolException]. *)
Lemma validate_raises_protocol (f : ABNF.t) (skip : bool) :
  ABNF.validate validate_utf8 f skip = Ok tt
  \/ exists (msg : string) (arg : option N),
       ABNF.validate validate_utf8 f skip = Raise (WebSocketProtocolException msg arg).
Proof.
  unfold ABNF.validate.
  repeat match goal with
         | |- context [if ?b then _ else _] => destruct b
         end;
    first [left; reflexivity | right; eexists _, _; reflexivity].
Qed.

Lemma validate_rsv_zero (f : ABNF.t) (skip : bool) :
  ABNF.validate validate_utf8 f skip = Ok tt ->
  ABNF.rsv1 f = 0 /\ ABNF.rsv2 f = 0 /\ ABNF.rsv3 f = 0.
Proof.
  intros H.
  destruct (N.eq_dec (ABNF.rsv1 f) 0) as [H1|H1];
    [|rewrite validate_rsv in H by tauto; discriminate].
  destruct (N.eq_dec (ABNF.rsv2 f) 0) as [H2|H2];
    [|rewrite validate_rsv in H by tauto; discriminate].
  destruct (N.eq_dec (ABNF.rsv3 f) 0) as [H3|H3];
    [|rewrite validate_rsv in H by tauto; discriminate].
  tauto.
Qed.

(** [validate] on a frame whose reserved bits are zero and whose opcode is
    not CLOSE. *)
Lemma validate_not_close (f : ABNF.t) (skip : bool) :
  ABNF.rsv1 f = 0 -> ABNF.rsv2 f = 0 -> ABNF.rsv3 f = 0 ->
  ABNF.opcode f <> ABNF.OPCODE_CLOSE ->
  ABNF.validate validate_utf8 f skip
  = if negb (py_in (ABNF.opcode f) ABNF.OPCODES) then
      Raise (WebSocketProtocolException "Invalid opcode %r" (Some (ABNF.opcode f)))
    else if (ABNF.opcode f =? ABNF.OPCODE_PING) && (ABNF.fin f =? 0) then
      Raise (WebSocketProtocolException "Invalid ping frame." None)
    else Ok tt.
Proof.
  intros H1 H2 H3 Hop. unfold ABNF.validate. rewrite H1, H2, H3.
  change (negb (0 =? 0) || negb (0 =? 0) || negb (0 =? 0)) with false. cbv iota.
  apply N.eqb_neq in Hop. rewrite Hop. reflexivity.
Qed.

(** X1: frame validation accepts a frame if and only if its three reserved
    bits are zero, its opcode is one of the six known ones, it is not a PING
    with fin=0 and, when it is a CLOSE frame, its payload is empty or has 2 to
    125 bytes, a status code that may travel on the wire and a reason that is
    valid UTF-8 (the reason is not looked at when the payload is just the
    code or when UTF-8 validation is skipped).  The payload of a frame that
    is not a CLOSE frame plays no part.  Whatever [validate] rejects, it
    rejects with a [WebSocketProtocolException]. *)
Theorem validate_accepts_iff (f : ABNF.t) (skip_utf8_validation : bool) :
  let p := contents (ABNF.data f) in
  (ABNF.validate validate_utf8 f skip_utf8_validation = Ok tt
   <-> ABNF.rsv1 f = 0 /\ ABNF.rsv2 f = 0 /\ ABNF.rsv3 f = 0
       /\ In (ABNF.opcode f) ABNF.OPCODES
       /\ (ABNF.opcode f = ABNF.OPCODE_PING -> ABNF.fin f <> 0)
       /\ (ABNF.opcode f = ABNF.OPCODE_CLOSE ->
           len p = 0
           \/ (2 <= len p /\ len p <= 125
               /\ (len p = 2 \/ skip_utf8_validation = true
                   \/ validate_utf8 (slice_from p 2) = true)
               /\ valid_close_code (close_code p))))
  /\ (ABNF.validate validate_utf8 f skip_utf8_validation = Ok tt
      \/ exists (msg : string) (arg : option N),
           ABNF.validate validate_utf8 f skip_utf8_validation
           = Raise (WebSocketProtocolException msg arg)).
Proof.
  intros p. split; [|apply validate_raises_protocol].
  split.
  - intros H. destruct (validate_rsv_zero f _ H) as (H1 & H2 & H3).
    repeat (split; [assumption|]).
    destruct (N.eq_dec (ABNF.opcode f) ABNF.OPCODE_CLOSE) as [Hc|Hc].
    + split; [rewrite Hc; cbn; tauto|].
      split; [rewrite Hc; discriminate|]. intros _.
      rewrite (validate_close validate_utf8 f _ Hc H1 H2 H3) in H. fold p in H.
      destruct (N.eqb_spec (len p) 0) as [E0|E0]; [left; exact E0|]. right.
      destruct ((len p =? 1) || (126 <=? len p)) eqn:E1; [discriminate|].
      apply orb_false_iff in E1. destruct E1 as (E1 & E2).
      apply N.eqb_neq in E1. apply N.leb_gt in E2.
      destruct ((2 <? len p) && negb skip_utf8_validation
                && negb (validate_utf8 (slice_from p 2))) eqn:E3; [discriminate|].
      destruct (ABNF._is_valid_close_status (close_code p)) eqn:E4; [|discriminate].
      apply _is_valid_close_status_spec in E4.
      repeat split; try lia; try assumption.
      destruct (N.ltb_spec 2 (len p)) as [Hl|Hl]; [|left; lia].
      destruct skip_utf8_validation; [right; left; reflexivity|].
      destruct (validate_utf8 (slice_from p 2)); [right; right; reflexivity|discriminate].
    + rewrite (validate_not_close f _ H1 H2 H3 Hc) in H.
      destruct (py_in (ABNF.opcode f) ABNF.OPCODES) eqn:Ho; [|discriminate].
      apply py_in_In in Ho. split; [exact Ho|]. cbn [negb] in H.
      split; [|intros E; now destruct Hc].
      intros Hp Hf. rewrite Hp, Hf in H. discriminate.
  - intros (H1 & H2 & H3 & Ho & Hping & Hclose).
    destruct (N.eq_dec (ABNF.opcode f) ABNF.OPCODE_CLOSE) as [Hc|Hc].
    + rewrite (validate_close validate_utf8 f _ Hc H1 H2 H3). fold p.
      destruct (Hclose Hc) as [E0|(Hlo & Hhi & Hu & Hcode)].
      * rewrite E0. reflexivity.
      * replace (len p =? 0) with false by (symmetry; apply N.eqb_neq; lia).
        replace ((len p =? 1) || (126 <=? len p)) with false
          by (symmetry; apply orb_false_iff; split; [apply N.eqb_neq|apply N.leb_gt]; lia).
        replace ((2 <? len p) && negb skip_utf8_validation
                 && negb (validate_utf8 (slice_from p 2))) with false.
        -- apply _is_valid_close_status_spec in Hcode. now rewrite Hcode.
        -- symmetry. destruct Hu as [E|[E|E]]; rewrite E.
           ++ reflexivity.
           ++ cbn [negb]. now rewrite andb_false_r.
           ++ cbn [negb]. now rewrite andb_false_r.
    + rewrite (validate_not_close f _ H1 H2 H3 Hc).
      apply py_in_In in Ho. rewrite Ho. cbn [negb].
      destruct (N.eqb_spec (ABNF.opcode f) ABNF.OPCODE_PING) as [Hp|Hp]; [|reflexivity].
      specialize (Hping Hp). apply N.eqb_neq in Hping. now rewrite Hping.
Qed.

End ValidateAll.


(** ** The frame encoder: failures and the in-place path *)









Lemma skipn_app_exact {A} (l1 l2 : list A) (n : nat) :
  List.length l1 = n -> skipn n (l1 ++ l2) = l2.
Proof. intros <-. now rewrite skipn_app, skipn_all, Nat.sub_diag. Qed.

Lemma firstn_app_exact {A} (l1 l2 : list A) (n : nat) :
  List.length l1 = n -> firstn n (l1 ++ l2) = l1.
Proof. intros <-. now rewrite firstn_app, Nat.sub_diag, firstn_all, app_nil_r. Qed.

(** X3: the zero-copy path of [format].  For an unmasked frame over a
    [bytearray] whose head margin is strictly larger than the header (a
    margin of 11 bytes or more always is) and lies within the buffer,
    [format] writes the header into the end of the margin of that same
    buffer: the buffer keeps its length, the bytes before the header and the
    bytes from the payload on are untouched, the frame now starts at the
    header, and the returned view shows the header followed by the declared
    message bytes. *)
Theorem format_writes_header_in_place (native_byteorder : byteorder) (mask_key : bytes)
    (f : ABNF.t) (c : bytes) :
  encodable f ->
  ABNF.mask_value f = 0 ->
  ABNF.data f = PyByteArray c ->
  len (header_of f) < ABNF.data_start_offset_bytes f ->
  ABNF.data_start_offset_bytes f <= len c ->
  let off := ABNF.data_start_offset_bytes f in
  let L := ABNF.data_msg_length_bytes f in
  len (header_of f) <= 10
  /\ exists (v : ABNF.memoryview) (f' : ABNF.t) (c' : bytes),
       ABNF.format native_byteorder mask_key f = (Ok v, f')
       /\ ABNF.data f' = PyByteArray c'
       /\ ABNF.obj v = PyByteArray c'
       /\ len c' = len c
       /\ slice_to c' (off - len (header_of f)) = slice_to c (off - len (header_of f))
       /\ slice c' (off - len (header_of f)) off = header_of f
       /\ slice_from c' off = slice_from c off
       /\ ABNF.data_start_offset_bytes f' = off - len (header_of f)
       /\ ABNF.data_msg_length_bytes f' = L + len (header_of f)
       /\ ABNF.tobytes v = header_of f ++ slice c off (off + L).
Proof.
  intros He Hm Hd Ho Hc off L.
  assert (Hh10 : len (header_of f) <= 10).
  { pose proof (length_header_spec_le (ABNF.fin f) (ABNF.rsv1 f) (ABNF.rsv2 f) (ABNF.rsv3 f)
                  (ABNF.opcode f) (ABNF.mask_value f) (ABNF.data_msg_length_bytes f)) as P.
    unfold header_of, len. lia. }
  split; [exact Hh10|].
  rewrite (format_unmasked_in_place _ _ f c He Hm Hd Ho). cbv zeta.
  fold off. fold L.
  set (hl := len (header_of f)) in *.
  set (o := off - hl).
  set (c' := slice_to c o ++ header_of f ++ slice_from c off).
  assert (Hlo : List.length (slice_to c o) = N.to_nat o).
  { pose proof (len_slice_to_le c o) as P. unfold len in P. unfold len in Hc.
    unfold o, hl, len in *. lia. }
  assert (Hlh : List.length (header_of f) = N.to_nat hl) by (unfold hl; now rewrite len_nat).
  assert (Hoff : List.length (slice_to c o ++ header_of f) = N.to_nat off).
  { rewrite length_app, Hlo, Hlh. unfold o. lia. }
  exists (ABNF.mkview (PyByteArray c') o (o + (L + hl))),
         (ABNF.mk (ABNF.fin f) (ABNF.rsv1 f) (ABNF.rsv2 f) (ABNF.rsv3 f) (ABNF.opcode f)
                  (ABNF.mask_value f) (PyByteArray c') o (L + hl)),
         c'.
  split; [reflexivity|]. split; [reflexivity|]. split; [reflexivity|].
  split; [|split; [|split; [|split; [|split; [reflexivity|split; [reflexivity|]]]]]].
  - unfold c'. rewrite !len_app, len_slice_from.
    unfold len at 1. rewrite Hlo. fold hl. unfold o. lia.
  - unfold c', slice_to. now apply firstn_app_exact.
  - unfold c', slice. rewrite (skipn_app_exact _ _ _ Hlo).
    replace (N.to_nat (off - o)) with (List.length (header_of f)) by (unfold o; lia).
    now apply firstn_app_exact.
  - unfold c', slice_from. rewrite app_assoc. now apply skipn_app_exact.
  - unfold ABNF.tobytes, slice. cbn [ABNF.obj ABNF.start ABNF.stop contents].
    unfold c'. rewrite (skipn_app_exact _ _ _ Hlo).
    replace (N.to_nat (o + (L + hl) - o)) with (List.length (header_of f) + N.to_nat L)%nat
      by lia.
    rewrite firstn_app_2. f_equal.
    unfold slice_from. f_equal. lia.
Qed.

Lemma format_writes_header_in_place_witness :
  exists (v : ABNF.memoryview) (f' : ABNF.t) (c' : bytes),
    ABNF.format little []
      (ABNF.create_frame (PyByteArray (zeros 11 ++ ascii_bytes "Hello")) ABNF.OPCODE_TEXT 1
                         false (Some 11) (Some 5))
    = (Ok v, f')
    /\ ABNF.data f' = PyByteArray c'
    /\ c' = zeros 9 ++ [x81; x05] ++ ascii_bytes "Hello"
    /\ ABNF.tobytes v = [x81; x05] ++ ascii_bytes "Hello".
Proof.
  destruct (format_writes_header_in_place little []
              (ABNF.create_frame (PyByteArray (zeros 11 ++ ascii_bytes "Hello"))
                                 ABNF.OPCODE_TEXT 1 false (Some 11) (Some 5))
              (zeros 11 ++ ascii_bytes "Hello"))
    as (_ & v & f' & c' & Hf & Hd & _ & _ & _ & _ & _ & _ & _ & Hv).
  - unfold encodable. cbn. repeat split; try reflexivity. right; left; reflexivity.
  - reflexivity.
  - reflexivity.
  - reflexivity.
  - vm_compute. discriminate.
  - exists v, f', c'. split; [exact Hf|]. split; [exact Hd|]. split; [|exact Hv].
    injection Hf as _ <-. injection Hd as <-. reflexivity.
Defined.


(** ** Masking in pieces *)

Lemma mask_ref_from_app (i : nat) (key a b : bytes) :
  mask_ref_from i key (a ++ b)
  = mask_ref_from i key a ++ mask_ref_from (i + List.length a) key b.
Proof.
  revert i. induction a as [|x a IH]; intros i; cbn [app mask_ref_from List.length].
  - now rewrite Nat.add_0_r.
  - rewrite IH. do 3 f_equal. lia.
Qed.

Lemma length_rotate (key : bytes) (n : nat) : List.length (rotate key n) = List.length key.
Proof.
  unfold rotate. rewrite length_app, length_skipn, length_firstn. lia.
Qed.

Lemma nth_rotate (key : bytes) (n m : nat) :
  List.length key = 4%nat -> (n < 4)%nat -> (m < 4)%nat ->
  nth m (rotate key n) x00 = nth ((n + m) mod 4) key x00.
Proof.
  intros Hk Hn Hm.
  destruct key as [|k0 [|k1 [|k2 [|k3 [|]]]]]; try discriminate.
  destruct n as [|[|[|[|]]]]; try lia;
    (destruct m as [|[|[|[|]]]]; try lia; reflexivity).
Qed.

Lemma mask_ref_from_rotate (key data : bytes) (i j : nat) :
  List.length key = 4%nat ->
  mask_ref_from (i + j) key data = mask_ref_from j (rotate key (i mod 4)) data.
Proof.
  intros Hk. revert j. induction data as [|b d IH]; intros j; cbn [mask_ref_from].
  - reflexivity.
  - f_equal.
    + f_equal. rewrite nth_rotate by (try assumption; apply Nat.mod_upper_bound; lia).
      f_equal. rewrite (Nat.Div0.add_mod i j), Nat.Div0.add_mod_idemp_r.
      rewrite Nat.Div0.add_mod_idemp_l. reflexivity.
    + replace (Datatypes.S (i + j)) with (i + Datatypes.S j)%nat by lia. apply IH.
Qed.

(** X4: masking a concatenation.  For a 4-byte key, masking [a ++ b] is
    masking [a] with the key and [b] with the key rotated left by
    [len(a) mod 4] positions; so when the length of [a] is a multiple of 4 the
    two pieces can be masked on their own with the same key and glued. *)
Theorem mask_of_concatenation (native_byteorder : byteorder) (mask_key a b : bytes) :
  List.length mask_key = 4%nat ->
  ABNF.mask native_byteorder mask_key (a ++ b)
  = (let? x := ABNF.mask native_byteorder mask_key a in
     let? y := ABNF.mask native_byteorder
                 (rotate mask_key (List.length a mod 4)) b in
     Ok (x ++ y))
  /\ ((List.length a mod 4 = 0)%nat ->
      ABNF.mask native_byteorder mask_key (a ++ b)
      = (let? x := ABNF.mask native_byteorder mask_key a in
         let? y := ABNF.mask native_byteorder mask_key b in
         Ok (x ++ y))).
Proof.
  intros Hk.
  assert (Hr : List.length (rotate mask_key (List.length a mod 4)) = 4%nat)
    by (now rewrite length_rotate).
  assert (E : ABNF.mask native_byteorder mask_key (a ++ b)
              = (let? x := ABNF.mask native_byteorder mask_key a in
                 let? y := ABNF.mask native_byteorder
                             (rotate mask_key (List.length a mod 4)) b in
                 Ok (x ++ y))).
  { rewrite !mask_ok by assumption. cbn [obind]. f_equal.
    unfold mask_ref. rewrite mask_ref_from_app. f_equal.
    cbn [Nat.add]. rewrite <- (Nat.add_0_r (List.length a)) at 1.
    now apply mask_ref_from_rotate. }
  split; [exact E|].
  intros Ha. rewrite E, Ha. unfold rotate. cbn [skipn firstn]. now rewrite app_nil_r.
Qed.

Lemma mask_of_concatenation_witness :
  ABNF.mask big [x01; x02; x03; x04] (ascii_bytes "He" ++ ascii_bytes "llo")
  = (let? x := ABNF.mask big [x01; x02; x03; x04] (ascii_bytes "He") in
     let? y := ABNF.mask big [x03; x04; x01; x02] (ascii_bytes "llo") in
     Ok (x ++ y)).
Proof.
  apply (mask_of_concatenation big [x01; x02; x03; x04] (ascii_bytes "He") (ascii_bytes "llo")).
  reflexivity.
Defined.


(** ** The reassembler: the other mode, binary messages and its invariant *)

Lemma set_data_same (f : ABNF.t) : continuous_frame.set_data f (ABNF.data f) = f.
Proof. now destruct f. Qed.

(** X5: with fire_cont_frame=true nothing is accumulated.  Whatever the
    frame, [is_fire] holds, and [add] followed by [extract] returns the frame
    itself under its own opcode (a CONT fragment is emitted as CONT, not
    under the opcode of the message it belongs to) without looking at
    [validate_utf8]; [cont_data] is [None] again afterwards, so
    [is_building] stays false, and [recving_frames] holds the opcode of the
    message from its first TEXT or BINARY frame until a frame with fin set. *)
Theorem fire_cont_frame_emits_every_frame (validate_utf8 : bytes -> bool)
    (skip_utf8_validation : bool) (recving : option N) (f : ABNF.t) :
  let st := continuous_frame.mk true skip_utf8_validation None recving in
  let st' := continuous_frame.mk true skip_utf8_validation None
               (if negb (ABNF.fin f =? 0) then None
                else if py_in (ABNF.opcode f) [ABNF.OPCODE_TEXT; ABNF.OPCODE_BINARY]
                     then Some (ABNF.opcode f)
                     else recving) in
  continuous_frame.is_fire st f = true
  /\ (continuous_frame.add f ;; continuous_frame.extract validate_utf8 f) st
     = (Ok (ABNF.opcode f, f), st')
  /\ continuous_frame.is_building st' = false.
Proof.
  cbv zeta. split; [|split].
  - unfold continuous_frame.is_fire. cbn [continuous_frame.fire_cont_frame].
    apply orb_true_r.
  - unfold continuous_frame.add. monad_simp.
    cbn [continuous_frame.cont_data continuous_frame.fire_cont_frame
         continuous_frame.skip_utf8_validation continuous_frame.recving_frames].
    monad_simp.
    destruct (negb (ABNF.fin f =? 0)); monad_simp;
      unfold continuous_frame.extract; monad_simp;
      cbn [continuous_frame.cont_data continuous_frame.fire_cont_frame
           continuous_frame.skip_utf8_validation continuous_frame.recving_frames];
      monad_simp; cbn [negb andb]; now rewrite set_data_same.
  - reflexivity.
Qed.

Section ReassemblerMore.

Variable validate_utf8 : bytes -> bool.
Variable skip : bool.

(** X6: a fragmented BINARY message is reassembled whatever its bytes are.
    For a first frame (BINARY, fin=0), any middle frames (CONT with fin=0,
    interleaved with control frames) and a last frame (CONT with fin set),
    the reassembler emits nothing but the control frames before the last
    frame and then one BINARY message: the last frame object, whose data is
    the buffer of the first frame holding the concatenation of all fragment
    payloads.  No payload error is possible, with any [validate_utf8] and
    either value of skip_utf8_validation, and the reassembler is idle
    afterwards. *)
Theorem binary_message_reassembly (F0 Fl : ABNF.t) (mids : list ABNF.t) :
  ABNF.opcode F0 = ABNF.OPCODE_BINARY ->
  ABNF.fin F0 = 0 ->
  Forall middle_frame mids ->
  ABNF.opcode Fl = ABNF.OPCODE_CONT ->
  ABNF.fin Fl <> 0 ->
  let whole := contents (ABNF.data F0) ++ fragment_payloads mids ++ contents (ABNF.data Fl) in
  continuous_frame.process_all validate_utf8 (F0 :: mids ++ [Fl]) (idle false skip)
  = (Ok (None :: map emitted mids
         ++ [Some (ABNF.OPCODE_BINARY,
                   continuous_frame.set_data Fl (with_contents (ABNF.data F0) whole))]),
     idle false skip).
Proof.
  intros H0 Hfin Hm Hl Hlfin whole.
  rewrite (process_all_message validate_utf8 skip F0 Fl mids)
    by (try assumption; rewrite H0; right; left; reflexivity).
  fold whole. rewrite H0. reflexivity.
Qed.

Lemma in_step_cases (st : continuous_frame.t) :
  continuous_frame.fire_cont_frame st = false ->
  in_step st ->
  exists sk : bool,
    continuous_frame.skip_utf8_validation st = sk
    /\ (st = idle false sk
        \/ exists (op : N) (acc : pybuf),
             In op [ABNF.OPCODE_TEXT; ABNF.OPCODE_BINARY] /\ st = building false sk op acc).
Proof.
  destruct st as [fire sk [[op acc]|] [op'|]]; unfold in_step;
    cbn [continuous_frame.cont_data continuous_frame.recving_frames
         continuous_frame.fire_cont_frame continuous_frame.skip_utf8_validation];
    intros -> H; try (now destruct H); exists sk; (split; [reflexivity|]).
  - destruct H as (<- & Hop). right. exists op, acc. now split.
  - now left.
Qed.

(** X7: the two fields of the reassembler stay in step.  With
    fire_cont_frame=false, starting from a state in which [cont_data] and
    [recving_frames] are both [None] or both hold the opcode (TEXT or BINARY)
    of the message being built, processing any frame with a known opcode
    leaves such a state again, whether the frame is accepted, emits a message
    or raises; so [is_building()] is true exactly when [recving_frames] is
    set, the two flags keep their values, and [extract] never fails for want
    of accumulated data. *)
Theorem reassembler_fields_stay_in_step (f : ABNF.t) (st : continuous_frame.t) :
  continuous_frame.fire_cont_frame st = false ->
  In (ABNF.opcode f) ABNF.OPCODES ->
  in_step st ->
  let r := continuous_frame.process validate_utf8 f st in
  in_step (snd r)
  /\ continuous_frame.fire_cont_frame (snd r) = false
  /\ continuous_frame.skip_utf8_validation (snd r)
     = continuous_frame.skip_utf8_validation st
  /\ continuous_frame.is_building (snd r)
     = continuous_frame.truthy (continuous_frame.recving_frames (snd r))
  /\ forall msg : string, fst r <> Raise (TypeError msg).
Proof.
  intros Hfire Hop Hst.
  destruct (in_step_cases st Hfire Hst) as (sk & -> & Hcases). clear Hfire Hst.
  assert (Hidle : forall (o : outcome (option (N * ABNF.t))),
             (forall msg : string, o <> Raise (TypeError msg)) ->
             let r := (o, idle false sk) in
             in_step (snd r)
             /\ continuous_frame.fire_cont_frame (snd r) = false
             /\ continuous_frame.skip_utf8_validation (snd r) = sk
             /\ continuous_frame.is_building (snd r)
                = continuous_frame.truthy (continuous_frame.recving_frames (snd r))
             /\ forall msg : string, fst r <> Raise (TypeError msg)).
  { intros o Ho. repeat split; try reflexivity. exact Ho. }
  assert (Hbuild : forall (o : outcome (option (N * ABNF.t))) (op : N) (acc : pybuf),
             In op [ABNF.OPCODE_TEXT; ABNF.OPCODE_BINARY] ->
             (forall msg : string, o <> Raise (TypeError msg)) ->
             let r := (o, building false sk op acc) in
             in_step (snd r)
             /\ continuous_frame.fire_cont_frame (snd r) = false
             /\ continuous_frame.skip_utf8_validation (snd r) = sk
             /\ continuous_frame.is_building (snd r)
                = continuous_frame.truthy (continuous_frame.recving_frames (snd r))
             /\ forall msg : string, fst r <> Raise (TypeError msg)).
  { intros o op acc Hin Ho. repeat split; try reflexivity; try assumption.
    cbn [snd building continuous_frame.recving_frames].
    now rewrite truthy_data_opcode. }
  assert (Hctl : is_control f = true \/
                 In (ABNF.opcode f) [ABNF.OPCODE_TEXT; ABNF.OPCODE_BINARY] \/
                 ABNF.opcode f = ABNF.OPCODE_CONT).
  { unfold is_control. cbn [In ABNF.OPCODES] in Hop |- *.
    destruct Hop as [<-|[<-|[<-|[<-|[<-|[<-|[]]]]]]]; auto. }
  cbv zeta.
  destruct Hctl as [Hc|[Hd|Hcont]].
  - rewrite (process_control validate_utf8 f st Hc).
    destruct Hcases as [->|(op & acc & Hin & ->)].
    + apply Hidle. discriminate.
    + apply Hbuild; [exact Hin|discriminate].
  - destruct Hcases as [->|(op & acc & Hin & ->)].
    + destruct (N.eq_dec (ABNF.fin f) 0) as [Hf|Hf].
      * rewrite (process_first_fragment validate_utf8 sk f Hd Hf).
        apply Hbuild; [exact Hd|discriminate].
      * rewrite (process_single_frame validate_utf8 sk f Hd Hf).
        apply Hidle. destruct (_ && _); discriminate.
    + rewrite (process_data_building validate_utf8 sk f op acc Hin Hd).
      apply Hbuild; [exact Hin|discriminate].
  - destruct Hcases as [->|(op & acc & Hin & ->)].
    + rewrite (process_cont_idle validate_utf8 sk f Hcont).
      apply Hidle. discriminate.
    + destruct (N.eq_dec (ABNF.fin f) 0) as [Hf|Hf].
      * rewrite (process_middle_fragment validate_utf8 sk f op acc Hin Hcont Hf).
        apply Hbuild; [exact Hin|discriminate].
      * rewrite (process_last_fragment validate_utf8 sk f op acc Hin Hcont Hf).
        apply Hidle. destruct (_ && _); discriminate.
Qed.

End ReassemblerMore.

Lemma binary_message_reassembly_witness :
  continuous_frame.process_all utf8_valid
    ([data_frame ABNF.OPCODE_BINARY 0 [xc0]]
     ++ [data_frame ABNF.OPCODE_PONG 1 []; data_frame ABNF.OPCODE_CONT 0 [xaf]]
     ++ [data_frame ABNF.OPCODE_CONT 1 [xff]])
    (idle false false)
  = (Ok ([None]
         ++ [Some (ABNF.OPCODE_PONG, data_frame ABNF.OPCODE_PONG 1 []); None]
         ++ [Some (ABNF.OPCODE_BINARY,
                   continuous_frame.set_data (data_frame ABNF.OPCODE_CONT 1 [xff])
                                             (PyByteArray [xc0; xaf; xff]))]),
     idle false false).
Proof.
  assert (Hm : Forall middle_frame
                 [data_frame ABNF.OPCODE_PONG 1 []; data_frame ABNF.OPCODE_CONT 0 [xaf]]).
  { constructor; [left; reflexivity|].
    constructor; [right; split; reflexivity|]. constructor. }
  assert (Hfin : ABNF.fin (data_frame ABNF.OPCODE_CONT 1 [xff]) <> 0) by discriminate.
  exact (binary_message_reassembly utf8_valid false
           (data_frame ABNF.OPCODE_BINARY 0 [xc0])
           (data_frame ABNF.OPCODE_CONT 1 [xff])
           [data_frame ABNF.OPCODE_PONG 1 []; data_frame ABNF.OPCODE_CONT 0 [xaf]]
           eq_refl eq_refl Hm eq_refl Hfin).
Defined.

Lemma reassembler_fields_stay_in_step_witness :
  in_step (snd (continuous_frame.process utf8_valid (data_frame ABNF.OPCODE_TEXT 1 [xc0; xaf])
                  (building false false ABNF.OPCODE_BINARY (PyByteArray [x00]))))
  /\ forall msg : string,
       fst (continuous_frame.process utf8_valid (data_frame ABNF.OPCODE_TEXT 1 [xc0; xaf])
              (building false false ABNF.OPCODE_BINARY (PyByteArray [x00])))
       <> Raise (TypeError msg).
Proof.
  destruct (reassembler_fields_stay_in_step utf8_valid
              (data_frame ABNF.OPCODE_TEXT 1 [xc0; xaf])
              (building false false ABNF.OPCODE_BINARY (PyByteArray [x00])))
    as (H1 & _ & _ & _ & H5).
  - reflexivity.
  - right; left; reflexivity.
  - split; [reflexivity|right; left; reflexivity].
  - split; [exact H1|exact H5].
Defined.


(** ** The decoder, read by read *)

Section Reads.

Variable S : Type.
Variable recv_into_fn : S -> N -> reply * S.
Variable fuel : nat.

Local Abbreviation rd := (read recv_into_fn fuel).

(** [recv_strict] touches no field of the decoder but the byte source, and
    depends on no other. *)
Lemma recv_strict_loop_with_source (n : nat) :
  forall (sh pos : N) (buf : bytes) (st : frame_buffer.t S),
    frame_buffer.recv_strict_loop recv_into_fn n sh pos buf st
    = (fst (frame_buffer.recv_strict_loop recv_into_fn n sh pos buf
              (frame_buffer.__init__ (frame_buffer.source st) false)),
       with_source st
         (frame_buffer.source
            (snd (frame_buffer.recv_strict_loop recv_into_fn n sh pos buf
                    (frame_buffer.__init__ (frame_buffer.source st) false))))).
Proof.
  induction n as [|n IH]; intros sh pos buf st.
  - destruct (N.eq_dec sh 0) as [->|Hsh].
    + rewrite !recv_strict_loop_done. cbn [fst snd frame_buffer.__init__ frame_buffer.source].
      now rewrite with_source_same.
    + rewrite !recv_strict_loop_out by assumption.
      cbn [fst snd frame_buffer.__init__ frame_buffer.source].
      now rewrite with_source_same.
  - destruct (N.eq_dec sh 0) as [->|Hsh].
    + rewrite !recv_strict_loop_done. cbn [fst snd frame_buffer.__init__ frame_buffer.source].
      now rewrite with_source_same.
    + rewrite !recv_strict_loop_step by assumption.
      cbn [frame_buffer.__init__ frame_buffer.source].
      destruct (recv_into_fn (frame_buffer.source st) (N.min 131072 sh)) as [[bs|e] s'].
      * cbv zeta. rewrite (IH _ _ _ (with_source st s')).
        rewrite (IH _ _ _ (with_source (frame_buffer.mk (frame_buffer.source st) false None
                                                        None None) s')).
        reflexivity.
      * reflexivity.
Qed.

Lemma recv_strict_read (n : N) (st : frame_buffer.t S) :
  frame_buffer.recv_strict recv_into_fn fuel n st
  = (fst (rd (frame_buffer.source st) n),
     with_source st (snd (rd (frame_buffer.source st) n))).
Proof.
  unfold read. destruct (N.lt_ge_cases n (2 ^ 63)) as [Hn|Hn].
  - rewrite !recv_strict_fits by assumption. cbn [fst snd].
    apply recv_strict_loop_with_source.
  - rewrite !recv_strict_overflow by assumption.
    cbn [fst snd frame_buffer.__init__ frame_buffer.source].
    now rewrite with_source_same.
Qed.

(** A read of a size [bytearray] accepts is the loop on a buffer of zero
    bytes; a read of a larger size raises before the byte source is
    called. *)
Lemma read_fits (s : S) (n : N) :
  n < 2 ^ 63 ->
  rd s n
  = (fst (frame_buffer.recv_strict_loop recv_into_fn fuel n 0 (repeat x00 (N.to_nat n))
            (frame_buffer.__init__ s false)),
     frame_buffer.source
       (snd (frame_buffer.recv_strict_loop recv_into_fn fuel n 0 (repeat x00 (N.to_nat n))
               (frame_buffer.__init__ s false)))).
Proof. intros Hn. unfold read. now rewrite recv_strict_fits. Qed.

Lemma read_overflow (s : S) (n : N) :
  2 ^ 63 <= n ->
  rd s n = (Raise (OverflowError "cannot fit 'int' into an index-sized integer"), s).
Proof. intros Hn. unfold read. now rewrite recv_strict_overflow. Qed.

Lemma bind_read {A : Type} (n : N)
    (k : bytes -> frame_buffer.t S -> outcome A * frame_buffer.t S)
    (st : frame_buffer.t S) :
  bind (frame_buffer.recv_strict recv_into_fn fuel n) k st
  = after_read (rd (frame_buffer.source st) n) st k.
Proof.
  unfold bind, after_read. rewrite recv_strict_read. cbn [fst snd].
  destruct (fst (rd (frame_buffer.source st) n)); reflexivity.
Qed.

(** A read that returns, returns as many bytes as were asked for. *)
Lemma recv_strict_loop_len (n : nat) :
  forall (sh pos : N) (buf b : bytes) (st st' : frame_buffer.t S),
    len buf = pos + sh ->
    frame_buffer.recv_strict_loop recv_into_fn n sh pos buf st = (Ok b, st') ->
    len b = pos + sh.
Proof.
  induction n as [|n IH]; intros sh pos buf b st st' Hlen H.
  - destruct (N.eq_dec sh 0) as [->|Hsh].
    + rewrite recv_strict_loop_done in H. congruence.
    + rewrite recv_strict_loop_out in H by assumption. discriminate.
  - destruct (N.eq_dec sh 0) as [->|Hsh].
    + rewrite recv_strict_loop_done in H. congruence.
    + rewrite recv_strict_loop_step in H by assumption.
      destruct (recv_into_fn (frame_buffer.source st) (N.min 131072 sh)) as [[bs|e] s'];
        [|discriminate].
      cbv zeta in H.
      set (chunk := slice_to bs (N.min 131072 sh)) in *.
      assert (Hc : len chunk <= N.min 131072 sh) by apply length_slice_to.
      apply IH in H.
      * lia.
      * rewrite !len_app, len_slice_from, len_slice_to_le by lia. lia.
Qed.

Lemma read_len (s : S) (n : N) (b : bytes) : fst (rd s n) = Ok b -> len b = n.
Proof.
  destruct (N.lt_ge_cases n (2 ^ 63)) as [Hn|Hn];
    [|rewrite read_overflow by assumption; discriminate].
  rewrite read_fits by assumption. cbn [fst].
  destruct (frame_buffer.recv_strict_loop _ _ _ _ _ _) as [r st'] eqn:E. cbn [fst].
  intros ->. apply recv_strict_loop_len in E; [exact E|].
  unfold len. rewrite repeat_length. lia.
Qed.

(** A read that returns was asked for a size [bytearray] accepts. *)
Lemma read_ok_fits (s : S) (n : N) (b : bytes) : fst (rd s n) = Ok b -> n < 2 ^ 63.
Proof.
  destruct (N.lt_ge_cases n (2 ^ 63)) as [Hn|Hn]; [intros _; exact Hn|].
  rewrite read_overflow by assumption. discriminate.
Qed.

(** A read that raises, raises what a call of the byte source raised. *)
Lemma recv_strict_loop_raises (n : nat) :
  forall (sh pos : N) (buf : bytes) (e : exn) (st st' : frame_buffer.t S),
    frame_buffer.recv_strict_loop recv_into_fn n sh pos buf st = (Raise e, st') ->
    source_raises recv_into_fn e.
Proof.
  induction n as [|n IH]; intros sh pos buf e st st' H.
  - destruct (N.eq_dec sh 0) as [->|Hsh].
    + rewrite recv_strict_loop_done in H. discriminate.
    + rewrite recv_strict_loop_out in H by assumption. discriminate.
  - destruct (N.eq_dec sh 0) as [->|Hsh].
    + rewrite recv_strict_loop_done in H. discriminate.
    + rewrite recv_strict_loop_step in H by assumption.
      destruct (recv_into_fn (frame_buffer.source st) (N.min 131072 sh)) as [[bs|e'] s']
        eqn:E.
      * cbv zeta in H. now apply IH in H.
      * injection H as -> _. now exists (frame_buffer.source st), (N.min 131072 sh), s'.
Qed.

Lemma read_raises (s : S) (n : N) (e : exn) :
  n < 2 ^ 63 -> fst (rd s n) = Raise e -> source_raises recv_into_fn e.
Proof.
  intros Hn. rewrite read_fits by assumption. cbn [fst].
  destruct (frame_buffer.recv_strict_loop _ _ _ _ _ _) as [r st'] eqn:E. cbn [fst].
  intros ->. now apply recv_strict_loop_raises in E.
Qed.

(** A read of no bytes returns at once, without a call of the byte source. *)
Lemma read_zero (s : S) : rd s 0 = (Ok [], s).
Proof.
  rewrite read_fits by reflexivity.
  now rewrite recv_strict_loop_done.
Qed.

Lemma bind_if {St A B : Type} (b : bool) (m1 m2 : M St A) (k : A -> M St B) (s : St) :
  bind (if b then m1 else m2) k s = if b then bind m1 k s else bind m2 k s.
Proof. now destruct b. Qed.

Lemma if_congr {A : Type} (b : bool) (x y x' y' : A) :
  x = x' -> y = y' -> (if b then x else y) = (if b then x' else y').
Proof. now intros -> ->. Qed.

Section Steps.

Variable validate_utf8 : bytes -> bool.
Variable native_byteorder : byteorder.

Local Abbreviation recv_frame :=
  (frame_buffer.recv_frame recv_into_fn validate_utf8 native_byteorder fuel).

(** [recv_frame] with no header held: it reads the two header bytes and goes
    on as [recv_frame] does with the header held. *)
Lemma recv_frame_header (st : frame_buffer.t S) :
  frame_buffer.header st = None ->
  recv_frame st
  = after_read (rd (frame_buffer.source st) 2) st
      (fun hb st1 =>
         recv_frame (frame_buffer.mk (frame_buffer.source st1)
                       (frame_buffer.skip_utf8_validation st)
                       (Some (parse_header hb))
                       (frame_buffer.length st) (frame_buffer.mask_value st))).
Proof.
  intros Hh. unfold frame_buffer.recv_frame at 1. rewrite bind_get.
  unfold frame_buffer.has_received_header. rewrite Hh.
  unfold frame_buffer.recv_header. rewrite !bind_assoc, bind_read.
  unfold after_read. destruct (fst (rd (frame_buffer.source st) 2)); reflexivity.
Qed.

(** [recv_frame] with a header and no length held. *)
Lemma recv_frame_length (st : frame_buffer.t S) (hd : frame_buffer.header_t) :
  frame_buffer.header st = Some hd ->
  frame_buffer.length st = None ->
  let resume l st1 :=
    recv_frame (frame_buffer.mk (frame_buffer.source st1)
                  (frame_buffer.skip_utf8_validation st) (Some hd) (Some l)
                  (frame_buffer.mask_value st)) in
  let extended width :=
    after_read (rd (frame_buffer.source st) width) st
      (fun v st1 =>
         match struct_unpack width v with
         | Ok l => resume l st1
         | Raise e => (Raise e, st1)
         | OutOfFuel => (OutOfFuel, st1)
         end) in
  recv_frame st
  = if N.land (snd hd) 0x7F =? 0x7E then extended 2
    else if N.land (snd hd) 0x7F =? 0x7F then extended 8
    else resume (N.land (snd hd) 0x7F) st.
Proof.
  intros Hh Hl. cbv zeta.
  destruct st as [s sk h l m]. cbn [frame_buffer.header frame_buffer.length] in Hh, Hl.
  subst h l. destruct hd as [[[[[[f r1] r2] r3] o] hm] bits].
  cbn [snd frame_buffer.source frame_buffer.skip_utf8_validation frame_buffer.mask_value].
  unfold frame_buffer.recv_frame at 1. rewrite bind_get.
  cbn [frame_buffer.has_received_header frame_buffer.header].
  rewrite bind_ret, bind_get. cbn [frame_buffer.header].
  cbn [frame_buffer.has_received_length frame_buffer.length].
  unfold frame_buffer.recv_length. rewrite !bind_assoc, bind_get.
  cbn [frame_buffer.header].
  destruct (N.land bits 127 =? 126).
  - rewrite !bind_assoc, bind_read. unfold after_read.
    cbn [frame_buffer.source].
    destruct (fst (rd s 2)) as [v|e|]; [|reflexivity|reflexivity].
    rewrite bind_assoc.
    destruct (struct_unpack 2 v) as [l|e|]; reflexivity.
  - destruct (N.land bits 127 =? 127).
    + rewrite !bind_assoc, bind_read. unfold after_read.
      cbn [frame_buffer.source].
      destruct (fst (rd s 8)) as [v|e|]; [|reflexivity|reflexivity].
      rewrite bind_assoc.
      destruct (struct_unpack 8 v) as [l|e|]; reflexivity.
    + reflexivity.
Qed.

(** [recv_frame] with a header and a length and no mask key held. *)
Lemma recv_frame_mask (st : frame_buffer.t S) (hd : frame_buffer.header_t) (l : N) :
  frame_buffer.header st = Some hd ->
  frame_buffer.length st = Some l ->
  frame_buffer.mask_value st = None ->
  let resume k st1 :=
    recv_frame (frame_buffer.mk (frame_buffer.source st1)
                  (frame_buffer.skip_utf8_validation st) (Some hd) (Some l) (Some k)) in
  recv_frame st
  = if negb (frame_buffer.has_mask st =? 0)
    then after_read (rd (frame_buffer.source st) 4) st resume
    else resume [] st.
Proof.
  intros Hh Hl Hm. cbv zeta.
  destruct st as [s sk h l' m].
  cbn [frame_buffer.header frame_buffer.length frame_buffer.mask_value] in Hh, Hl, Hm.
  subst h l' m. destruct hd as [[[[[[f r1] r2] r3] o] hm] bits].
  cbn [frame_buffer.source frame_buffer.skip_utf8_validation frame_buffer.has_mask
       frame_buffer.header].
  unfold frame_buffer.recv_frame at 1. rewrite bind_get.
  cbn [frame_buffer.has_received_header frame_buffer.header].
  rewrite bind_ret, bind_get. cbn [frame_buffer.header].
  cbn [frame_buffer.has_received_length frame_buffer.length].
  rewrite bind_ret, bind_get. cbn [frame_buffer.length].
  cbn [frame_buffer.has_received_mask frame_buffer.mask_value].
  unfold frame_buffer.recv_mask. rewrite !bind_assoc, bind_get.
  cbn [frame_buffer.has_mask frame_buffer.header].
  rewrite bind_assoc, bind_if. apply if_congr.
  - rewrite bind_read. unfold after_read. cbn [frame_buffer.source].
    destruct (fst (rd s 4)) as [k|e|]; reflexivity.
  - reflexivity.
Qed.

(** [recv_frame] with header, length and mask key held: it reads the
    payload, unmasks it when the header says so, forgets the three parts and
    returns the frame if [validate] accepts it. *)
Lemma recv_frame_payload (st : frame_buffer.t S) (f r1 r2 r3 o hm bits l : N) (k : bytes) :
  frame_buffer.header st = Some (f, r1, r2, r3, o, hm, bits) ->
  frame_buffer.length st = Some l ->
  frame_buffer.mask_value st = Some k ->
  let finish payload st1 :=
    (verdict validate_utf8 (frame_buffer.skip_utf8_validation st)
       (ABNF.__init__ f r1 r2 r3 o hm payload None None),
     frame_buffer.__init__ (frame_buffer.source st1) (frame_buffer.skip_utf8_validation st)) in
  recv_frame st
  = after_read (rd (frame_buffer.source st) l) st
      (fun raw st1 =>
         if negb (hm =? 0) then
           match ABNF.mask native_byteorder k raw with
           | Ok p => finish (PyBytes p) st1
           | Raise e => (Raise e, st1)
           | OutOfFuel => (OutOfFuel, st1)
           end
         else finish (PyByteArray raw) st1).
Proof.
  intros Hh Hl Hm. cbv zeta.
  destruct st as [s sk h l' m].
  cbn [frame_buffer.header frame_buffer.length frame_buffer.mask_value] in Hh, Hl, Hm.
  subst h l' m.
  cbn [frame_buffer.source frame_buffer.skip_utf8_validation].
  unfold frame_buffer.recv_frame at 1. rewrite bind_get.
  cbn [frame_buffer.has_received_header frame_buffer.header].
  rewrite bind_ret, bind_get. cbn [frame_buffer.header].
  cbn [frame_buffer.has_received_length frame_buffer.length].
  rewrite bind_ret, bind_get. cbn [frame_buffer.length].
  cbn [frame_buffer.has_received_mask frame_buffer.mask_value].
  rewrite bind_ret, bind_get. cbn [frame_buffer.mask_value].
  rewrite bind_read. unfold after_read. cbn [frame_buffer.source].
  destruct (fst (rd s l)) as [raw|e|]; [|reflexivity|reflexivity].
  unfold verdict, frame_buffer.clear.
  destruct (negb (hm =? 0)).
  - rewrite !bind_assoc.
    destruct (ABNF.mask native_byteorder k raw) as [p|e|]; [|reflexivity|reflexivity].
    rewrite bind_lift_ok, bind_ret, bind_assoc, bind_get, bind_put, bind_get.
    cbn [with_source frame_buffer.source frame_buffer.skip_utf8_validation].
    unfold frame_buffer.__init__.
    destruct (ABNF.validate _ _ _) as [u|e|]; reflexivity.
  - rewrite bind_ret, bind_assoc, bind_get, bind_put, bind_get.
    cbn [with_source frame_buffer.source frame_buffer.skip_utf8_validation].
    unfold frame_buffer.__init__.
    destruct (ABNF.validate _ _ _) as [u|e|]; reflexivity.
Qed.

(** The rest of a frame, from each of the four points [recv_frame] can be
    at: when the reads still to be made return the parts of the frame, the
    frame is returned if [validate] accepts it, and the decoder holds no part
    any more. *)
Section Path.

Variable skip : bool.
Variables fin r1 r2 r3 op hm lb L : N.
Variables kb raw : bytes.
Variable data : pybuf.
Variables s1 s2 s3 s4 : S.

Hypothesis Hlb : lb < 128.
Hypothesis Hlen :
  (lb < 126 /\ L = lb /\ s2 = s1)
  \/ (lb = 126 /\ exists ext, rd s1 2 = (Ok ext, s2) /\ from_le (rev ext) = L)
  \/ (lb = 127 /\ exists ext, rd s1 8 = (Ok ext, s2) /\ from_le (rev ext) = L).
Hypothesis Hkey : (hm = 0 /\ kb = [] /\ s3 = s2) \/ (hm <> 0 /\ rd s2 4 = (Ok kb, s3)).
Hypothesis Hraw : rd s3 L = (Ok raw, s4).
Hypothesis Hdata :
  (hm = 0 /\ data = PyByteArray raw)
  \/ (hm <> 0 /\ exists p, ABNF.mask native_byteorder kb raw = Ok p /\ data = PyBytes p).

Lemma path_payload :
  recv_frame (frame_buffer.mk s3 skip (Some (fin, r1, r2, r3, op, hm, lb)) (Some L) (Some kb))
  = (verdict validate_utf8 skip (ABNF.__init__ fin r1 r2 r3 op hm data None None),
     frame_buffer.__init__ s4 skip).
Proof.
  rewrite (recv_frame_payload
             (frame_buffer.mk s3 skip (Some (fin, r1, r2, r3, op, hm, lb)) (Some L) (Some kb))
             fin r1 r2 r3 op hm lb L kb eq_refl eq_refl eq_refl).
  cbv zeta. cbn [frame_buffer.source frame_buffer.skip_utf8_validation].
  rewrite Hraw. unfold after_read. cbn [fst snd with_source frame_buffer.source].
  clear Hlb Hlen Hkey.
  destruct Hdata as [(Hm & Hd)|(Hm & p & Hp & Hd)].
  - rewrite Hm, Hd. reflexivity.
  - apply N.eqb_neq in Hm. rewrite Hm, Hp, Hd. reflexivity.
Qed.

Lemma path_mask :
  recv_frame (frame_buffer.mk s2 skip (Some (fin, r1, r2, r3, op, hm, lb)) (Some L) None)
  = (verdict validate_utf8 skip (ABNF.__init__ fin r1 r2 r3 op hm data None None),
     frame_buffer.__init__ s4 skip).
Proof.
  rewrite (recv_frame_mask
             (frame_buffer.mk s2 skip (Some (fin, r1, r2, r3, op, hm, lb)) (Some L) None)
             (fin, r1, r2, r3, op, hm, lb) L eq_refl eq_refl eq_refl).
  cbv zeta. cbn [frame_buffer.source frame_buffer.skip_utf8_validation frame_buffer.has_mask
                 frame_buffer.header].
  clear Hlb Hlen.
  destruct Hkey as [(Hm & Hk & Hs)|(Hm & Hr)].
  - replace (negb (hm =? 0)) with false by (now rewrite Hm).
    rewrite <- Hs, <- Hk. apply path_payload.
  - apply N.eqb_neq in Hm. rewrite Hm. cbn [negb]. rewrite Hr.
    unfold after_read. cbn [fst snd with_source frame_buffer.source]. apply path_payload.
Qed.

Lemma land_7F_small (x : N) : x < 128 -> N.land x 0x7F = x.
Proof.
  intros H. change 127 with (N.ones 7). rewrite N.land_ones.
  change (2 ^ 7) with 128. now apply N.mod_small.
Qed.

Lemma struct_unpack_ok (w : N) (v : bytes) :
  len v = w -> struct_unpack w v = Ok (from_le (rev v)).
Proof. intros H. unfold struct_unpack. apply N.eqb_eq in H. now rewrite H. Qed.

Lemma path_length :
  recv_frame (frame_buffer.mk s1 skip (Some (fin, r1, r2, r3, op, hm, lb)) None None)
  = (verdict validate_utf8 skip (ABNF.__init__ fin r1 r2 r3 op hm data None None),
     frame_buffer.__init__ s4 skip).
Proof.
  rewrite (recv_frame_length
             (frame_buffer.mk s1 skip (Some (fin, r1, r2, r3, op, hm, lb)) None None)
             (fin, r1, r2, r3, op, hm, lb) eq_refl eq_refl).
  cbv zeta. cbn [snd frame_buffer.source frame_buffer.skip_utf8_validation
                 frame_buffer.mask_value].
  rewrite (land_7F_small lb Hlb).
  destruct Hlen as [(Hs & HL & Hs2)|[(E & ext & Hr & HL)|(E & ext & Hr & HL)]].
  - replace (lb =? 126) with false by (symmetry; apply N.eqb_neq; lia).
    replace (lb =? 127) with false by (symmetry; apply N.eqb_neq; lia).
    rewrite <- Hs2. replace (Some lb) with (Some L) by (now rewrite HL). apply path_mask.
  - replace (lb =? 126) with true by (now rewrite E).
    cbv iota. rewrite Hr.
    unfold after_read. cbn [fst snd with_source frame_buffer.source].
    rewrite struct_unpack_ok by (apply (read_len s1); now rewrite Hr).
    rewrite HL. apply path_mask.
  - replace (lb =? 126) with false by (now rewrite E).
    replace (lb =? 127) with true by (now rewrite E).
    cbv iota. rewrite Hr.
    unfold after_read. cbn [fst snd with_source frame_buffer.source].
    rewrite struct_unpack_ok by (apply (read_len s1); now rewrite Hr).
    rewrite HL. apply path_mask.
Qed.

Lemma path_header (s0 : S) (hb : bytes) :
  rd s0 2 = (Ok hb, s1) ->
  parse_header hb = (fin, r1, r2, r3, op, hm, lb) ->
  recv_frame (frame_buffer.__init__ s0 skip)
  = (verdict validate_utf8 skip (ABNF.__init__ fin r1 r2 r3 op hm data None None),
     frame_buffer.__init__ s4 skip).
Proof.
  intros Hr Hp. rewrite (recv_frame_header (frame_buffer.__init__ s0 skip) eq_refl).
  cbn [frame_buffer.__init__ frame_buffer.source frame_buffer.skip_utf8_validation
       frame_buffer.length frame_buffer.mask_value].
  rewrite Hr. unfold after_read. cbn [fst snd with_source frame_buffer.source].
  rewrite Hp. apply path_length.
Qed.

End Path.

End Steps.

End Reads.

Arguments recv_strict_read {S}.
Arguments bind_read {S}.
Arguments read_fits {S}.
Arguments read_overflow {S}.
Arguments read_len {S}.
Arguments read_ok_fits {S}.
Arguments read_raises {S}.
Arguments read_zero {S}.
Arguments recv_frame_header {S}.
Arguments recv_frame_length {S}.
Arguments recv_frame_mask {S}.
Arguments recv_frame_payload {S}.
Arguments path_payload {S}.
Arguments path_mask {S}.
Arguments path_length {S}.
Arguments path_header {S}.


(** ** The decoder on a byte stream *)

(** A read from a stream that starts with the bytes asked for. *)
Lemma read_stream (cap : N) (fuel : nat) (a rest : bytes) (n : N) :
  1 <= cap ->
  n < 2 ^ 63 ->
  len a = n ->
  (N.to_nat n <= fuel)%nat ->
  read (stream_source cap) fuel (a ++ rest) n = (Ok a, rest).
Proof.
  intros Hcap Hfit Ha Hf. unfold read.
  rewrite recv_strict_stream
    by (try assumption; cbn [frame_buffer.__init__ frame_buffer.source];
        rewrite len_app; lia).
  cbn [fst snd frame_buffer.__init__ frame_buffer.source with_source].
  rewrite slice_to_app_exact by assumption.
  unfold slice_from. rewrite skipn_app_exact; [reflexivity|].
  rewrite <- Ha. now rewrite len_nat.
Qed.

Lemma opcode_cases (op : N) :
  op < 16 ->
  In op [0; 1; 2; 3; 4; 5; 6; 7; 8; 9; 10; 11; 12; 13; 14; 15].
Proof. intros H. cbn [In]. lia. Qed.

(** The first header byte gives back the flag bits and the opcode. *)
Lemma first_byte_fields (fin r1 r2 r3 op : N) :
  fin < 2 -> r1 < 2 -> r2 < 2 -> r3 < 2 -> op < 16 ->
  let b := Byte.to_N
             (byte_of_N (N.lor (N.lor (N.lor (N.lor (N.shiftl fin 7) (N.shiftl r1 6))
                                             (N.shiftl r2 5))
                                      (N.shiftl r3 4))
                               op)) in
  N.land (N.shiftr b 7) 1 = fin /\ N.land (N.shiftr b 6) 1 = r1
  /\ N.land (N.shiftr b 5) 1 = r2 /\ N.land (N.shiftr b 4) 1 = r3
  /\ N.land b 0xF = op.
Proof.
  intros Hf H1 H2 H3 Ho.
  destruct (flag_cases _ Hf) as [-> | ->], (flag_cases _ H1) as [-> | ->],
    (flag_cases _ H2) as [-> | ->], (flag_cases _ H3) as [-> | ->];
    (apply opcode_cases in Ho; cbn [In] in Ho;
     repeat (destruct Ho as [<-|Ho]; [vm_compute; repeat split|]); destruct Ho).
Qed.

(** The second header byte gives back the mask bit and the length field. *)
Lemma second_byte_fields (m x : N) :
  m < 2 -> x < 128 ->
  let b := Byte.to_N (byte_of_N (N.lor (N.shiftl m 7) x)) in
  N.land (N.shiftr b 7) 1 = m /\ N.land b 0x7F = x.
Proof.
  intros Hm Hx. destruct (flag_cases _ Hm) as [-> | ->].
  - cbv zeta. change (N.shiftl 0 7) with 0. rewrite N.lor_0_l, to_N_byte_of_N.
    rewrite N.mod_small by lia. split.
    + rewrite N.shiftr_div_pow2. change (2 ^ 7) with 128.
      now rewrite N.div_small.
    + now apply land_7F_small.
  - now apply mask_bit_and_length_field.
Qed.

Lemma length_field_lt (form : length_form) (L : N) :
  fits form L -> fst (length_field form L) < 128.
Proof. destruct form; cbn; lia. Qed.

Lemma mask_bit_lt (key : option bytes) : mask_bit key < 2.
Proof. destruct key; cbn; lia. Qed.

(** What [recv_header] stores for the two header bytes of a frame on the
    wire. *)
Lemma parse_header_wire (w : wire_frame) :
  well_formed w ->
  match wire_bytes w with
  | b0 :: b1 :: _ =>
      parse_header [b0; b1]
      = (w_fin w, w_rsv1 w, w_rsv2 w, w_rsv3 w, w_opcode w, mask_bit (w_key w),
         fst (length_field (w_form w) (len (w_payload w))))
  | _ => False
  end.
Proof.
  intros (Hf & H1 & H2 & H3 & Ho & Hfit & Hk).
  unfold wire_bytes, parse_header. cbn [nth].
  destruct (first_byte_fields _ _ _ _ _ Hf H1 H2 H3 Ho) as (A & B & C & D & E).
  destruct (second_byte_fields (mask_bit (w_key w))
              (fst (length_field (w_form w) (len (w_payload w))))
              (mask_bit_lt _) (length_field_lt _ _ Hfit)) as (F & G).
  cbv zeta in A, B, C, D, E, F, G.
  now rewrite A, B, C, D, E, F, G.
Qed.

(** The decoder on a stream that starts with a frame whose payload is
    shorter than [2^63] bytes: it returns the frame if [validate] accepts it
    and raises what [validate] raises if not; either way it has taken the
    bytes of the frame and no more, and holds no part of it. *)
Lemma recv_frame_wire (validate_utf8 : bytes -> bool) (bo : byteorder) (skip : bool)
    (cap : N) (fuel : nat) (w : wire_frame) (more : bytes) :
  well_formed w ->
  len (w_payload w) < 2 ^ 63 ->
  1 <= cap ->
  (8 <= fuel)%nat ->
  (List.length (w_payload w) <= fuel)%nat ->
  frame_buffer.recv_frame (stream_source cap) validate_utf8 bo fuel
    (frame_buffer.__init__ (wire_bytes w ++ more) skip)
  = (verdict validate_utf8 skip (received w), frame_buffer.__init__ more skip).
Proof.
  intros Hw Hfit63 Hcap Hfuel Hpay.
  pose proof (parse_header_wire w Hw) as Hp.
  destruct Hw as (Hf & H1 & H2 & H3 & Ho & Hfit & Hk).
  unfold wire_bytes in *.
  set (L := len (w_payload w)) in *.
  set (b1 := byte_of_N (N.lor (N.shiftl (mask_bit (w_key w)) 7) _)) in *.
  set (b0 := byte_of_N (N.lor (N.lor _ _) (w_opcode w))) in *.
  set (body := match w_key w with
               | Some k => k ++ mask_ref k (w_payload w)
               | None => w_payload w
               end).
  set (kb := match w_key w with Some k => k | None => [] end).
  set (raw := match w_key w with Some k => mask_ref k (w_payload w) | None => w_payload w end).
  assert (Hbody : body = kb ++ raw) by (unfold body, kb, raw; now destruct (w_key w)).
  assert (Hraw : len raw = L).
  { unfold raw, L, len. destruct (w_key w); [now rewrite length_mask_ref|reflexivity]. }
  rewrite Hbody.
  cbn [app]. rewrite <- !app_assoc.
  apply (path_header (stream_source cap) fuel validate_utf8 bo skip
           (w_fin w) (w_rsv1 w) (w_rsv2 w) (w_rsv3 w) (w_opcode w) (mask_bit (w_key w))
           (fst (length_field (w_form w) L)) L kb raw
           (ABNF.data (received w))
           (snd (length_field (w_form w) L) ++ kb ++ raw ++ more)
           (kb ++ raw ++ more) (raw ++ more) more) with (hb := [b0; b1]).
  - now apply length_field_lt.
  - destruct (w_form w); cbn [fits length_field fst snd] in *.
    + left. repeat split; try assumption; reflexivity.
    + right; left. split; [reflexivity|].
      eexists. split; [apply read_stream; [assumption|reflexivity|reflexivity|cbn; lia]|].
      now apply be_digits_2.
    + right; right. split; [reflexivity|].
      eexists. split; [apply read_stream; [assumption|reflexivity|reflexivity|cbn; lia]|].
      now apply be_digits_8.
  - unfold kb. destruct (w_key w) as [k|]; cbn [mask_bit].
    + right. split; [discriminate|].
      apply read_stream; [assumption|reflexivity|now apply (length_len k 4)|cbn; lia].
    + left. repeat split.
  - apply read_stream; [assumption|assumption|assumption|]. unfold L. now rewrite len_nat.
  - unfold received, raw, kb. cbn [ABNF.__init__ ABNF.data].
    destruct (w_key w) as [k|]; cbn [mask_bit].
    + right. split; [discriminate|]. exists (w_payload w). split; [|reflexivity].
      rewrite mask_ok by assumption. now rewrite mask_ref_involutive.
    + left. split; reflexivity.
  - change (b0 :: b1 :: snd (length_field (w_form w) L) ++ kb ++ raw ++ more)
      with ([b0; b1] ++ snd (length_field (w_form w) L) ++ kb ++ raw ++ more).
    apply read_stream; [assumption|reflexivity|reflexivity|cbn; lia].
  - exact Hp.
Qed.


(** X8: [recv_frame] takes exactly one frame off the stream.  For every
    frame on the wire (any flag bits, any 4-bit opcode, masked or not, its
    length in any of the three forms) whose payload is shorter than [2^63]
    bytes, followed by any further bytes, and a
    byte source that hands the bytes out in pieces of any size from 1 up,
    [recv_frame] answers with the verdict of [validate] on the frame it
    built: the frame when it is accepted, the protocol error when it is not.
    Either way the decoder has consumed the bytes of this frame and no other,
    and has forgotten header, length and mask key, so that the next call
    starts at the next frame. *)
Theorem recv_frame_takes_one_frame (validate_utf8 : bytes -> bool)
    (native_byteorder : byteorder) (skip_utf8_validation : bool) (cap : N) (fuel : nat)
    (w : wire_frame) (more : bytes) :
  well_formed w ->
  len (w_payload w) < 2 ^ 63 ->
  1 <= cap ->
  (8 <= fuel)%nat ->
  (List.length (w_payload w) <= fuel)%nat ->
  let r := frame_buffer.recv_frame (stream_source cap) validate_utf8 native_byteorder fuel
             (frame_buffer.__init__ (wire_bytes w ++ more) skip_utf8_validation) in
  fst r = verdict validate_utf8 skip_utf8_validation (received w)
  /\ frame_buffer.source (snd r) = more
  /\ frame_buffer.header (snd r) = None
  /\ frame_buffer.length (snd r) = None
  /\ frame_buffer.mask_value (snd r) = None.
Proof.
  intros Hw Hfit Hcap Hfuel Hpay. cbv zeta.
  rewrite recv_frame_wire by assumption. repeat split.
Qed.

Lemma recv_frame_takes_one_frame_witness :
  let r := frame_buffer.recv_frame (stream_source 3) utf8_valid little 8
             (frame_buffer.__init__
                (wire_bytes (mkwire 1 0 0 0 ABNF.OPCODE_PING len7 (Some [x01; x02; x03; x04])
                                    (ascii_bytes "Hello"))
                 ++ [x81; x00])
                false) in
  fst r = Ok (ABNF.__init__ 1 0 0 0 ABNF.OPCODE_PING 1 (PyBytes (ascii_bytes "Hello")) None None)
  /\ frame_buffer.source (snd r) = [x81; x00].
Proof.
  destruct (recv_frame_takes_one_frame utf8_valid little false 3 8
              (mkwire 1 0 0 0 ABNF.OPCODE_PING len7 (Some [x01; x02; x03; x04])
                      (ascii_bytes "Hello"))
              [x81; x00])
    as (H1 & H2 & _).
  - unfold well_formed. cbn. repeat split; reflexivity.
  - reflexivity.
  - vm_compute. discriminate.
  - apply Nat.le_refl.
  - cbn. repeat constructor.
  - split; [exact H1|exact H2].
Defined.

(** X9: the decoder does not insist on the shortest length form.  A frame
    whose length is written in a longer form than needed (a 5-byte payload
    behind a 2-byte or an 8-byte extended length, say) is decoded to the same
    result, and leaves the decoder in the same state, as the frame with its
    length in any other form that can carry it. *)
Theorem recv_frame_any_length_form (validate_utf8 : bytes -> bool)
    (native_byteorder : byteorder) (skip_utf8_validation : bool) (cap : N) (fuel : nat)
    (w : wire_frame) (form : length_form) (more : bytes) :
  well_formed w ->
  fits form (len (w_payload w)) ->
  1 <= cap ->
  (8 <= fuel)%nat ->
  (List.length (w_payload w) <= fuel)%nat ->
  frame_buffer.recv_frame (stream_source cap) validate_utf8 native_byteorder fuel
    (frame_buffer.__init__ (wire_bytes (with_form w form) ++ more) skip_utf8_validation)
  = frame_buffer.recv_frame (stream_source cap) validate_utf8 native_byteorder fuel
      (frame_buffer.__init__ (wire_bytes w ++ more) skip_utf8_validation).
Proof.
  intros Hw Hfit Hcap Hfuel Hpay.
  assert (Hw' : well_formed (with_form w form)).
  { destruct Hw as (Hf & H1 & H2 & H3 & Ho & _ & Hk). repeat split; assumption. }
  destruct (N.lt_ge_cases (len (w_payload w)) (2 ^ 63)) as [Hlt|Hge].
  - rewrite !recv_frame_wire by assumption. reflexivity.
  - (* only the 8-byte form carries such a length: the two wires are the same *)
    destruct Hw as (_ & _ & _ & _ & _ & Hfw & _).
    assert (E : w_form w = form).
    { destruct (w_form w), form; cbn [fits] in Hfw, Hfit; try reflexivity; exfalso; lia. }
    destruct w as [f r1 r2 r3 o fm k p]. cbn [w_form] in E. subst fm. reflexivity.
Qed.

Lemma recv_frame_any_length_form_witness :
  frame_buffer.recv_frame (stream_source 3) utf8_valid little 8
    (frame_buffer.__init__
       ([x81; x7f; x00; x00; x00; x00; x00; x00; x00; x05] ++ ascii_bytes "Hello") false)
  = frame_buffer.recv_frame (stream_source 3) utf8_valid little 8
      (frame_buffer.__init__ ([x81; x05] ++ ascii_bytes "Hello") false).
Proof.
  exact (recv_frame_any_length_form utf8_valid little false 3 8
           (mkwire 1 0 0 0 ABNF.OPCODE_TEXT len7 None (ascii_bytes "Hello")) len64 []
           ltac:(unfold well_formed; cbn; repeat split; reflexivity)
           ltac:(reflexivity)
           ltac:(vm_compute; discriminate)
           (Nat.le_refl 8)
           ltac:(cbn; repeat constructor)).
Defined.

(** X10: frames that follow one another on the stream are decoded one call
    each.  For two frames on the wire with payloads shorter than [2^63]
    bytes, back to back, the first call of
    [recv_frame] gives the verdict on the first frame and the second call the
    verdict on the second, also when the first frame was rejected by
    [validate]: a rejected frame has been consumed whole. *)
Theorem recv_frame_twice (validate_utf8 : bytes -> bool) (native_byteorder : byteorder)
    (skip_utf8_validation : bool) (cap : N) (fuel : nat) (w1 w2 : wire_frame)
    (more : bytes) :
  well_formed w1 ->
  well_formed w2 ->
  len (w_payload w1) < 2 ^ 63 ->
  len (w_payload w2) < 2 ^ 63 ->
  1 <= cap ->
  (8 <= fuel)%nat ->
  (List.length (w_payload w1) <= fuel)%nat ->
  (List.length (w_payload w2) <= fuel)%nat ->
  let recv_frame :=
    frame_buffer.recv_frame (stream_source cap) validate_utf8 native_byteorder fuel in
  let first := recv_frame (frame_buffer.__init__ (wire_bytes w1 ++ wire_bytes w2 ++ more)
                             skip_utf8_validation) in
  let second := recv_frame (snd first) in
  fst first = verdict validate_utf8 skip_utf8_validation (received w1)
  /\ fst second = verdict validate_utf8 skip_utf8_validation (received w2)
  /\ snd second = frame_buffer.__init__ more skip_utf8_validation.
Proof.
  intros Hw1 Hw2 Hf1 Hf2 Hcap Hfuel Hp1 Hp2. cbv zeta.
  rewrite (recv_frame_wire _ _ _ _ _ w1) by assumption. cbn [fst snd].
  rewrite (recv_frame_wire _ _ _ _ _ w2) by assumption. repeat split.
Qed.

Lemma recv_frame_twice_witness :
  let recv_frame := frame_buffer.recv_frame (stream_source 2) utf8_valid big 8 in
  let first := recv_frame (frame_buffer.__init__
                             ([x89; x00] ++ [x81; x02; x68; x69] ++ [xff]) false) in
  let second := recv_frame (snd first) in
  fst first = Ok (data_frame ABNF.OPCODE_PING 1 [])
  /\ fst second = Ok (data_frame ABNF.OPCODE_TEXT 1 (ascii_bytes "hi"))
  /\ snd second = frame_buffer.__init__ [xff] false.
Proof.
  exact (recv_frame_twice utf8_valid big false 2 8
           (mkwire 1 0 0 0 ABNF.OPCODE_PING len7 None [])
           (mkwire 1 0 0 0 ABNF.OPCODE_TEXT len7 None (ascii_bytes "hi")) [xff]
           ltac:(unfold well_formed; cbn; repeat split; reflexivity)
           ltac:(unfold well_formed; cbn; repeat split; reflexivity)
           ltac:(reflexivity)
           ltac:(reflexivity)
           ltac:(vm_compute; discriminate)
           (Nat.le_refl 8)
           ltac:(cbn; repeat constructor)
           ltac:(cbn; repeat constructor)).
Defined.

(** ** Decoding what [format] produced *)

Lemma header_spec_shortest (fin r1 r2 r3 op m L : N) :
  header_spec fin r1 r2 r3 op m L
  = byte_of_N (N.lor (N.lor (N.lor (N.lor (N.shiftl fin 7) (N.shiftl r1 6)) (N.shiftl r2 5))
                            (N.shiftl r3 4)) op)
    :: byte_of_N (N.lor (N.shiftl m 7) (fst (length_field (shortest_form L) L)))
    :: snd (length_field (shortest_form L) L).
Proof.
  unfold header_spec, shortest_form.
  destruct (L <? 126); [reflexivity|]. destruct (L <? 2 ^ 16); reflexivity.
Qed.

Lemma fits_shortest_form (L : N) : L < 2 ^ 64 -> fits (shortest_form L) L.
Proof.
  intros H. unfold shortest_form.
  destruct (N.ltb_spec L 126); [assumption|].
  destruct (N.ltb_spec L (2 ^ 16)); assumption.
Qed.

Lemma pow_63_64 : 2 ^ 63 < 2 ^ 64.
Proof. vm_compute. reflexivity. Qed.

(** The bytes of a frame on the wire in the shortest form are the header of
    section 4.2 followed by the body. *)
Lemma wire_bytes_header_spec (fin r1 r2 r3 op : N) (key : option bytes) (payload : bytes) :
  wire_bytes (mkwire fin r1 r2 r3 op (shortest_form (len payload)) key payload)
  = header_spec fin r1 r2 r3 op (mask_bit key) (len payload)
    ++ match key with
       | Some k => k ++ mask_ref k payload
       | None => payload
       end.
Proof.
  rewrite header_spec_shortest. reflexivity.
Qed.

(** X11: what [format] frames, the decoder gives back.  For every frame
    [format] accepts that has no head margin and declares the length of its
    buffer, masked or not, data or control, with any reserved bits: the
    bytes [format] returns, followed by anything, make [recv_frame] build a
    frame with the same fin, reserved bits, opcode, mask flag and payload
    (in a [bytes] object when it was masked, in a [bytearray] when not) and
    answer with the verdict of [validate] on that frame, leaving what
    followed on the stream. *)
Theorem decode_what_format_framed (validate_utf8 : bytes -> bool)
    (native_byteorder : byteorder) (skip_utf8_validation : bool) (cap : N) (fuel : nat)
    (mask_key : bytes) (f : ABNF.t) (more : bytes) :
  encodable f ->
  ABNF.data_start_offset_bytes f = 0 ->
  ABNF.data_msg_length_bytes f = len (contents (ABNF.data f)) ->
  (ABNF.mask_value f <> 0 -> List.length mask_key = 4%nat) ->
  1 <= cap ->
  (8 <= fuel)%nat ->
  (List.length (contents (ABNF.data f)) <= fuel)%nat ->
  exists (v : ABNF.memoryview) (f' : ABNF.t),
    ABNF.format native_byteorder mask_key f = (Ok v, f')
    /\ frame_buffer.recv_frame (stream_source cap) validate_utf8 native_byteorder fuel
         (frame_buffer.__init__ (ABNF.tobytes v ++ more) skip_utf8_validation)
       = (verdict validate_utf8 skip_utf8_validation
            (ABNF.__init__ (ABNF.fin f) (ABNF.rsv1 f) (ABNF.rsv2 f) (ABNF.rsv3 f)
               (ABNF.opcode f) (ABNF.mask_value f)
               (if ABNF.mask_value f =? 0 then PyByteArray (contents (ABNF.data f))
                else PyBytes (contents (ABNF.data f)))
               None None),
          frame_buffer.__init__ more skip_utf8_validation).
Proof.
  intros He Ho HL Hk Hcap Hfuel Hpay.
  pose proof He as (Hf & H1 & H2 & H3 & Hop & Hm & Hlt).
  set (payload := contents (ABNF.data f)) in *.
  assert (Hfit : fits (shortest_form (len payload)) (len payload)).
  { apply fits_shortest_form. rewrite <- HL. eapply N.lt_trans; [exact Hlt|apply pow_63_64]. }
  destruct (N.eqb_spec (ABNF.mask_value f) 0) as [E|E].
  - rewrite (format_unmasked_copy native_byteorder mask_key f He E) by (rewrite Ho; lia).
    eexists _, _. split; [reflexivity|]. rewrite tobytes_whole.
    unfold header_of. rewrite HL, E. fold payload.
    change 0 with (mask_bit None) at 1.
    rewrite <- (wire_bytes_header_spec _ _ _ _ _ None payload).
    rewrite recv_frame_wire; try assumption.
    + reflexivity.
    + repeat split; try assumption. now apply In_OPCODES_lt.
    + cbn [w_payload]. now rewrite <- HL.
  - specialize (Hk E).
    rewrite (format_masked native_byteorder mask_key f _ He E (mask_ok _ mask_key _ Hk)).
    eexists _, _. split; [reflexivity|]. rewrite tobytes_whole.
    assert (E1 : ABNF.mask_value f = 1) by lia.
    unfold header_of. rewrite HL, E1. fold payload.
    change 1 with (mask_bit (Some mask_key)) at 1.
    rewrite <- (wire_bytes_header_spec _ _ _ _ _ (Some mask_key) payload).
    rewrite recv_frame_wire; try assumption.
    + reflexivity.
    + repeat split; try assumption. now apply In_OPCODES_lt.
    + cbn [w_payload]. now rewrite <- HL.
Qed.

Lemma decode_what_format_framed_witness :
  exists (v : ABNF.memoryview) (f' : ABNF.t),
    ABNF.format little []
      (ABNF.create_frame (PyBytes (ascii_bytes "Hello")) ABNF.OPCODE_PONG 0 false None None)
    = (Ok v, f')
    /\ frame_buffer.recv_frame (stream_source 3) utf8_valid little 8
         (frame_buffer.__init__ (ABNF.tobytes v ++ [x88; x00]) false)
       = (Ok (data_frame ABNF.OPCODE_PONG 0 (ascii_bytes "Hello")),
          frame_buffer.__init__ [x88; x00] false).
Proof.
  destruct (decode_what_format_framed utf8_valid little false 3 8 []
              (ABNF.create_frame (PyBytes (ascii_bytes "Hello")) ABNF.OPCODE_PONG 0 false
                                 None None)
              [x88; x00])
    as (v & f' & Hf & Hd).
  - unfold encodable. cbn. repeat split; try reflexivity. do 5 right. left. reflexivity.
  - reflexivity.
  - reflexivity.
  - intros H. now destruct H.
  - vm_compute. discriminate.
  - apply Nat.le_refl.
  - cbn. repeat constructor.
  - exists v, f'. split; [exact Hf|]. rewrite Hd. reflexivity.
Defined.

Lemma firstn_mask_ref_from (i n : nat) (key data : bytes) :
  firstn n (mask_ref_from i key data) = mask_ref_from i key (firstn n data).
Proof.
  revert i data. induction n as [|n IH]; intros i [|b d]; cbn [firstn mask_ref_from];
    try reflexivity.
  now rewrite IH.
Qed.

(** X12: with masking on, [format] frames the whole buffer under the declared
    length.  For a frame to be masked, whatever its head margin, the bytes
    [format] returns are the header, which carries the declared message
    length, the key, and the mask of the whole buffer, margin included.  So
    the decoder, fed these bytes, builds a frame whose payload is the first
    declared-length bytes of the buffer (which start with the margin), and
    the remaining masked bytes stay on the stream in front of whatever
    follows. *)
Theorem format_masked_frames_whole_buffer (validate_utf8 : bytes -> bool)
    (native_byteorder : byteorder) (skip_utf8_validation : bool) (cap : N) (fuel : nat)
    (mask_key : bytes) (f : ABNF.t) (more : bytes) :
  encodable f ->
  ABNF.mask_value f <> 0 ->
  List.length mask_key = 4%nat ->
  ABNF.data_msg_length_bytes f <= len (contents (ABNF.data f)) ->
  1 <= cap ->
  (8 <= fuel)%nat ->
  (N.to_nat (ABNF.data_msg_length_bytes f) <= fuel)%nat ->
  let buffer := contents (ABNF.data f) in
  let L := ABNF.data_msg_length_bytes f in
  exists (v : ABNF.memoryview) (f' : ABNF.t),
    ABNF.format native_byteorder mask_key f = (Ok v, f')
    /\ ABNF.tobytes v = header_of f ++ mask_key ++ mask_ref mask_key buffer
    /\ frame_buffer.recv_frame (stream_source cap) validate_utf8 native_byteorder fuel
         (frame_buffer.__init__ (ABNF.tobytes v ++ more) skip_utf8_validation)
       = (verdict validate_utf8 skip_utf8_validation
            (ABNF.__init__ (ABNF.fin f) (ABNF.rsv1 f) (ABNF.rsv2 f) (ABNF.rsv3 f)
               (ABNF.opcode f) (ABNF.mask_value f) (PyBytes (slice_to buffer L)) None None),
          frame_buffer.__init__ (slice_from (mask_ref mask_key buffer) L ++ more)
            skip_utf8_validation).
Proof.
  intros He Hm Hk HL Hcap Hfuel Hpay buffer L.
  pose proof He as (Hf & H1 & H2 & H3 & Hop & Hmv & Hlt).
  rewrite (format_masked native_byteorder mask_key f _ He Hm (mask_ok _ mask_key _ Hk)).
  eexists _, _. split; [reflexivity|]. rewrite tobytes_whole. fold buffer.
  split; [reflexivity|].
  assert (E1 : ABNF.mask_value f = 1) by lia.
  assert (HlenL : len (slice_to buffer L) = L) by (apply len_slice_to_le; exact HL).
  assert (Hsplit : mask_ref mask_key buffer
                   = mask_ref mask_key (slice_to buffer L)
                     ++ slice_from (mask_ref mask_key buffer) L).
  { unfold mask_ref, slice_to, slice_from. rewrite <- firstn_mask_ref_from.
    symmetry. apply firstn_skipn. }
  rewrite Hsplit at 1. unfold header_of. fold L. rewrite E1.
  rewrite <- HlenL at 1.
  change 1 with (mask_bit (Some mask_key)) at 1.
  rewrite <- !app_assoc.
  replace (header_spec (ABNF.fin f) (ABNF.rsv1 f) (ABNF.rsv2 f) (ABNF.rsv3 f) (ABNF.opcode f)
             (mask_bit (Some mask_key)) (len (slice_to buffer L))
           ++ mask_key ++ mask_ref mask_key (slice_to buffer L)
           ++ slice_from (mask_ref mask_key buffer) L ++ more)
    with (wire_bytes (mkwire (ABNF.fin f) (ABNF.rsv1 f) (ABNF.rsv2 f) (ABNF.rsv3 f)
                             (ABNF.opcode f) (shortest_form (len (slice_to buffer L)))
                             (Some mask_key) (slice_to buffer L))
          ++ slice_from (mask_ref mask_key buffer) L ++ more)
    by (rewrite wire_bytes_header_spec, <- !app_assoc; reflexivity).
  rewrite recv_frame_wire; try assumption.
  - reflexivity.
  - repeat split; try assumption; cbn [w_opcode w_form w_payload w_key].
    + now apply In_OPCODES_lt.
    + apply fits_shortest_form. rewrite HlenL.
      eapply N.lt_trans; [exact Hlt|apply pow_63_64].
  - cbn [w_payload]. rewrite HlenL. exact Hlt.
  - cbn [w_payload]. rewrite <- len_nat, HlenL. exact Hpay.
Qed.

Lemma format_masked_frames_whole_buffer_witness :
  exists (v : ABNF.memoryview) (f' : ABNF.t),
    ABNF.format little [x00; x00; x00; x00]
      (ABNF.create_frame (PyByteArray ([x00; x00; x00] ++ ascii_bytes "Hello"))
                         ABNF.OPCODE_BINARY 1 true (Some 3) (Some 5))
    = (Ok v, f')
    /\ ABNF.tobytes v
       = [x82; x85; x00; x00; x00; x00; x00; x00; x00] ++ ascii_bytes "Hello"
    /\ frame_buffer.recv_frame (stream_source 3) utf8_valid little 8
         (frame_buffer.__init__ (ABNF.tobytes v ++ []) false)
       = (Ok (ABNF.__init__ 1 0 0 0 ABNF.OPCODE_BINARY 1
                (PyBytes ([x00; x00; x00] ++ ascii_bytes "He")) None None),
          frame_buffer.__init__ (ascii_bytes "llo") false).
Proof.
  destruct (format_masked_frames_whole_buffer utf8_valid little false 3 8
              [x00; x00; x00; x00]
              (ABNF.create_frame (PyByteArray ([x00; x00; x00] ++ ascii_bytes "Hello"))
                                 ABNF.OPCODE_BINARY 1 true (Some 3) (Some 5))
              [])
    as (v & f' & Hf & Hv & Hd).
  - unfold encodable. cbn. repeat split; try reflexivity. do 2 right. left. reflexivity.
  - discriminate.
  - reflexivity.
  - vm_compute. discriminate.
  - vm_compute. discriminate.
  - apply Nat.le_refl.
  - cbn. repeat constructor.
  - exists v, f'. split; [exact Hf|]. split; [rewrite Hv; reflexivity|].
    rewrite Hd. reflexivity.
Defined.


(** ** A read that raises between two parts of a frame *)

Section InterruptedReads.

Variable cap : N.
Variable e : exn.
Variable fuel : nat.
Hypothesis cap_pos : 1 <= cap.

(** The call that would hand out the byte at offset [x] is not among the
    calls that read [n] bytes from offset [pos] on. *)
Local Abbreviation not_hit a pos n :=
  (match a with
   | Some x => x < pos \/ pos + n <= x
   | None => True
   end).

Lemma recv_strict_loop_interrupted (n : nat) :
  forall (sh posb : N) (buf : bytes) (st : frame_buffer.t (option N * N * bytes))
         (a : option N) (pos : N) (pending : bytes),
    frame_buffer.source st = (a, pos, pending) ->
    len buf = posb + sh ->
    sh <= len pending ->
    (N.to_nat sh <= n)%nat ->
    not_hit a pos sh ->
    frame_buffer.recv_strict_loop (interrupted_source cap e) n sh posb buf st
    = (Ok (slice_to buf posb ++ slice_to pending sh),
       with_source st (a, pos + sh, slice_from pending sh)).
Proof.
  assert (Hdone : forall (posb : N) (buf : bytes) (st : frame_buffer.t (option N * N * bytes))
                         (a : option N) (pos : N) (pending : bytes),
             frame_buffer.source st = (a, pos, pending) ->
             len buf = posb + 0 ->
             (Ok buf, st)
             = (Ok (slice_to buf posb ++ slice_to pending 0),
                with_source st (a, pos + 0, slice_from pending 0))).
  { intros posb buf st a pos pending Hsrc Hlen.
    cbn [slice_to slice_from N.to_nat firstn skipn]. rewrite app_nil_r, N.add_0_r.
    rewrite (slice_to_all buf posb) by lia.
    f_equal. transitivity (with_source st (frame_buffer.source st));
      [symmetry; apply with_source_same | now rewrite Hsrc]. }
  induction n as [|n IH]; intros sh posb buf st a pos pending Hsrc Hlen Hsh Hfuel Hhit.
  - assert (sh = 0) as -> by lia. rewrite recv_strict_loop_done. now apply Hdone.
  - destruct (N.eq_dec sh 0) as [->|Hne].
    + rewrite recv_strict_loop_done. now apply Hdone.
    + rewrite recv_strict_loop_step by assumption.
      rewrite Hsrc. unfold interrupted_source.
      replace (match a with Some a0 => a0 =? pos | None => false end) with false
        by (destruct a as [x|]; [symmetry; apply N.eqb_neq; lia|reflexivity]).
      cbv zeta.
      set (k := N.min 131072 sh). set (m := N.min cap k).
      assert (Hm1 : 1 <= m) by (unfold m, k; lia).
      assert (Hmk : m <= k) by (unfold m; lia).
      assert (Hks : k <= sh) by (unfold k; lia).
      assert (Hcm : len (slice_to pending m) = m) by (apply len_slice_to_le; lia).
      rewrite (slice_to_all (slice_to pending m) k) by lia.
      rewrite Hcm.
      rewrite (IH _ _ _ _ a (pos + m) (slice_from pending m)).
      * cbn [with_source frame_buffer.source frame_buffer.skip_utf8_validation
             frame_buffer.header frame_buffer.length frame_buffer.mask_value].
        rewrite slice_from_slice_from by lia.
        rewrite app_assoc.
        rewrite slice_to_app_exact
          by (rewrite len_app, Hcm, len_slice_to_le by lia; reflexivity).
        rewrite <- app_assoc, slice_to_slice_from by lia.
        replace (pos + m + (sh - m)) with (pos + sh) by lia.
        reflexivity.
      * reflexivity.
      * rewrite !len_app, Hcm, len_slice_from, len_slice_to_le by lia. lia.
      * rewrite len_slice_from. lia.
      * lia.
      * destruct a as [x|]; [lia|exact I].
Qed.

(** A read the interruption does not fall into returns the next bytes. *)
Lemma read_interrupted_ok (a : option N) (pos : N) (b rest : bytes) (n : N) :
  len b = n ->
  (N.to_nat n <= fuel)%nat ->
  not_hit a pos n ->
  n < 2 ^ 63 ->
  read (interrupted_source cap e) fuel (a, pos, b ++ rest) n = (Ok b, (a, pos + n, rest)).
Proof.
  intros Hb Hf Hhit Hfit. rewrite read_fits by assumption.
  rewrite (recv_strict_loop_interrupted fuel n 0 _ _ a pos (b ++ rest));
    try assumption; try reflexivity.
  - cbn [fst snd with_source frame_buffer.source slice_to N.to_nat firstn app].
    rewrite slice_to_app_exact by assumption.
    unfold slice_from. rewrite skipn_app_exact; [reflexivity|].
    rewrite <- Hb. now rewrite len_nat.
  - unfold len. rewrite repeat_length. lia.
  - rewrite len_app. lia.
Qed.

(** A read that starts where the interruption is armed raises, and the
    interruption is spent. *)
Lemma read_interrupted_raises (pos : N) (pending : bytes) (n : N) :
  n <> 0 ->
  (1 <= fuel)%nat ->
  n < 2 ^ 63 ->
  read (interrupted_source cap e) fuel (Some pos, pos, pending) n
  = (Raise e, (None, pos, pending)).
Proof.
  intros Hn Hf Hfit. rewrite read_fits by assumption.
  destruct fuel as [|fuel']; [lia|].
  rewrite recv_strict_loop_step by assumption.
  cbn [frame_buffer.__init__ frame_buffer.source]. unfold interrupted_source.
  rewrite N.eqb_refl. reflexivity.
Qed.

End InterruptedReads.

(** The parts of one frame, and what [recv_frame] does with them on a source
    that raises once. *)
Section InterruptedFrame.

Variable validate_utf8 : bytes -> bool.
Variable bo : byteorder.
Variable skip : bool.
Variable cap : N.
Variable e : exn.
Variable fuel : nat.
Variables b0 b1 : byte.
Variables ext kb raw more : bytes.
Variables fin r1 r2 r3 op hm lb L : N.
Variable data : pybuf.

Hypothesis cap_pos : 1 <= cap.
Hypothesis fuel_header : (8 <= fuel)%nat.
Hypothesis fuel_payload : (N.to_nat L <= fuel)%nat.
Hypothesis Hparse : parse_header [b0; b1] = (fin, r1, r2, r3, op, hm, lb).
Hypothesis Hlb : lb < 128.
Hypothesis Hext :
  (lb < 126 /\ ext = [] /\ L = lb)
  \/ (lb = 126 /\ len ext = 2 /\ from_le (rev ext) = L)
  \/ (lb = 127 /\ len ext = 8 /\ from_le (rev ext) = L).
Hypothesis Hkb : (hm = 0 /\ kb = []) \/ (hm <> 0 /\ len kb = 4).
Hypothesis Hraw : len raw = L.
Hypothesis Hdata :
  (hm = 0 /\ data = PyByteArray raw)
  \/ (hm <> 0 /\ exists p, ABNF.mask bo kb raw = Ok p /\ data = PyBytes p).
Hypothesis HL63 : L < 2 ^ 63.

Local Abbreviation src := (interrupted_source cap e).
Local Abbreviation recv := (frame_buffer.recv_frame src validate_utf8 bo fuel).
Local Abbreviation hd := (fin, r1, r2, r3, op, hm, lb).
Local Abbreviation final t :=
  (verdict validate_utf8 skip (ABNF.__init__ fin r1 r2 r3 op hm data None None),
   frame_buffer.__init__ (@None N, t, more) skip).
Local Abbreviation resumes st t :=
  (exists st1, recv st = (Raise e, st1) /\ recv st1 = final t).

Lemma len_ext_cases : (ext = [] /\ lb < 126) \/ (len ext = 2 /\ lb = 126)
                      \/ (len ext = 8 /\ lb = 127).
Proof. destruct Hext as [(A & B & C)|[(A & B & C)|(A & B & C)]]; auto. Qed.

(** With no interruption armed. *)
Lemma whole_payload (pos : N) :
  recv (frame_buffer.mk (None, pos, raw ++ more) skip (Some hd) (Some L) (Some kb))
  = final (pos + L).
Proof.
  apply (path_payload src fuel validate_utf8 bo skip fin r1 r2 r3 op hm lb L kb raw data).
  - apply (read_interrupted_ok cap e fuel cap_pos None pos raw more L Hraw fuel_payload I HL63).
  - exact Hdata.
Qed.

Lemma whole_mask (pos : N) :
  recv (frame_buffer.mk (None, pos, kb ++ raw ++ more) skip (Some hd) (Some L) None)
  = final (pos + len kb + L).
Proof.
  apply (path_mask src fuel validate_utf8 bo skip fin r1 r2 r3 op hm lb L kb raw data
           (None, pos, kb ++ raw ++ more) (None, pos + len kb, raw ++ more)).
  - destruct Hkb as [(Hm & Hk)|(Hm & Hk)].
    + left. repeat split; try assumption. rewrite Hk. cbn [app]. unfold len. cbn.
      now rewrite N.add_0_r.
    + right. split; [assumption|]. rewrite Hk.
      apply (read_interrupted_ok cap e fuel cap_pos None pos kb (raw ++ more) 4 Hk);
        [cbn; lia|exact I|reflexivity].
  - apply (read_interrupted_ok cap e fuel cap_pos None (pos + len kb) raw more L Hraw
             fuel_payload I HL63).
  - exact Hdata.
Qed.

Lemma whole_length (pos : N) :
  recv (frame_buffer.mk (None, pos, ext ++ kb ++ raw ++ more) skip (Some hd) None None)
  = final (pos + len ext + len kb + L).
Proof.
  apply (path_length src fuel validate_utf8 bo skip fin r1 r2 r3 op hm lb L kb raw data
           (None, pos, ext ++ kb ++ raw ++ more)
           (None, pos + len ext, kb ++ raw ++ more)
           (None, pos + len ext + len kb, raw ++ more)).
  - exact Hlb.
  - destruct Hext as [(A & B & C)|[(A & B & C)|(A & B & C)]].
    + left. repeat split; try assumption. rewrite B. cbn [app]. unfold len. cbn.
      now rewrite N.add_0_r.
    + right; left. split; [assumption|]. exists ext. split; [|assumption]. rewrite B.
      apply (read_interrupted_ok cap e fuel cap_pos None pos ext _ 2 B); [cbn; lia|exact I|reflexivity].
    + right; right. split; [assumption|]. exists ext. split; [|assumption]. rewrite B.
      apply (read_interrupted_ok cap e fuel cap_pos None pos ext _ 8 B); [cbn; lia|exact I|reflexivity].
  - destruct Hkb as [(Hm & Hk)|(Hm & Hk)].
    + left. repeat split; try assumption. rewrite Hk. cbn [app]. unfold len at 2. cbn.
      now rewrite N.add_0_r.
    + right. split; [assumption|]. rewrite Hk.
      apply (read_interrupted_ok cap e fuel cap_pos None (pos + len ext) kb (raw ++ more) 4
               Hk); [cbn; lia|exact I|reflexivity].
  - apply (read_interrupted_ok cap e fuel cap_pos None (pos + len ext + len kb) raw more L
             Hraw fuel_payload I HL63).
  - exact Hdata.
Qed.

Lemma whole_header :
  recv (frame_buffer.__init__ (None, 0, b0 :: b1 :: ext ++ kb ++ raw ++ more) skip)
  = final (2 + len ext + len kb + L).
Proof.
  rewrite (recv_frame_header src fuel validate_utf8 bo
             (frame_buffer.__init__ (None, 0, b0 :: b1 :: ext ++ kb ++ raw ++ more) skip)
             eq_refl).
  cbn [frame_buffer.__init__ frame_buffer.source frame_buffer.skip_utf8_validation
       frame_buffer.length frame_buffer.mask_value].
  change (b0 :: b1 :: ext ++ kb ++ raw ++ more) with ([b0; b1] ++ ext ++ kb ++ raw ++ more).
  rewrite (read_interrupted_ok cap e fuel cap_pos None 0 [b0; b1]
             (ext ++ kb ++ raw ++ more) 2 eq_refl) by (try reflexivity; cbn; try lia; exact I).
  unfold after_read. cbn [fst snd with_source frame_buffer.source].
  rewrite Hparse. apply (whole_length (0 + 2)).
Qed.

(** With the interruption armed at the start of a part. *)
Lemma resumes_payload (pos : N) :
  L <> 0 ->
  resumes (frame_buffer.mk (Some pos, pos, raw ++ more) skip (Some hd) (Some L) (Some kb))
          (pos + L).
Proof.
  intros HL.
  exists (frame_buffer.mk (None, pos, raw ++ more) skip (Some hd) (Some L) (Some kb)).
  split; [|apply whole_payload].
  rewrite (recv_frame_payload src fuel validate_utf8 bo
             (frame_buffer.mk (Some pos, pos, raw ++ more) skip (Some hd) (Some L) (Some kb))
             fin r1 r2 r3 op hm lb L kb eq_refl eq_refl eq_refl).
  cbv zeta. cbn [frame_buffer.source frame_buffer.skip_utf8_validation].
  rewrite read_interrupted_raises by (try assumption; try reflexivity; lia).
  reflexivity.
Qed.

Lemma resumes_mask (pos x : N) :
  x = pos \/ x = pos + len kb ->
  x < pos + len kb + L ->
  resumes (frame_buffer.mk (Some x, pos, kb ++ raw ++ more) skip (Some hd) (Some L) None)
          (pos + len kb + L).
Proof.
  intros Hx Hlt.
  rewrite (recv_frame_mask src fuel validate_utf8 bo
             (frame_buffer.mk (Some x, pos, kb ++ raw ++ more) skip (Some hd) (Some L) None)
             hd L eq_refl eq_refl eq_refl).
  cbv zeta. cbn [frame_buffer.source frame_buffer.skip_utf8_validation frame_buffer.has_mask
                 frame_buffer.header].
  destruct Hkb as [(Hm & Hk)|(Hm & Hk)].
  - replace (negb (hm =? 0)) with false by (now rewrite Hm).
    assert (Hk0 : len kb = 0) by (now rewrite Hk).
    replace (kb ++ raw ++ more) with (raw ++ more) by (now rewrite Hk).
    replace (@Some bytes []) with (Some kb) by (now rewrite Hk).
    replace x with pos by lia.
    replace (pos + len kb + L) with (pos + L) by lia.
    apply resumes_payload. lia.
  - replace (negb (hm =? 0)) with true by (symmetry; apply negb_true_iff; now apply N.eqb_neq).
    destruct (N.eq_dec x pos) as [->|Hne].
    + rewrite read_interrupted_raises by (try assumption; try reflexivity; lia).
      unfold after_read. cbn [fst snd with_source frame_buffer.source
                              frame_buffer.skip_utf8_validation frame_buffer.header
                              frame_buffer.length frame_buffer.mask_value].
      eexists. split; [reflexivity|]. apply whole_mask.
    + assert (Ex : x = pos + 4) by lia.
      rewrite (read_interrupted_ok cap e fuel cap_pos (Some x) pos kb (raw ++ more) 4 Hk)
        by (try reflexivity; try lia; right; lia).
      unfold after_read. cbn [fst snd with_source frame_buffer.source
                              frame_buffer.skip_utf8_validation frame_buffer.header
                              frame_buffer.length frame_buffer.mask_value].
      rewrite Ex, Hk. apply resumes_payload. lia.
Qed.

Lemma resumes_length (pos x : N) :
  x = pos \/ x = pos + len ext \/ x = pos + len ext + len kb ->
  x < pos + len ext + len kb + L ->
  resumes (frame_buffer.mk (Some x, pos, ext ++ kb ++ raw ++ more) skip (Some hd) None None)
          (pos + len ext + len kb + L).
Proof.
  intros Hx Hlt.
  rewrite (recv_frame_length src fuel validate_utf8 bo
             (frame_buffer.mk (Some x, pos, ext ++ kb ++ raw ++ more) skip (Some hd) None None)
             hd eq_refl eq_refl).
  cbv zeta. cbn [snd frame_buffer.source frame_buffer.skip_utf8_validation
                 frame_buffer.mask_value].
  rewrite (land_7F_small lb Hlb).
  destruct Hext as [(A & B & C)|[(A & B & C)|(A & B & C)]].
  - replace (lb =? 126) with false by (symmetry; apply N.eqb_neq; lia).
    replace (lb =? 127) with false by (symmetry; apply N.eqb_neq; lia).
    assert (He0 : len ext = 0) by (now rewrite B).
    replace (ext ++ kb ++ raw ++ more) with (kb ++ raw ++ more) by (now rewrite B).
    replace (Some lb) with (Some L) by (now rewrite C).
    replace (pos + len ext + len kb + L) with (pos + len kb + L) by lia.
    apply resumes_mask; lia.
  - replace (lb =? 126) with true by (now rewrite A). cbv iota.
    destruct (N.eq_dec x pos) as [->|Hne].
    + rewrite read_interrupted_raises by (try assumption; try reflexivity; lia).
      unfold after_read. cbn [fst snd with_source frame_buffer.source
                              frame_buffer.skip_utf8_validation frame_buffer.header
                              frame_buffer.length frame_buffer.mask_value].
      eexists. split; [reflexivity|]. apply whole_length.
    + rewrite (read_interrupted_ok cap e fuel cap_pos (Some x) pos ext (kb ++ raw ++ more) 2 B)
        by (try reflexivity; try lia; right; lia).
      unfold after_read. cbn [fst snd with_source frame_buffer.source
                              frame_buffer.skip_utf8_validation frame_buffer.header
                              frame_buffer.length frame_buffer.mask_value].
      rewrite (struct_unpack_ok 2 ext B), C, B. apply resumes_mask; lia.
  - replace (lb =? 126) with false by (now rewrite A).
    replace (lb =? 127) with true by (now rewrite A). cbv iota.
    destruct (N.eq_dec x pos) as [->|Hne].
    + rewrite read_interrupted_raises by (try assumption; try reflexivity; lia).
      unfold after_read. cbn [fst snd with_source frame_buffer.source
                              frame_buffer.skip_utf8_validation frame_buffer.header
                              frame_buffer.length frame_buffer.mask_value].
      eexists. split; [reflexivity|]. apply whole_length.
    + rewrite (read_interrupted_ok cap e fuel cap_pos (Some x) pos ext (kb ++ raw ++ more) 8 B)
        by (try reflexivity; try lia; right; lia).
      unfold after_read. cbn [fst snd with_source frame_buffer.source
                              frame_buffer.skip_utf8_validation frame_buffer.header
                              frame_buffer.length frame_buffer.mask_value].
      rewrite (struct_unpack_ok 8 ext B), C, B. apply resumes_mask; lia.
Qed.

Lemma resumes_header (x : N) :
  x = 0 \/ x = 2 \/ x = 2 + len ext \/ x = 2 + len ext + len kb ->
  x < 2 + len ext + len kb + L ->
  resumes (frame_buffer.__init__ (Some x, 0, b0 :: b1 :: ext ++ kb ++ raw ++ more) skip)
          (2 + len ext + len kb + L).
Proof.
  intros Hx Hlt.
  rewrite (recv_frame_header src fuel validate_utf8 bo
             (frame_buffer.__init__ (Some x, 0, b0 :: b1 :: ext ++ kb ++ raw ++ more) skip)
             eq_refl).
  cbn [frame_buffer.__init__ frame_buffer.source frame_buffer.skip_utf8_validation
       frame_buffer.length frame_buffer.mask_value].
  destruct (N.eq_dec x 0) as [->|Hne].
  - rewrite read_interrupted_raises by (try assumption; try reflexivity; lia).
    unfold after_read. cbn [fst snd with_source frame_buffer.source
                            frame_buffer.skip_utf8_validation frame_buffer.header
                            frame_buffer.length frame_buffer.mask_value].
    eexists. split; [reflexivity|]. apply whole_header.
  - change (b0 :: b1 :: ext ++ kb ++ raw ++ more)
      with ([b0; b1] ++ ext ++ kb ++ raw ++ more).
    rewrite (read_interrupted_ok cap e fuel cap_pos (Some x) 0 [b0; b1]
               (ext ++ kb ++ raw ++ more) 2 eq_refl) by (try reflexivity; cbn; try lia; right; lia).
    unfold after_read. cbn [fst snd with_source frame_buffer.source].
    rewrite Hparse. apply (resumes_length (0 + 2)); lia.
Qed.

End InterruptedFrame.

(** X13: a frame survives an exception of the byte source between two of its
    parts.  The decoder keeps the header, the length and the mask key it has
    already read; so when the byte source raises (a timeout, say) on the
    first read of a part of the frame (the header, the extended length, the
    mask key or the payload) whose payload is shorter than [2^63] bytes,
    [recv_frame] raises that exception, and the
    next call of [recv_frame] does not start over: it goes on with the part
    that was interrupted and answers as an uninterrupted call would have,
    with the bytes of the frame consumed and nothing of what follows. *)
Theorem recv_frame_resumes_after_exception (validate_utf8 : bytes -> bool)
    (native_byteorder : byteorder) (skip_utf8_validation : bool) (cap : N) (e : exn)
    (fuel : nat) (w : wire_frame) (more : bytes) (at_ : N) :
  well_formed w ->
  len (w_payload w) < 2 ^ 63 ->
  1 <= cap ->
  (8 <= fuel)%nat ->
  (List.length (w_payload w) <= fuel)%nat ->
  In at_ (part_starts w) ->
  at_ < len (wire_bytes w) ->
  let recv_frame :=
    frame_buffer.recv_frame (interrupted_source cap e) validate_utf8 native_byteorder fuel in
  let first := recv_frame (frame_buffer.__init__ (Some at_, 0, wire_bytes w ++ more)
                             skip_utf8_validation) in
  let second := recv_frame (snd first) in
  fst first = Raise e
  /\ fst second = verdict validate_utf8 skip_utf8_validation (received w)
  /\ snd second
     = frame_buffer.__init__ (None, len (wire_bytes w), more) skip_utf8_validation.
Proof.
  intros Hw Hfit63 Hcap Hfuel Hpay Hat Hlt.
  pose proof (parse_header_wire w Hw) as Hp.
  destruct Hw as (Hf & H1 & H2 & H3 & Ho & Hfit & Hk).
  unfold part_starts in Hat. unfold wire_bytes in *.
  set (L := len (w_payload w)) in *.
  set (b1 := byte_of_N (N.lor (N.shiftl (mask_bit (w_key w)) 7) _)) in *.
  set (b0 := byte_of_N (N.lor (N.lor _ _) (w_opcode w))) in *.
  set (ext := snd (length_field (w_form w) L)) in *.
  set (kb := key_bytes (w_key w)) in *.
  set (raw := match w_key w with Some k => mask_ref k (w_payload w) | None => w_payload w end).
  assert (Hbody : match w_key w with
                  | Some k => k ++ mask_ref k (w_payload w)
                  | None => w_payload w
                  end = kb ++ raw)
    by (unfold kb, raw, key_bytes; now destruct (w_key w)).
  rewrite Hbody in *.
  assert (Hraw : len raw = L).
  { unfold raw, L, len. destruct (w_key w); [now rewrite length_mask_ref|reflexivity]. }
  assert (Hlen : len (b0 :: b1 :: ext ++ kb ++ raw) = 2 + len ext + len kb + L).
  { change (b0 :: b1 :: ext ++ kb ++ raw) with ([b0; b1] ++ ext ++ kb ++ raw).
    rewrite !len_app, Hraw. change (len [b0; b1]) with 2. lia. }
  rewrite Hlen in *.
  destruct (resumes_header validate_utf8 native_byteorder skip_utf8_validation cap e fuel
              b0 b1 ext kb raw more
              (w_fin w) (w_rsv1 w) (w_rsv2 w) (w_rsv3 w) (w_opcode w) (mask_bit (w_key w))
              (fst (length_field (w_form w) L)) L (ABNF.data (received w))
              Hcap Hfuel) with (x := at_) as (st1 & Hfirst & Hsecond).
  - unfold L. now rewrite len_nat.
  - exact Hp.
  - now apply length_field_lt.
  - unfold ext. destruct (w_form w); cbn [fits length_field fst snd] in *.
    + left. repeat split; assumption.
    + right; left. repeat split. now apply be_digits_2.
    + right; right. repeat split. now apply be_digits_8.
  - unfold kb, key_bytes. destruct (w_key w) as [k|]; cbn [mask_bit].
    + right. split; [discriminate|]. now apply (length_len k 4).
    + left. split; reflexivity.
  - exact Hraw.
  - unfold received, raw, kb, key_bytes. cbn [ABNF.__init__ ABNF.data].
    destruct (w_key w) as [k|]; cbn [mask_bit].
    + right. split; [discriminate|]. exists (w_payload w). split; [|reflexivity].
      rewrite mask_ok by assumption. now rewrite mask_ref_involutive.
    + left. split; reflexivity.
  - exact Hfit63.
  - cbn [In] in Hat. intuition.
  - exact Hlt.
  - cbv zeta. cbn [app]. rewrite <- !app_assoc.
    rewrite Hfirst. cbn [fst snd]. rewrite Hsecond. repeat split.
Qed.

Lemma recv_frame_resumes_after_exception_witness :
  let recv_frame :=
    frame_buffer.recv_frame (interrupted_source 3 (OSError "timed out")) utf8_valid little 8 in
  let first := recv_frame (frame_buffer.__init__
                             (Some 6, 0,
                              [x81; x85; x01; x02; x03; x04; x49; x67; x6f; x68; x6e]
                              ++ [x88; x00])
                             false) in
  let second := recv_frame (snd first) in
  fst first = Raise (OSError "timed out")
  /\ fst second
     = Ok (ABNF.__init__ 1 0 0 0 ABNF.OPCODE_TEXT 1 (PyBytes (ascii_bytes "Hello")) None None)
  /\ snd second = frame_buffer.__init__ (None, 11, [x88; x00]) false.
Proof.
  exact (recv_frame_resumes_after_exception utf8_valid little false 3 (OSError "timed out") 8
           (mkwire 1 0 0 0 ABNF.OPCODE_TEXT len7 (Some [x01; x02; x03; x04])
                   (ascii_bytes "Hello"))
           [x88; x00] 6
           ltac:(unfold well_formed; cbn; repeat split; reflexivity)
           ltac:(reflexivity)
           ltac:(vm_compute; discriminate)
           (Nat.le_refl 8)
           ltac:(cbn; repeat constructor)
           ltac:(do 3 right; left; reflexivity)
           ltac:(reflexivity)).
Defined.


(** ** The decoder on any byte source *)

Lemma land_ones_lt (x k : N) : N.land x (N.ones k) < 2 ^ k.
Proof. rewrite N.land_ones. apply N.mod_lt. apply N.pow_nonzero. discriminate. Qed.

(** Whatever the two header bytes, [recv_header] stores one-bit flags, a
    4-bit opcode, a one-bit mask flag and a 7-bit length field. *)
Lemma parse_header_in_range (hb : bytes) : header_in_range (parse_header hb).
Proof.
  unfold parse_header, header_in_range.
  repeat split;
    first [ apply (land_ones_lt _ 1) | apply (land_ones_lt _ 4) | apply (land_ones_lt _ 7) ].
Qed.

Section AnySource.

Variable S : Type.
Variable recv_into_fn : S -> N -> reply * S.
Variable fuel : nat.
Variable validate_utf8 : bytes -> bool.
Variable native_byteorder : byteorder.

Local Abbreviation recv_frame :=
  (frame_buffer.recv_frame recv_into_fn validate_utf8 native_byteorder fuel).
Local Abbreviation rd := (read recv_into_fn fuel).

Local Abbreviation kept := (sound_call recv_into_fn validate_utf8).

Lemma kept_eq (sk : bool) (r r' : outcome ABNF.t * frame_buffer.t S) :
  r = r' -> kept sk r' -> kept sk r.
Proof. now intros ->. Qed.

Lemma kept_verdict (sk : bool) (f : ABNF.t) (s : S) :
  kept sk (verdict validate_utf8 sk f, frame_buffer.__init__ s sk).
Proof.
  unfold sound_call. cbn [fst snd]. split; [exact I|]. split; [reflexivity|].
  unfold verdict.
  destruct (validate_raises_protocol validate_utf8 f sk) as [E|(msg & arg & E)]; rewrite E;
    cbn [obind].
  - repeat split. exact E.
  - right; left. split; [repeat split|]. now exists msg, arg.
Qed.

(** A read that does not return leaves the parts held as they were.  The
    size of the read fits, or it is the payload read of an oversized frame. *)
Lemma kept_failed_read {A : Type} (st : frame_buffer.t S) (n : N)
    (k : bytes -> frame_buffer.t S -> outcome ABNF.t * frame_buffer.t S) :
  decoder_ok st ->
  n < 2 ^ 63
  \/ (exists (hd : frame_buffer.header_t) (kb : bytes),
         frame_buffer.header st = Some hd /\ frame_buffer.length st = Some n
         /\ frame_buffer.mask_value st = Some kb) ->
  (forall (b : bytes) (s1 : S),
      rd (frame_buffer.source st) n = (Ok b, s1) ->
      kept (frame_buffer.skip_utf8_validation st) (k b (with_source st s1))) ->
  kept (frame_buffer.skip_utf8_validation st)
       (after_read (rd (frame_buffer.source st) n) st k).
Proof.
  intros Hok Hn Hk. unfold after_read.
  destruct (rd (frame_buffer.source st) n) as [[b|e|] s1] eqn:R; cbn [fst snd].
  - now apply Hk.
  - unfold sound_call. cbn [fst snd].
    split; [destruct st; exact Hok|]. split; [reflexivity|].
    destruct (N.lt_ge_cases n (2 ^ 63)) as [Hlt|Hge].
    + left. apply (read_raises recv_into_fn fuel (frame_buffer.source st) n e Hlt).
      now rewrite R.
    + right; right.
      destruct Hn as [Hlt|(hd & kb & Hh & Hl & Hm)]; [exfalso; lia|].
      rewrite (read_overflow recv_into_fn fuel _ n Hge) in R. injection R as <- <-.
      split; [|reflexivity].
      exists hd, n, kb. destruct st; cbn in *. repeat split; assumption.
  - unfold sound_call. cbn [fst snd].
    split; [destruct st; exact Hok|]. split; [reflexivity|exact I].
Qed.

Lemma kept_payload (s : S) (sk : bool) (hd : frame_buffer.header_t) (l : N) (k : bytes) :
  decoder_ok (frame_buffer.mk s sk (Some hd) (Some l) (Some k)) ->
  kept sk (recv_frame (frame_buffer.mk s sk (Some hd) (Some l) (Some k))).
Proof.
  intros Hok. destruct hd as [[[[[[f r1] r2] r3] o] hm] bits].
  eapply kept_eq; [exact (recv_frame_payload recv_into_fn fuel validate_utf8 native_byteorder
             (frame_buffer.mk s sk (Some (f, r1, r2, r3, o, hm, bits)) (Some l) (Some k))
             f r1 r2 r3 o hm bits l k eq_refl eq_refl eq_refl)|].
  cbv zeta.
  apply (kept_failed_read (A := unit)
           (frame_buffer.mk s sk (Some (f, r1, r2, r3, o, hm, bits)) (Some l) (Some k)));
    [exact Hok|right; now eexists _, _|].
  intros raw s1 _.
  cbn [with_source frame_buffer.source frame_buffer.skip_utf8_validation].
  destruct Hok as (_ & Hk).
  cbn [frame_buffer.has_mask frame_buffer.header] in Hk.
  destruct (hm =? 0); cbn [negb].
  - apply kept_verdict.
  - rewrite mask_ok by exact Hk. apply kept_verdict.
Qed.

Lemma kept_mask (s : S) (sk : bool) (hd : frame_buffer.header_t) (l : N) :
  decoder_ok (frame_buffer.mk s sk (Some hd) (Some l) None) ->
  kept sk (recv_frame (frame_buffer.mk s sk (Some hd) (Some l) None)).
Proof.
  intros Hok. destruct hd as [[[[[[f r1] r2] r3] o] hm] bits].
  eapply kept_eq;
    [exact (recv_frame_mask recv_into_fn fuel validate_utf8 native_byteorder
              (frame_buffer.mk s sk (Some (f, r1, r2, r3, o, hm, bits)) (Some l) None)
              (f, r1, r2, r3, o, hm, bits) l eq_refl eq_refl eq_refl)|].
  cbv zeta. cbn [frame_buffer.has_mask frame_buffer.header frame_buffer.source
                 frame_buffer.skip_utf8_validation].
  destruct (hm =? 0) eqn:Hm; cbn [negb].
  - apply kept_payload. unfold decoder_ok.
    cbn [frame_buffer.has_mask frame_buffer.header frame_buffer.length
         frame_buffer.mask_value].
    rewrite Hm. split; [exact Hok|reflexivity].
  - apply (kept_failed_read (A := unit)
             (frame_buffer.mk s sk (Some (f, r1, r2, r3, o, hm, bits)) (Some l) None));
      [exact Hok|left; reflexivity|].
    intros k s1 R. cbn [with_source frame_buffer.source frame_buffer.skip_utf8_validation].
    apply kept_payload. unfold decoder_ok.
    cbn [frame_buffer.has_mask frame_buffer.header frame_buffer.length
         frame_buffer.mask_value].
    rewrite Hm. split; [exact Hok|].
    assert (Hk : len k = 4)
      by (apply (read_len recv_into_fn fuel s 4); cbn [frame_buffer.source] in R;
          now rewrite R).
    unfold len in Hk. lia.
Qed.

Lemma kept_length (s : S) (sk : bool) (hd : frame_buffer.header_t) :
  decoder_ok (frame_buffer.mk s sk (Some hd) None None) ->
  kept sk (recv_frame (frame_buffer.mk s sk (Some hd) None None)).
Proof.
  intros Hok.
  eapply kept_eq; [exact (recv_frame_length recv_into_fn fuel validate_utf8 native_byteorder
             (frame_buffer.mk s sk (Some hd) None None) hd eq_refl eq_refl)|].
  cbv zeta.
  assert (Hext : forall w : N,
             w < 2 ^ 63 ->
             kept sk
               (after_read (rd (frame_buffer.source (frame_buffer.mk s sk (Some hd) None None))
                                 w)
                  (frame_buffer.mk s sk (Some hd) None None)
                  (fun v st1 =>
                     match struct_unpack w v with
                     | Ok l =>
                         recv_frame (frame_buffer.mk (frame_buffer.source st1) sk (Some hd)
                                       (Some l) None)
                     | Raise e => (Raise e, st1)
                     | OutOfFuel => (OutOfFuel, st1)
                     end))).
  { intros w Hw.
    apply (kept_failed_read (A := unit) (frame_buffer.mk s sk (Some hd) None None));
      [exact Hok|left; exact Hw|].
    intros v s1 R. cbn [with_source frame_buffer.source frame_buffer.skip_utf8_validation].
    rewrite struct_unpack_ok
      by (apply (read_len recv_into_fn fuel s w); cbn [frame_buffer.source] in R;
          now rewrite R).
    apply kept_mask. exact Hok. }
  destruct (N.land (snd hd) 127 =? 126); [apply Hext; reflexivity|].
  destruct (N.land (snd hd) 127 =? 127); [apply Hext; reflexivity|].
  apply kept_mask. exact Hok.
Qed.

Lemma kept_header (s : S) (sk : bool) :
  kept sk (recv_frame (frame_buffer.mk s sk None None None)).
Proof.
  eapply kept_eq; [exact (recv_frame_header recv_into_fn fuel validate_utf8 native_byteorder
             (frame_buffer.mk s sk None None None) eq_refl)|].
  apply (kept_failed_read (A := unit) (frame_buffer.mk s sk None None None));
    [exact I|left; reflexivity|].
  intros hb s1 _. cbn [with_source frame_buffer.source frame_buffer.skip_utf8_validation
                       frame_buffer.length frame_buffer.mask_value].
  apply kept_length. apply parse_header_in_range.
Qed.

(** From any state in which the parts are held in order. *)
Lemma recv_frame_kept (st : frame_buffer.t S) :
  decoder_ok st ->
  kept (frame_buffer.skip_utf8_validation st) (recv_frame st).
Proof.
  destruct st as [s sk [hd|] [l|] [k|]]; unfold decoder_ok;
    cbn [frame_buffer.header frame_buffer.length frame_buffer.mask_value
         frame_buffer.skip_utf8_validation];
    intros Hok; try (now destruct Hok).
  - now apply kept_payload.
  - now apply kept_mask.
  - now apply kept_length.
  - apply kept_header.
Qed.

(** A decoder that holds the three parts of an oversized frame raises the
    [OverflowError] of [bytearray] on every call, and stays as it is. *)
Lemma recv_frame_oversized (st : frame_buffer.t S) :
  oversized st ->
  recv_frame st
  = (Raise (OverflowError "cannot fit 'int' into an index-sized integer"), st).
Proof.
  intros (hd & l & k & Hh & Hl & Hm & Hge).
  destruct hd as [[[[[[f r1] r2] r3] o] hm] bits].
  eapply eq_trans;
    [exact (recv_frame_payload recv_into_fn fuel validate_utf8 native_byteorder st
              f r1 r2 r3 o hm bits l k Hh Hl Hm)|].
  cbv zeta. rewrite (read_overflow recv_into_fn fuel _ l Hge).
  unfold after_read. cbn [fst snd]. now rewrite with_source_same.
Qed.

Lemma after_calls_ok (n : nat) :
  forall st : frame_buffer.t S,
    decoder_ok st ->
    decoder_ok (after_calls recv_into_fn validate_utf8 native_byteorder fuel n st)
    /\ frame_buffer.skip_utf8_validation
         (after_calls recv_into_fn validate_utf8 native_byteorder fuel n st)
       = frame_buffer.skip_utf8_validation st.
Proof.
  induction n as [|n IH]; intros st Hok; cbn [after_calls].
  - now split.
  - destruct (recv_frame_kept st Hok) as (Hok' & Hsk & _).
    destruct (IH _ Hok') as (A & B). split; [exact A|]. now rewrite B.
Qed.

End AnySource.

Arguments recv_frame_kept {S}.
Arguments recv_frame_oversized {S}.
Arguments after_calls_ok {S}.

(** X14: the decoder holds the parts of a frame in order.  In every state a
    decoder reaches from its creation, after any number of calls of
    [recv_frame], whatever bytes arrive and whatever the byte source does
    (deliver, raise, or stall), a length is held only together with a header
    and a mask key only together with a length; a held header has one-bit
    flags, an opcode below 16, a one-bit mask flag and a length field below
    128; a held mask key has 4 bytes if the header says the frame is masked
    and is empty if not; and skip_utf8_validation is what the decoder was
    created with. *)
Theorem decoder_holds_parts_in_order {S : Type} (recv_into_fn : S -> N -> reply * S)
    (validate_utf8 : bytes -> bool) (native_byteorder : byteorder) (fuel : nat)
    (s : S) (skip_utf8_validation : bool) (n : nat) :
  let st := after_calls recv_into_fn validate_utf8 native_byteorder fuel n
              (frame_buffer.__init__ s skip_utf8_validation) in
  frame_buffer.skip_utf8_validation st = skip_utf8_validation
  /\ (frame_buffer.header st = None -> frame_buffer.length st = None)
  /\ (frame_buffer.length st = None -> frame_buffer.mask_value st = None)
  /\ (forall hd : frame_buffer.header_t,
         frame_buffer.header st = Some hd -> header_in_range hd)
  /\ (forall k : bytes,
         frame_buffer.mask_value st = Some k ->
         if frame_buffer.has_mask st =? 0 then k = [] else List.length k = 4%nat).
Proof.
  cbv zeta.
  destruct (after_calls_ok recv_into_fn fuel validate_utf8 native_byteorder n
              (frame_buffer.__init__ s skip_utf8_validation) I) as (Hok & Hsk).
  split; [exact Hsk|].
  destruct (after_calls _ _ _ _ _ _) as [s' sk' [hd|] [l|] [k|]]; unfold decoder_ok in Hok;
    cbn [frame_buffer.header frame_buffer.length frame_buffer.mask_value] in *;
    try (now destruct Hok);
    (split; [try discriminate; intros _; reflexivity|]);
    (split; [try discriminate; intros _; reflexivity|]);
    (split; [intros hd' E; try discriminate; injection E as <-; tauto|]);
    intros k' E; try discriminate.
  injection E as <-. apply Hok.
Qed.

(** X15: what [recv_frame] can end with.  From every state a decoder
    reaches, a call of [recv_frame] that returns a frame returns one that
    [validate] accepts, and the decoder holds no part of it any more; and a
    call that raises raises an exception that a call of the byte source
    raised, or a [WebSocketProtocolException] (the frame was read in full and
    rejected) with no part held any more, or the [OverflowError] of
    [bytearray(bufsize)] for a frame whose header announces a payload of
    [2^63] bytes or more.  In this last case the decoder keeps header, length
    and mask key, so the next call raises the same [OverflowError] again
    and leaves the decoder as it is, without reading a byte.  So, unless the
    byte source itself raises them, no [struct.error] and no [TypeError]
    comes out of the decoder: the reads always have the size the unpacking
    needs, and the parts are always there when they are used. *)
Theorem recv_frame_outcomes {S : Type} (recv_into_fn : S -> N -> reply * S)
    (validate_utf8 : bytes -> bool) (native_byteorder : byteorder) (fuel : nat)
    (s : S) (skip_utf8_validation : bool) (n : nat) :
  let recv_frame := frame_buffer.recv_frame recv_into_fn validate_utf8 native_byteorder fuel in
  let st := after_calls recv_into_fn validate_utf8 native_byteorder fuel n
              (frame_buffer.__init__ s skip_utf8_validation) in
  let r := recv_frame st in
  match fst r with
  | Ok f =>
      ABNF.validate validate_utf8 f skip_utf8_validation = Ok tt /\ cleared (snd r)
  | Raise e =>
      source_raises recv_into_fn e
      \/ (cleared (snd r)
          /\ exists (msg : string) (arg : option N), e = WebSocketProtocolException msg arg)
      \/ ((exists msg : string, e = OverflowError msg)
          /\ oversized (snd r)
          /\ recv_frame (snd r) = (Raise e, snd r))
  | OutOfFuel => True
  end.
Proof.
  cbv zeta.
  destruct (after_calls_ok recv_into_fn fuel validate_utf8 native_byteorder n
              (frame_buffer.__init__ s skip_utf8_validation) I) as (Hok & Hsk).
  cbn [frame_buffer.__init__ frame_buffer.skip_utf8_validation] in Hsk.
  destruct (recv_frame_kept recv_into_fn fuel validate_utf8 native_byteorder _ Hok)
    as (_ & _ & H).
  rewrite Hsk in H.
  pose proof (recv_frame_oversized recv_into_fn fuel validate_utf8 native_byteorder) as Hov.
  destruct (frame_buffer.recv_frame _ _ _ _ _) as [[f|e|] st']; cbn [fst snd] in *;
    [| |exact I].
  - destruct H as (A & B). now split.
  - destruct H as [H|[H|(Ho & ->)]]; [now left|now right; left|].
    right; right. split; [now eexists|]. split; [exact Ho|]. now apply Hov.
Qed.


(** ** Head margins, from the encoder to the decoder *)

Lemma len_slice {A} (l : list A) (a b : N) : b <= len l -> len (slice l a b) = b - a.
Proof.
  unfold len, slice. intros H. rewrite length_firstn, length_skipn. lia.
Qed.

(** The decoder on the header of an unmasked frame that declares [L] bytes,
    followed by at least that many bytes. *)
Lemma recv_frame_unmasked_prefix (validate_utf8 : bytes -> bool) (bo : byteorder)
    (skip : bool) (cap : N) (fuel : nat) (f : ABNF.t) (payload rest : bytes) :
  encodable f ->
  ABNF.mask_value f = 0 ->
  len payload = ABNF.data_msg_length_bytes f ->
  1 <= cap ->
  (8 <= fuel)%nat ->
  (N.to_nat (ABNF.data_msg_length_bytes f) <= fuel)%nat ->
  frame_buffer.recv_frame (stream_source cap) validate_utf8 bo fuel
    (frame_buffer.__init__ (header_of f ++ payload ++ rest) skip)
  = (verdict validate_utf8 skip
       (ABNF.__init__ (ABNF.fin f) (ABNF.rsv1 f) (ABNF.rsv2 f) (ABNF.rsv3 f) (ABNF.opcode f)
          (ABNF.mask_value f) (PyByteArray payload) None None),
     frame_buffer.__init__ rest skip).
Proof.
  intros He Hm HL Hcap Hfuel Hpay.
  pose proof He as (Hf & H1 & H2 & H3 & Hop & Hmv & Hlt).
  unfold header_of. rewrite <- HL, Hm.
  change 0 with (mask_bit None) at 1.
  rewrite app_assoc, <- (wire_bytes_header_spec _ _ _ _ _ None payload).
  rewrite recv_frame_wire; try assumption.
  - reflexivity.
  - repeat split; try assumption; cbn [w_opcode w_form w_payload w_key].
    + now apply In_OPCODES_lt.
    + apply fits_shortest_form. rewrite HL.
      eapply N.lt_trans; [exact Hlt|apply pow_63_64].
  - cbn [w_payload]. rewrite HL. exact Hlt.
  - cbn [w_payload]. rewrite <- len_nat, HL. exact Hpay.
Qed.

(** X16: a head margin the header does not fit into ends up on the wire.  For
    an unmasked frame whose head margin does not exceed the length of its
    header (a margin exactly as long as the header included), [format]
    returns the header, which carries the declared message length, followed by
    the whole buffer, margin and any bytes behind the message included.  The
    decoder, fed these bytes, builds a frame whose payload is the first
    declared-length bytes of the buffer, and the other bytes of the buffer
    stay on the stream in front of whatever follows.  Only with no margin and
    the buffer length declared is the payload the message. *)
Theorem format_copy_frames_whole_buffer (validate_utf8 : bytes -> bool)
    (native_byteorder : byteorder) (skip_utf8_validation : bool) (cap : N) (fuel : nat)
    (mask_key : bytes) (f : ABNF.t) (more : bytes) :
  encodable f ->
  ABNF.mask_value f = 0 ->
  ABNF.data_start_offset_bytes f <= len (header_of f) ->
  ABNF.data_msg_length_bytes f <= len (contents (ABNF.data f)) ->
  1 <= cap ->
  (8 <= fuel)%nat ->
  (N.to_nat (ABNF.data_msg_length_bytes f) <= fuel)%nat ->
  let buffer := contents (ABNF.data f) in
  let L := ABNF.data_msg_length_bytes f in
  exists (v : ABNF.memoryview) (f' : ABNF.t),
    ABNF.format native_byteorder mask_key f = (Ok v, f')
    /\ ABNF.tobytes v = header_of f ++ buffer
    /\ frame_buffer.recv_frame (stream_source cap) validate_utf8 native_byteorder fuel
         (frame_buffer.__init__ (ABNF.tobytes v ++ more) skip_utf8_validation)
       = (verdict validate_utf8 skip_utf8_validation
            (ABNF.__init__ (ABNF.fin f) (ABNF.rsv1 f) (ABNF.rsv2 f) (ABNF.rsv3 f)
               (ABNF.opcode f) (ABNF.mask_value f) (PyByteArray (slice_to buffer L))
               None None),
          frame_buffer.__init__ (slice_from buffer L ++ more) skip_utf8_validation).
Proof.
  intros He Hm Ho HL Hcap Hfuel Hpay buffer L.
  rewrite (format_unmasked_copy native_byteorder mask_key f He Hm Ho).
  eexists _, _. split; [reflexivity|]. rewrite tobytes_whole. fold buffer.
  split; [reflexivity|].
  rewrite <- (firstn_skipn (N.to_nat L) buffer) at 1.
  fold (slice_to buffer L). fold (slice_from buffer L).
  rewrite <- !app_assoc.
  apply recv_frame_unmasked_prefix; try assumption.
  apply len_slice_to_le. exact HL.
Qed.

Lemma format_copy_frames_whole_buffer_witness :
  exists (v : ABNF.memoryview) (f' : ABNF.t),
    ABNF.format little []
      (ABNF.create_frame (PyByteArray ([x00; x00] ++ ascii_bytes "Hello"))
                         ABNF.OPCODE_BINARY 1 false (Some 2) (Some 5))
    = (Ok v, f')
    /\ ABNF.tobytes v = [x82; x05; x00; x00] ++ ascii_bytes "Hello"
    /\ frame_buffer.recv_frame (stream_source 3) utf8_valid little 8
         (frame_buffer.__init__ (ABNF.tobytes v ++ []) false)
       = (Ok (data_frame ABNF.OPCODE_BINARY 1 ([x00; x00] ++ ascii_bytes "Hel")),
          frame_buffer.__init__ (ascii_bytes "lo") false).
Proof.
  destruct (format_copy_frames_whole_buffer utf8_valid little false 3 8 []
              (ABNF.create_frame (PyByteArray ([x00; x00] ++ ascii_bytes "Hello"))
                                 ABNF.OPCODE_BINARY 1 false (Some 2) (Some 5))
              [])
    as (v & f' & Hf & Hv & Hd).
  - unfold encodable. cbn. repeat split; try reflexivity. do 2 right. left. reflexivity.
  - reflexivity.
  - vm_compute. discriminate.
  - vm_compute. discriminate.
  - vm_compute. discriminate.
  - apply Nat.le_refl.
  - cbn. repeat constructor.
  - exists v, f'. split; [exact Hf|]. split; [rewrite Hv; reflexivity|].
    rewrite Hd. reflexivity.
Defined.

(** X17: a frame whose header was written in place decodes to the message.
    For an unmasked frame over a [bytearray] whose head margin is strictly
    larger than the header and whose declared message lies within the buffer,
    the bytes [format] returns, followed by anything, make the decoder build
    a frame with the same flag bits and opcode whose payload is exactly the
    declared message, the buffer from the margin on for the declared length,
    and leave what followed on the stream. *)
Theorem decode_frame_written_in_place (validate_utf8 : bytes -> bool)
    (native_byteorder : byteorder) (skip_utf8_validation : bool) (cap : N) (fuel : nat)
    (mask_key : bytes) (f : ABNF.t) (c more : bytes) :
  encodable f ->
  ABNF.mask_value f = 0 ->
  ABNF.data f = PyByteArray c ->
  len (header_of f) < ABNF.data_start_offset_bytes f ->
  ABNF.data_start_offset_bytes f + ABNF.data_msg_length_bytes f <= len c ->
  1 <= cap ->
  (8 <= fuel)%nat ->
  (N.to_nat (ABNF.data_msg_length_bytes f) <= fuel)%nat ->
  let off := ABNF.data_start_offset_bytes f in
  let L := ABNF.data_msg_length_bytes f in
  exists (v : ABNF.memoryview) (f' : ABNF.t),
    ABNF.format native_byteorder mask_key f = (Ok v, f')
    /\ frame_buffer.recv_frame (stream_source cap) validate_utf8 native_byteorder fuel
         (frame_buffer.__init__ (ABNF.tobytes v ++ more) skip_utf8_validation)
       = (verdict validate_utf8 skip_utf8_validation
            (ABNF.__init__ (ABNF.fin f) (ABNF.rsv1 f) (ABNF.rsv2 f) (ABNF.rsv3 f)
               (ABNF.opcode f) (ABNF.mask_value f) (PyByteArray (slice c off (off + L)))
               None None),
          frame_buffer.__init__ more skip_utf8_validation).
Proof.
  intros He Hm Hd Ho Hc Hcap Hfuel Hpay off L.
  rewrite (format_unmasked_in_place native_byteorder mask_key f c He Hm Hd Ho).
  cbv zeta. fold off. fold L.
  set (hl := len (header_of f)) in *.
  set (o := off - hl).
  eexists _, _. split; [reflexivity|].
  assert (Hlo : List.length (slice_to c o) = N.to_nat o).
  { pose proof (len_slice_to_le c o) as P. unfold len in P. unfold len in Hc.
    unfold o, hl, off, L, len in *. lia. }
  assert (Hv : ABNF.tobytes
                 (ABNF.mkview (PyByteArray (slice_to c o ++ header_of f ++ slice_from c off)) o
                              (o + (L + hl)))
               = header_of f ++ slice c off (off + L)).
  { unfold ABNF.tobytes, slice. cbn [ABNF.obj ABNF.start ABNF.stop contents].
    rewrite (skipn_app_exact _ _ _ Hlo).
    replace (N.to_nat (o + (L + hl) - o)) with (List.length (header_of f) + N.to_nat L)%nat
      by (unfold hl, len; lia).
    rewrite firstn_app_2. f_equal.
    unfold slice_from. f_equal. lia. }
  rewrite Hv, <- app_assoc.
  apply recv_frame_unmasked_prefix; try assumption.
  rewrite len_slice by (fold off L; lia). fold L. lia.
Qed.

Lemma decode_frame_written_in_place_witness :
  exists (v : ABNF.memoryview) (f' : ABNF.t),
    ABNF.format little []
      (ABNF.create_frame (PyByteArray ([x00; x00; x00] ++ ascii_bytes "Hello" ++ [xff]))
                         ABNF.OPCODE_TEXT 1 false (Some 3) (Some 5))
    = (Ok v, f')
    /\ frame_buffer.recv_frame (stream_source 3) utf8_valid little 8
         (frame_buffer.__init__ (ABNF.tobytes v ++ [x88; x00]) false)
       = (Ok (data_frame ABNF.OPCODE_TEXT 1 (ascii_bytes "Hello")),
          frame_buffer.__init__ [x88; x00] false).
Proof.
  destruct (decode_frame_written_in_place utf8_valid little false 3 8 []
              (ABNF.create_frame (PyByteArray ([x00; x00; x00] ++ ascii_bytes "Hello" ++ [xff]))
                                 ABNF.OPCODE_TEXT 1 false (Some 3) (Some 5))
              ([x00; x00; x00] ++ ascii_bytes "Hello" ++ [xff]) [x88; x00])
    as (v & f' & Hf & Hd).
  - unfold encodable. cbn. repeat split; try reflexivity. right. left. reflexivity.
  - reflexivity.
  - reflexivity.
  - reflexivity.
  - vm_compute. discriminate.
  - vm_compute. discriminate.
  - apply Nat.le_refl.
  - cbn. repeat constructor.
  - exists v, f'. split; [exact Hf|]. rewrite Hd. reflexivity.
Defined.
